(** * tubearchivist: request intake and refresh engine

    A shallow embedding of
    - [home/src/download/queue.py]  (PendingIndex, PendingList),
    - [home/src/index/comments.py]  (Comments),
    - [home/src/index/reindex.py]   (ReindexBase, ReindexOutdated,
      ReindexManual, Reindex, ReindexProgress, ChannelUrlFixer),
    and the properties of the specification that are settled on it.

    Python values that travel through Elasticsearch and Redis are JSON
    values; documents are finite maps from field names to JSON values;
    exceptions and the mutable stores are threaded through a small
    state-and-exception monad.  Floating point arithmetic (the factor 1.2
    of the refresh quota) is IEEE binary64 as specified by [SpecFloat]. *)

From Stdlib Require Import ZArith Lia Bool List Ascii String.
From Stdlib Require Import Floats.SpecFloat.
From stdpp Require Import base option list strings gmap fin_maps sorting pretty.

Set Warnings "-register-all".

Open Scope string_scope.
Open Scope Z_scope.
Open Scope list_scope.

(* ===================================================================== *)
(** * Part I: definitions                                                  *)
(* ===================================================================== *)

(** ** Python values, truthiness, exceptions *)

(** The exceptions this code raises. *)
Inductive exn : Type :=
| ZeroDivisionError
| OverflowError
| ValueError
| KeyError (key : string)
| TypeError
| AttributeError
| FileNotFoundError.

Inductive json : Type :=
| JNone
| JBool (b : bool)
| JInt (z : Z)
| JStr (s : string)
| JList (l : list json)
| JDict (kv : list (string * json)).

(** [bool(x)] / [if x:] on a JSON value. *)
Definition truthy (v : json) : bool :=
  match v with
  | JNone => false
  | JBool b => b
  | JInt z => negb (z =? 0)
  | JStr s => negb (String.eqb s "")
  | JList l => match l with [] => false | _ => true end
  | JDict kv => match kv with [] => false | _ => true end
  end.

(** [x == y], as far as the code compares values: structurally. *)
Fixpoint json_eqb (a b : json) {struct a} : bool :=
  match a, b with
  | JNone, JNone => true
  | JBool x, JBool y => Bool.eqb x y
  | JInt x, JInt y => x =? y
  | JStr x, JStr y => String.eqb x y
  | JList l1, JList l2 =>
      (fix go (l1 l2 : list json) {struct l1} : bool :=
         match l1, l2 with
         | [], [] => true
         | x :: xs, y :: ys => json_eqb x y && go xs ys
         | _, _ => false
         end) l1 l2
  | JDict d1, JDict d2 =>
      (fix go (d1 d2 : list (string * json)) {struct d1} : bool :=
         match d1, d2 with
         | [], [] => true
         | (k1, x) :: xs, (k2, y) :: ys =>
             String.eqb k1 k2 && json_eqb x y && go xs ys
         | _, _ => false
         end) d1 d2
  | _, _ => false
  end.

(** [x in l] for a Python list of JSON values. *)
Definition py_in (x : json) (l : list json) : bool := existsb (json_eqb x) l.

(** [x in l] for a list of strings. *)
Definition str_in (x : string) (l : list string) : bool :=
  existsb (String.eqb x) l.

(** A document: the [_source] of an Elasticsearch hit, a Python dict. *)
Abbreviation doc := (gmap string json).

(** Lookup in a nested dict value. *)
Fixpoint assoc_get (k : string) (kv : list (string * json)) : option json :=
  match kv with
  | [] => None
  | (k', v) :: rest => if String.eqb k k' then Some v else assoc_get k rest
  end.

Definition json_of_doc (d : doc) : json := JDict (map_to_list d).

(** [not d] on a dict: it has no key. *)
Definition map_size_eqb_zero (d : doc) : bool :=
  match map_to_list d with [] => true | _ => false end.

(** [d.get(k, False)] followed by a truth test. *)
Definition get_truthy (d : doc) (k : string) : bool :=
  match d !! k with Some v => truthy v | None => false end.

(** ** The state and exception monad *)

Inductive Result (S A : Type) : Type :=
| Ok (a : A) (s : S)
| Raise (e : exn) (s : S).
Arguments Ok {S A} a s.
Arguments Raise {S A} e s.

Definition M (S A : Type) : Type := S -> Result S A.

Definition ret {S A} (a : A) : M S A := fun s => Ok a s.
Definition raise {S A} (e : exn) : M S A := fun s => Raise e s.
Definition bind {S A B} (m : M S A) (k : A -> M S B) : M S B :=
  fun s => match m s with
           | Ok a s' => k a s'
           | Raise e s' => Raise e s'
           end.
Definition gets {S A} (f : S -> A) : M S A := fun s => Ok (f s) s.
Definition modify {S} (f : S -> S) : M S unit := fun s => Ok tt (f s).

(** Two exceptions of the same class. *)
Definition same_class (e e0 : exn) : bool :=
  match e, e0 with
  | ZeroDivisionError, ZeroDivisionError
  | OverflowError, OverflowError
  | ValueError, ValueError
  | KeyError _, KeyError _
  | TypeError, TypeError
  | AttributeError, AttributeError
  | FileNotFoundError, FileNotFoundError => true
  | _, _ => false
  end.

(** [try: m except e0: h] *)
Definition try_except {S A} (m : M S A) (e0 : exn) (h : M S A) : M S A :=
  fun s => match m s with
           | Ok a s' => Ok a s'
           | Raise e s' => if same_class e e0 then h s' else Raise e s'
           end.

Declare Scope py_scope.
Delimit Scope py_scope with py.
Notation "x <- m ;; k" := (bind m (fun x => k))
  (at level 20, m at level 99, k at level 200, only parsing) : py_scope.
Notation "' p <- m ;; k" := (bind m (fun x => let 'p := x in k))
  (at level 20, p pattern, m at level 99, k at level 200, only parsing)
  : py_scope.
Notation "m ;;; k" := (bind m (fun _ => k))
  (at level 100, k at level 200, only parsing, right associativity)
  : py_scope.
Open Scope py_scope.

(** The state reached, whatever the outcome. *)
Definition final {S A} (r : Result S A) : S :=
  match r with Ok _ s => s | Raise _ s => s end.

Definition is_ok {S A} (r : Result S A) : bool :=
  match r with Ok _ _ => true | Raise _ _ => false end.

(** [for x in l: body x] *)
Fixpoint for_each {S A} (l : list A) (body : A -> M S unit) : M S unit :=
  match l with
  | [] => ret tt
  | x :: rest => body x ;;; for_each rest body
  end.

(** A pure computation that may raise. *)
Definition lift_exn {S A} (r : exn + A) : M S A :=
  match r with inl e => raise e | inr a => ret a end.

(** [d[k]] on a dict: KeyError when absent. *)
Definition item (d : doc) (k : string) : exn + json :=
  match d !! k with Some v => inr v | None => inl (KeyError k) end.

(** [d[k]] where [d] may be [None]/[False] (not subscriptable). *)
Definition subscript (d : option doc) (k : string) : exn + json :=
  match d with None => inl TypeError | Some d => item d k end.

(** ** IEEE binary64 and the arithmetic of [int * float] and [int(float)] *)

Module Float64.

Definition prec : Z := 53.
Definition emax : Z := 1024.

(** The literal [1.2]: 0x3FF3333333333333. *)
Definition lit_1_2 : spec_float := S754_finite false 5404319552844595 (-52).

(** [float(k)] for a Python int: round to nearest even, OverflowError when
    the int is too large. *)
Definition of_int (k : Z) : exn + spec_float :=
  match binary_normalize prec emax k 0 false with
  | S754_infinity _ => inl OverflowError
  | f => inr f
  end.

(** [k * x] for an int [k] and a float [x]. *)
Definition int_mul (k : Z) (x : spec_float) : exn + spec_float :=
  match of_int k with
  | inl e => inl e
  | inr fk => inr (SFmul prec emax fk x)
  end.

(** [int(x)]: truncation towards zero. *)
Definition to_int (x : spec_float) : exn + Z :=
  match x with
  | S754_zero _ => inr 0
  | S754_nan => inl ValueError
  | S754_infinity _ => inl OverflowError
  | S754_finite s m e =>
      let a := match e with
               | Z0 => Zpos m
               | Zpos _ => Zpos m * 2 ^ e
               | Zneg p => Zpos m / 2 ^ Zpos p
               end in
      inr (if s then - a else a)
  end.

End Float64.

(** ** The stores and the collaborators outside the repository's files *)

(** What the code does to collaborators that keep no state of interest
    here: console output, sleeping, the thumbnail cache, subtitle files,
    the playlist subscription handler.  Newest event first. *)
Inductive event : Type :=
| EvPrint (msg : string)
| EvSleep (secs : Z)
| EvThumbDownload (youtube_id : string) (url : json)
| EvThumbDelete (youtube_id : string)
| EvDeleteSubtitles (youtube_id : string) (subtitles : option json)
| EvPlaylistSubscription (url : string) (subscribed : bool)
| EvMoveToArchive (youtube_id : string).

(** The Elasticsearch indices (index name, document id) ↦ [_source],
    the RedisArchivist messages key ↦ (message, expire), the log of
    events, the number of requests sent upstream so far, and the media
    files present on disk. *)
Record Store : Type := mkStore {
  es : gmap (string * string) doc;
  messages : gmap string (json * json);
  log : list event;
  clock : nat;
  fs : gset string;
}.

(** The store together with the Redis lists behind [RedisQueue]. *)
Record World : Type := mkWorld {
  store : Store;
  queues : gmap string (list string);
}.

Definition set_es (f : gmap (string * string) doc -> gmap (string * string) doc)
  (s : Store) : Store :=
  mkStore (f (es s)) (messages s) (log s) (clock s) (fs s).
Definition set_messages (f : gmap string (json * json) -> gmap string (json * json))
  (s : Store) : Store :=
  mkStore (es s) (f (messages s)) (log s) (clock s) (fs s).
Definition add_event (e : event) (s : Store) : Store :=
  mkStore (es s) (messages s) (e :: log s) (clock s) (fs s).
Definition set_fs (f : gset string -> gset string) (s : Store) : Store :=
  mkStore (es s) (messages s) (log s) (clock s) (f (fs s)).
Definition bump_clock (s : Store) : Store :=
  mkStore (es s) (messages s) (log s) (S (clock s)) (fs s).
Definition set_store (w : World) (s : Store) : World := mkWorld s (queues w).
Definition set_queues (f : gmap string (list string) -> gmap string (list string))
  (w : World) : World :=
  mkWorld (store w) (f (queues w)).

(** Run a computation on the store inside a computation on the world. *)
Definition lift {A} (m : M Store A) : M World A :=
  fun w => match m (store w) with
           | Ok a s => Ok a (set_store w s)
           | Raise e s => Raise e (set_store w s)
           end.

Definition emit (e : event) : M Store unit := modify (add_event e).
Definition print (msg : string) : M Store unit := emit (EvPrint msg).

(** [AppConfig().config], the keys this code reads. *)
Record Config : Type := mkConfig {
  scheduler_check_reindex_days : Z;
  downloads_cookie_import : json;
  downloads_sleep_interval : option Z;
  downloads_comment_max : json;
  downloads_comment_sort : string;
  application_videos : string;
  application_cache_dir : string;
}.

(** The options object handed to the metadata extractor. *)
Inductive yt_obs : Type :=
| ObsPending
| ObsComments (max_comments : list string) (comment_sort : string).

(** What [YoutubeVideo.build_json] leaves behind. *)
Inductive video_build : Type :=
| BuildFresh (json_data : doc)
| BuildNoMeta
| BuildRaise (e : exn).

(** The collaborators whose code is outside these files: configuration,
    the wall clock, the upstream platform behind the extractor, and the
    library functions on dates and paths.  An upstream answer may depend
    on how many requests were sent before it ([nat] argument). *)
Class Env : Type := mkEnv {
  config : Config;
  now : Z;
  cookie_validate : nat -> bool;
  video_build_json : nat -> string -> video_build;
  video_check_subtitles : nat -> string -> option json;
  channel_get_from_youtube : nat -> string -> option doc;
  playlist_build_json : nat -> string -> bool -> option (list json) -> option doc;
  yt_extract : nat -> yt_obs -> string -> option doc;
  channel_last_youtube_videos : nat -> string -> list (string * string);
  duration_get_str : json -> string;
  upload_date_iso : json -> exn + string;
  strftime_utc : Z -> string -> string;
  str_remove_nbsp : string -> string;
  video_media_url_should : nat -> string -> option json;
  os_path_join : string -> string -> string;
  os_path_dirname : string -> string;
}.

(** One request upstream: the answer is read at the current clock. *)
Definition upstream {A} (ask : nat -> A) : M Store A :=
  fun s => Ok (ask (clock s)) (bump_clock s).

(** ** Elasticsearch *)

Module ElasticWrap.

(** Modelled from the spec: [ElasticWrap] and [IndexPaginate] of
    [home.src.es.connect] are not among the files; §6 names the
    operations: get-by-id, document replace, partial update, delete,
    delete-by-query, count with filter, search with sort, batched
    create. *)

(** [GET index/_doc/id]: the [_source], or nothing on 404. *)
Definition get (index id : string) : M Store (option doc) :=
  gets (fun s => es s !! (index, id)).

(** [PUT index/_doc/id]: replace the whole document. *)
Definition put (index id : string) (d : doc) : M Store unit :=
  modify (set_es (insert (index, id) d)).

(** [POST index/_update/id {"doc": fields}]: the given fields win, the
    others stay; nothing happens when the document is absent. *)
Definition update (index id : string) (fields : doc) : M Store unit :=
  modify (set_es (alter (fun old => fields ∪ old) (index, id))).

(** [DELETE index/_doc/id] *)
Definition delete (index id : string) : M Store unit :=
  modify (set_es (base.delete (index, id))).

(** The hits of an index, as (id, source) pairs. *)
Definition docs_of (index : string) (m : gmap (string * string) doc)
  : list (string * doc) :=
  omap (fun kd : (string * string) * doc =>
          if String.eqb (fst (fst kd)) index
          then Some (snd (fst kd), snd kd) else None)
       (map_to_list m).

(** The order of a sort clause on one field: numbers by value, then
    strings lexicographically, then everything else (and documents
    without the field). *)
Definition key_leb (a b : option json) : bool :=
  match a, b with
  | Some (JInt x), Some (JInt y) => x <=? y
  | Some (JInt _), _ => true
  | Some (JStr _), Some (JInt _) => false
  | Some (JStr x), Some (JStr y) => String.leb x y
  | Some (JStr _), _ => true
  | _, Some (JInt _) => false
  | _, Some (JStr _) => false
  | _, _ => true
  end.

Definition hit_le (field : string) (asc : bool) : relation (string * doc) :=
  fun a b =>
    if asc then key_leb (snd a !! field) (snd b !! field) = true
    else key_leb (snd b !! field) (snd a !! field) = true.

#[global] Instance hit_le_dec field asc a b : Decision (hit_le field asc a b).
Proof. unfold hit_le. destruct asc; apply _. Defined.

(** [{"query": ..., "sort": [{field: {"order": ...}}], "size": ...}] *)
Definition search (index : string) (query : doc -> bool)
  (sort_field : string) (asc : bool) (size : option nat)
  : M Store (list (string * doc)) :=
  gets (fun s =>
    let hits := merge_sort (hit_le sort_field asc)
                  (filter (fun h => query (snd h) = true) (docs_of index (es s))) in
    match size with Some n => take n hits | None => hits end).

(** [hits.total.value] of a search. *)
Definition count (index : string) (query : doc -> bool) : M Store Z :=
  gets (fun s =>
    Z.of_nat (length (filter (fun h => query (snd h) = true)
                        (docs_of index (es s))))).

(** [POST index/_update_by_query]: rewrite every matching document. *)
Definition update_by_query (index : string) (query : doc -> bool)
  (script : doc -> doc) : M Store unit :=
  modify (set_es (map_imap (fun k d =>
    Some (if String.eqb (fst k) index && query d then script d else d)))).

(** [POST index/_delete_by_query] *)
Definition delete_by_query (index : string) (query : doc -> bool)
  : M Store unit :=
  modify (set_es (map_imap (fun k d =>
    if String.eqb (fst k) index && query d then None else Some d))).

(** [POST _bulk] of create actions: an action whose id exists fails
    alone, the others are carried out. *)
Definition bulk_create (actions : list (string * string * doc)) : M Store unit :=
  for_each actions (fun a =>
    let '(index, id, d) := a in
    modify (set_es (fun m =>
      match m !! (index, id) with
      | Some _ => m
      | None => <[(index, id) := d]> m
      end))).

(** [{"match": {field: True}}] *)
Definition match_true (field : string) (d : doc) : bool :=
  match d !! field with Some (JBool true) => true | _ => false end.

(** [{"range": {field: {"lte": bound}}}] *)
Definition range_lte (field : string) (bound : Z) (d : doc) : bool :=
  match d !! field with Some (JInt t) => t <=? bound | _ => false end.

(** [{"term": {"outer.inner": {"value": v}}}] on a nested object. *)
Definition term_nested (outer inner : string) (v : string) (d : doc) : bool :=
  match d !! outer with
  | Some (JDict kv) =>
      match assoc_get inner kv with
      | Some x => json_eqb x (JStr v)
      | None => false
      end
  | _ => false
  end.

(** [{"term": {field: {"value": v}}}]; a list field matches on any of
    its elements. *)
Definition term (field : string) (v : string) (d : doc) : bool :=
  match d !! field with
  | Some (JList l) => py_in (JStr v) l
  | Some x => json_eqb x (JStr v)
  | None => false
  end.

Definition match_all (d : doc) : bool := true.

End ElasticWrap.

(** ** Redis *)

Module RedisArchivist.

(** Modelled from the spec: [RedisArchivist] of [home.src.ta.ta_redis] is
    not among the files; §6: a key-value channel for messages with an
    optional expiry. *)
Definition set_message (key : string) (message expire : json) : M Store unit :=
  modify (set_messages (insert key (message, expire))).

End RedisArchivist.

Module RedisQueue.

(** Modelled from the spec: [RedisQueue] of [home.src.ta.ta_redis] is not
    among the files; §6: push-list (idempotent), pop-one, list-all (for
    depth and membership); §9 leaves the pop order open and asks for
    FIFO. *)

Definition get_all (queue_name : string) : M World (list string) :=
  gets (fun w => default [] (queues w !! queue_name)).

Definition in_queue (queue_name : string) (element : string) : M World bool :=
  gets (fun w => str_in element (default [] (queues w !! queue_name))).

Definition has_item (queue_name : string) : M World bool :=
  gets (fun w => match default [] (queues w !! queue_name) with
                 | [] => false
                 | _ => true
                 end).

(** An identifier already in the list is not pushed again. *)
Fixpoint push_new (q to_add : list string) : list string :=
  match to_add with
  | [] => q
  | x :: rest => push_new (if str_in x q then q else q ++ [x]) rest
  end.

Definition add_list (queue_name : string) (to_add : list string) : M World unit :=
  modify (set_queues (fun qs =>
    <[queue_name := push_new (default [] (qs !! queue_name)) to_add]> qs)).

(** Pop the head; nothing ([False]) when the list is empty. *)
Definition get_next (queue_name : string) : M World (option string) :=
  fun w => match default [] (queues w !! queue_name) with
           | [] => Ok None w
           | x :: rest => Ok (Some x) (set_queues (insert queue_name rest) w)
           end.

End RedisQueue.

(** ** Methods on an object with mutable attributes

    The attributes of [self] are part of the state, next to the store:
    an exception leaves them as they were when it was raised. *)

Definition on_store {O A} (m : M Store A) : M (Store * O) A :=
  fun so => match m (fst so) with
            | Ok a s' => Ok a (s', snd so)
            | Raise e s' => Raise e (s', snd so)
            end.
Definition self_get {O A} (f : O -> A) : M (Store * O) A :=
  gets (fun so => f (snd so)).
Definition self_set {O} (f : O -> O) : M (Store * O) unit :=
  modify (fun so => (fst so, f (snd so))).

(** A JSON value used as an identifier or a dict key: a string. *)
Definition as_str (v : json) : exn + string :=
  match v with JStr s => inr s | _ => inl TypeError end.

(** ** queue.py *)

(** One entry of the request list: [{"type": ..., "url": ...}]. *)
Record entry : Type := mkEntry { etype : string; url : string }.

Module PendingIndex.

(** The attributes of a [PendingIndex]; [youtube_ids] and
    [missing_videos] are those the subclass [PendingList] adds.  [None]
    is the initial [False]. *)
Record t : Type := mk {
  all_pending : option (list doc);
  all_ignored : option (list doc);
  all_videos : option (list doc);
  all_channels : option (list string);
  channel_overwrites : option (gmap string json);
  video_overwrites : option (gmap string json);
  to_skip : option (list json);
  youtube_ids : option (list entry);
  missing_videos : option (list string);
}.

Definition set_all_pending v (o : t) : t :=
  mk v (all_ignored o) (all_videos o) (all_channels o) (channel_overwrites o)
     (video_overwrites o) (to_skip o) (youtube_ids o) (missing_videos o).
Definition set_all_ignored v (o : t) : t :=
  mk (all_pending o) v (all_videos o) (all_channels o) (channel_overwrites o)
     (video_overwrites o) (to_skip o) (youtube_ids o) (missing_videos o).
Definition set_all_videos v (o : t) : t :=
  mk (all_pending o) (all_ignored o) v (all_channels o) (channel_overwrites o)
     (video_overwrites o) (to_skip o) (youtube_ids o) (missing_videos o).
Definition set_all_channels v (o : t) : t :=
  mk (all_pending o) (all_ignored o) (all_videos o) v (channel_overwrites o)
     (video_overwrites o) (to_skip o) (youtube_ids o) (missing_videos o).
Definition set_channel_overwrites v (o : t) : t :=
  mk (all_pending o) (all_ignored o) (all_videos o) (all_channels o) v
     (video_overwrites o) (to_skip o) (youtube_ids o) (missing_videos o).
Definition set_video_overwrites v (o : t) : t :=
  mk (all_pending o) (all_ignored o) (all_videos o) (all_channels o)
     (channel_overwrites o) v (to_skip o) (youtube_ids o) (missing_videos o).
Definition set_to_skip v (o : t) : t :=
  mk (all_pending o) (all_ignored o) (all_videos o) (all_channels o)
     (channel_overwrites o) (video_overwrites o) v (youtube_ids o)
     (missing_videos o).
Definition set_missing_videos v (o : t) : t :=
  mk (all_pending o) (all_ignored o) (all_videos o) (all_channels o)
     (channel_overwrites o) (video_overwrites o) (to_skip o) (youtube_ids o) v.

(** [__init__] *)
Definition init : t := mk None None None None None None None None None.

(** [IndexPaginate(index, {"query": {"match_all": {}}, "sort": ...}).get_results()] *)
Definition paginate_all (index sort_field : string) (asc : bool)
  : M Store (list doc) :=
  hits <- ElasticWrap.search index ElasticWrap.match_all sort_field asc None ;;
  ret (map snd hits).

(** [self.attr.append(x)]: AttributeError on the initial [False]. *)
Definition append_to {A} (get : t -> option (list A))
  (set : option (list A) -> t -> t) (x : A) : M (Store * t) unit :=
  cur <- self_get get ;;
  match cur with
  | None => raise AttributeError
  | Some l => self_set (set (Some (l ++ [x])%list))
  end.

Definition get_download : M (Store * t) unit :=
  all_results <- on_store (paginate_all "ta_download" "timestamp" true) ;;
  self_set (set_all_pending (Some [])) ;;;
  self_set (set_all_ignored (Some [])) ;;;
  self_set (set_to_skip (Some [])) ;;;
  for_each all_results (fun result =>
    youtube_id <- lift_exn (item result "youtube_id") ;;
    append_to to_skip set_to_skip youtube_id ;;;
    status <- lift_exn (item result "status") ;;
    if json_eqb status (JStr "pending")
    then append_to all_pending set_all_pending result
    else
      status' <- lift_exn (item result "status") ;;
      if json_eqb status' (JStr "ignore")
      then append_to all_ignored set_all_ignored result
      else ret tt).

Definition get_indexed : M (Store * t) unit :=
  videos <- on_store (paginate_all "ta_video" "published" false) ;;
  self_set (set_all_videos (Some videos)) ;;;
  for_each videos (fun video =>
    youtube_id <- lift_exn (item video "youtube_id") ;;
    append_to to_skip set_to_skip youtube_id).

(** [for video in self.all_pending: ...] *)
Definition _map_overwrites : M (Store * t) unit :=
  self_set (set_video_overwrites (Some ∅)) ;;;
  pending <- self_get all_pending ;;
  match pending with
  | None => raise TypeError
  | Some pending =>
      for_each pending (fun video =>
        video_id <- lift_exn (item video "youtube_id") ;;
        video_id <- lift_exn (as_str video_id) ;;
        channel_id <- lift_exn (item video "channel_id") ;;
        channel_id <- lift_exn (as_str channel_id) ;;
        co <- self_get channel_overwrites ;;
        match default ∅ co !! channel_id with
        | Some overwrites =>
            if truthy overwrites
            then self_set (fun o =>
                   set_video_overwrites
                     (Some (<[video_id := overwrites]> (default ∅ (video_overwrites o)))) o)
            else ret tt
        | None => ret tt
        end)
  end.

Definition get_channels : M (Store * t) unit :=
  self_set (set_all_channels (Some [])) ;;;
  self_set (set_channel_overwrites (Some ∅)) ;;;
  channels <- on_store (paginate_all "ta_channel" "channel_id" true) ;;
  for_each channels (fun channel =>
    channel_id <- lift_exn (item channel "channel_id") ;;
    channel_id <- lift_exn (as_str channel_id) ;;
    append_to all_channels set_all_channels channel_id ;;;
    if get_truthy channel "channel_overwrites"
    then self_set (fun o =>
           set_channel_overwrites
             (Some (<[channel_id := default JNone (channel !! "channel_overwrites")]>
                      (default ∅ (channel_overwrites o)))) o)
    else ret tt) ;;;
  _map_overwrites.

End PendingIndex.

Module PendingList.
Import PendingIndex.

Section WithEnv.
Context `{Env}.

(** [__init__(youtube_ids)] *)
Definition init (youtube_ids : option (list entry)) : t :=
  mk None None None None None None None youtube_ids None.

Definition _add_video (url : string) : M (Store * t) unit :=
  missing <- self_get missing_videos ;;
  skip <- self_get to_skip ;;
  match missing, skip with
  | Some missing, Some skip =>
      if negb (str_in url missing) && negb (py_in (JStr url) skip)
      then self_set (set_missing_videos (Some (missing ++ [url])%list))
      else on_store
             (print (url +:+ ": skipped adding already indexed video to download."))
  | None, _ => raise TypeError
  | Some missing, None =>
      if negb (str_in url missing) then raise TypeError
      else on_store
             (print (url +:+ ": skipped adding already indexed video to download."))
  end.

(** [ChannelSubscription().get_last_youtube_videos(url, limit=False)] is
    the upstream's list of (id, title) pairs. *)
Definition _parse_channel (url : string) : M (Store * t) unit :=
  video_results <- on_store (upstream (fun c => channel_last_youtube_videos c url)) ;;
  let youtube_ids := map fst video_results in
  for_each youtube_ids _add_video.

(** [[i["youtube_id"] for i in video_results]] *)
Fixpoint entry_ids (video_results : list json) : exn + list string :=
  match video_results with
  | [] => inr []
  | JDict kv :: rest =>
      match assoc_get "youtube_id" kv with
      | None => inl (KeyError "youtube_id")
      | Some v =>
          match as_str v with
          | inl e => inl e
          | inr id =>
              match entry_ids rest with
              | inl e => inl e
              | inr ids => inr (id :: ids)
              end
          end
      end
  | _ :: _ => inl TypeError
  end.

Definition _parse_playlist (url : string) : M (Store * t) unit :=
  json_data <- on_store (upstream (fun c => playlist_build_json c url false None)) ;;
  match json_data with
  | None => raise AttributeError
  | Some json_data =>
      match json_data !! "playlist_entries" with
      | Some (JList video_results) =>
          youtube_ids <- lift_exn (entry_ids video_results) ;;
          for_each youtube_ids _add_video
      | _ => raise TypeError
      end
  end.

Definition _process_entry (e : entry) : M (Store * t) unit :=
  if String.eqb (etype e) "video" then _add_video (url e)
  else if String.eqb (etype e) "channel" then _parse_channel (url e)
  else if String.eqb (etype e) "playlist" then
    _parse_playlist (url e) ;;;
    on_store (emit (EvPlaylistSubscription (url e) false))
  else raise ValueError.

Definition mess_extracting : json :=
  JDict [("status", JStr "message:add"); ("level", JStr "info");
         ("title", JStr "Adding to download queue.");
         ("message", JStr "Extracting lists")].

(** The body of the loop of [parse_url_list]: notify, then process the
    entry. *)
Definition parse_url_entry (e : entry) : M (Store * t) unit :=
  on_store (RedisArchivist.set_message "message:add" mess_extracting
              (JBool true)) ;;;
  _process_entry e.

Definition parse_url_list : M (Store * t) unit :=
  self_set (set_missing_videos (Some [])) ;;;
  get_download ;;;
  get_indexed ;;;
  ids <- self_get youtube_ids ;;
  match ids with
  | None => raise TypeError
  | Some ids => for_each ids parse_url_entry
  end.

(** The guard of the console message in [_notify_add], with Python's
    precedence: [%] binds tighter than [+], and [==] is applied last, so
    [idx + 1 % 25 == 0] is [(idx + (1 % 25)) == 0]. *)
Definition notify_print_guard (idx : Z) : bool := (idx + (1 mod 25)) =? 0.

Definition _notify_add (idx : Z) : M (Store * t) unit :=
  missing <- self_get missing_videos ;;
  match missing with
  | None => raise TypeError
  | Some missing =>
      let total := Z.of_nat (length missing) in
      let progress := pretty (idx + 1) +:+ "/" +:+ pretty total in
      let mess_dict :=
        JDict [("status", JStr "message:add"); ("level", JStr "info");
               ("title", JStr "Adding new videos to download queue.");
               ("message", JStr ("Progress: " +:+ progress))] in
      let expire := if idx + 1 =? total then JInt 4 else JBool true in
      on_store (RedisArchivist.set_message "message:add" mess_dict expire) ;;;
      if notify_print_guard idx
      then on_store (print ("adding to queue progress: " +:+ progress))
      else ret tt
  end.

Definition _parse_youtube_details (vid : doc) : M (Store * t) doc :=
  let vid_id := default JNone (vid !! "id") in
  duration <- lift_exn (item vid "duration") ;;
  let duration_str := duration_get_str duration in
  (if String.eqb duration_str "NA"
   then on_store (print "skip extracting duration")
   else ret tt) ;;;
  upload_date <- lift_exn (item vid "upload_date") ;;
  published <- lift_exn (upload_date_iso upload_date) ;;
  channel <- lift_exn (item vid "channel") ;;
  thumbnail <- lift_exn (item vid "thumbnail") ;;
  title <- lift_exn (item vid "title") ;;
  channel_id <- lift_exn (item vid "channel_id") ;;
  let youtube_details : doc :=
    <["timestamp" := JInt now]> (
    <["published" := JStr published]> (
    <["duration" := JStr duration_str]> (
    <["channel_id" := channel_id]> (
    <["title" := title]> (
    <["vid_thumb_url" := thumbnail]> (
    <["channel_name" := channel]> (
    <["youtube_id" := vid_id]> ∅))))))) in
  chans <- self_get all_channels ;;
  match chans with
  | Some (c :: cs) =>
      channel_id' <- lift_exn (item vid "channel_id") ;;
      ret (<["channel_indexed" :=
              JBool (match channel_id' with
                     | JStr x => str_in x (c :: cs)
                     | _ => false
                     end)]> youtube_details)
  | _ => ret youtube_details
  end.

(** [False] is [None]. *)
Definition get_youtube_details (youtube_id : string) : M (Store * t) (option doc) :=
  vid <- on_store (upstream (fun c => yt_extract c ObsPending youtube_id)) ;;
  match vid with
  | None => ret None
  | Some vid =>
      if map_size_eqb_zero vid then ret None
      else if negb (match vid !! "id" with
                    | Some v => json_eqb v (JStr youtube_id)
                    | None => false
                    end)
      then on_store (print (youtube_id +:+ ": skipping premium video, id not matching")) ;;;
           ret None
      else
        live_status <- lift_exn (item vid "live_status") ;;
        if py_in live_status [JStr "is_upcoming"; JStr "is_live"]
        then ret None
        else details <- _parse_youtube_details vid ;; ret (Some details)
  end.

(** [for idx, youtube_id in enumerate(self.missing_videos)]: the bulk
    list is returned as (index, id, document) create actions. *)
Fixpoint add_loop (status : json) (idx : Z) (ids : list string)
  (bulk_list : list (string * string * doc))
  : M (Store * t) (list (string * string * doc)) :=
  match ids with
  | [] => ret bulk_list
  | youtube_id :: rest =>
      on_store (print (youtube_id +:+ ": add to download queue")) ;;;
      video_details <- get_youtube_details youtube_id ;;
      match video_details with
      | None => add_loop status (idx + 1) rest bulk_list
      | Some video_details =>
          let video_details := <["status" := status]> video_details in
          let bulk_list := (bulk_list ++ [("ta_download", youtube_id, video_details)])%list in
          url <- lift_exn (item video_details "vid_thumb_url") ;;
          on_store (emit (EvThumbDownload youtube_id url)) ;;;
          _notify_add idx ;;;
          add_loop status (idx + 1) rest bulk_list
      end
  end.

Definition add_to_pending (status : json) : M (Store * t) unit :=
  get_channels ;;;
  missing <- self_get missing_videos ;;
  match missing with
  | None => raise TypeError
  | Some missing =>
      bulk_list <- add_loop status 0 missing [] ;;
      match bulk_list with
      | [] => ret tt
      | _ => on_store (ElasticWrap.bulk_create bulk_list)
      end
  end.

End WithEnv.
End PendingList.

(** ** comments.py *)

(** [s.split(",")] *)
Fixpoint split_on (c : ascii) (s : string) : list string :=
  match s with
  | EmptyString => [EmptyString]
  | String a rest =>
      match split_on c rest with
      | [] => [String a EmptyString]
      | hd :: tl =>
          if Ascii.eqb a c then EmptyString :: hd :: tl
          else String a hd :: tl
      end
  end.

Definition is_whitespace (a : ascii) : bool :=
  let n := Ascii.nat_of_ascii a in
  (Nat.eqb n 32 || (Nat.leb 9 n && Nat.leb n 13))%bool.

Fixpoint lstrip (s : string) : string :=
  match s with
  | EmptyString => EmptyString
  | String a rest => if is_whitespace a then lstrip rest else s
  end.

(** [s.strip()] *)
Definition strip (s : string) : string :=
  String.rev (lstrip (String.rev (lstrip s))).

(** [d[k]] on a nested dict value. *)
Definition jitem (v : json) (k : string) : exn + json :=
  match v with
  | JDict kv =>
      match assoc_get k kv with
      | Some x => inr x
      | None => inl (KeyError k)
      end
  | _ => inl TypeError
  end.

Module Comments.

(** The attributes of a [Comments] object; [config] is the
    configuration of the environment whether it was attached or read. *)
Record t : Type := mk {
  youtube_id : string;
  json_data : option doc;
  is_activated : bool;
  comments_format : option (list json);
}.

Definition es_index : string := "ta_comment".

Section WithEnv.
Context `{Env}.

(** [__init__(youtube_id, config)] *)
Definition init (youtube_id : string) : t := mk youtube_id None false None.

Definition check_config (self : t) : t :=
  mk (youtube_id self) (json_data self)
     (truthy (downloads_comment_max config)) (comments_format self).

Definition _send_notification (notify : option (Z * Z)) : M Store unit :=
  match notify with
  | None => ret tt
  | Some (idx, total_videos) =>
      let key := "message:download" in
      let message :=
        JDict [("status", JStr key); ("level", JStr "info");
               ("title", JStr "Download and index comments");
               ("message", JStr ("Progress: " +:+ pretty (idx + 1) +:+ "/"
                                   +:+ pretty total_videos))] in
      RedisArchivist.set_message key message JNone
  end.

Definition build_yt_obs : exn + yt_obs :=
  match downloads_comment_max config with
  | JStr max_comments =>
      let max_comments_list := map strip (split_on ","%char max_comments) in
      inr (ObsComments max_comments_list (downloads_comment_sort config))
  | _ => inl AttributeError
  end.

(** [(comments_raw, channel_id)]; [None] is a missing key. *)
Definition get_yt_comments (self : t) : M Store (option json * option json) :=
  yt_obs <- lift_exn build_yt_obs ;;
  info_json <- upstream (fun c => yt_extract c yt_obs (youtube_id self)) ;;
  match info_json with
  | None => raise AttributeError
  | Some info_json => ret (info_json !! "comments", info_json !! "channel_id")
  end.

Definition clean_comment (comment : json) : exn + json :=
  match jitem comment "timestamp" with
  | inl e => inl e
  | inr (JInt ts) =>
      let hour := (ts mod 86400) / 3600 in
      let minute := (ts mod 3600) / 60 in
      let format_string :=
        if (hour =? 0) && (minute =? 0) then "%Y-%m-%d" else "%Y-%m-%d %H:%M" in
      let time_text := strftime_utc ts format_string in
      match jitem comment "id", jitem comment "text" with
      | inr cid, inr (JStr text) =>
          match jitem comment "like_count", jitem comment "is_favorited",
                jitem comment "author", jitem comment "author_id",
                jitem comment "author_thumbnail",
                jitem comment "author_is_uploader", jitem comment "parent" with
          | inr likes, inr fav, inr author, inr author_id, inr thumb,
            inr uploader, inr parent =>
              inr (JDict [("comment_id", cid);
                          ("comment_text", JStr (str_remove_nbsp text));
                          ("comment_timestamp", JInt ts);
                          ("comment_time_text", JStr time_text);
                          ("comment_likecount", likes);
                          ("comment_is_favorited", fav);
                          ("comment_author", author);
                          ("comment_author_id", author_id);
                          ("comment_author_thumbnail", thumb);
                          ("comment_author_is_uploader", uploader);
                          ("comment_parent", parent)])
          | inl e, _, _, _, _, _, _ => inl e
          | _, inl e, _, _, _, _, _ => inl e
          | _, _, inl e, _, _, _, _ => inl e
          | _, _, _, inl e, _, _, _ => inl e
          | _, _, _, _, inl e, _, _ => inl e
          | _, _, _, _, _, inl e, _ => inl e
          | _, _, _, _, _, _, inl e => inl e
          end
      | inl e, _ => inl e
      | _, inl e => inl e
      | _, inr _ => inl AttributeError
      end
  | inr _ => inl TypeError
  end.

(** [for comment in comments_raw: comments.append(clean_comment(comment))] *)
Fixpoint clean_all (comments_raw : list json) : exn + list json :=
  match comments_raw with
  | [] => inr []
  | comment :: rest =>
      match clean_comment comment with
      | inl e => inl e
      | inr c =>
          match clean_all rest with
          | inl e => inl e
          | inr cs => inr (c :: cs)
          end
      end
  end.

Definition format_comments (self : t) (comments_raw : json) : M Store t :=
  match comments_raw with
  | JList l =>
      comments <- lift_exn (clean_all l) ;;
      ret (mk (youtube_id self) (json_data self) (is_activated self) (Some comments))
  | _ => raise TypeError
  end.

Definition build_json (self : t) (notify : option (Z * Z)) : M Store t :=
  print (youtube_id self +:+ ": get comments") ;;;
  let self := check_config self in
  if negb (is_activated self) then ret self
  else
    _send_notification notify ;;;
    ' (comments_raw, channel_id) <- get_yt_comments self ;;
    self <- (match comments_raw with
             | Some raw =>
                 if truthy raw then format_comments self raw
                 else ret (mk (youtube_id self) (json_data self)
                              (is_activated self) (Some []))
             | None => ret (mk (youtube_id self) (json_data self)
                               (is_activated self) (Some []))
             end) ;;
    let data : doc :=
      <["comment_comments" := JList (default [] (comments_format self))]> (
      <["comment_channel_id" := default JNone channel_id]> (
      <["comment_last_refresh" := JInt now]> (
      <["youtube_id" := JStr (youtube_id self)]> ∅))) in
    ret (mk (youtube_id self) (Some data) (is_activated self)
            (comments_format self)).

Definition upload_comments (self : t) : M Store unit :=
  if negb (is_activated self) then ret tt
  else
    match json_data self with
    | Some data => ElasticWrap.put es_index (youtube_id self) data
    | None => ret tt
    end ;;;
    match comments_format self with
    | None => raise TypeError
    | Some comments =>
        ElasticWrap.update "ta_video" (youtube_id self)
          {["comment_count" := JInt (Z.of_nat (length comments))]}
    end.

Definition delete_comments (self : t) : M Store unit :=
  print (youtube_id self +:+ ": delete comments") ;;;
  ElasticWrap.delete es_index (youtube_id self).

(** [False] is [None]. *)
Definition get_es_comments (self : t) : M Store (option doc) :=
  response <- ElasticWrap.get es_index (youtube_id self) ;;
  match response with
  | None => print ("comments: not found " +:+ youtube_id self) ;;; ret None
  | Some source => ret (Some source)
  end.

(** [not self.comments_format] *)
Definition no_comments (self : t) : bool :=
  match comments_format self with
  | None | Some [] => true
  | Some (_ :: _) => false
  end.

Definition reindex_comments (self : t) : M Store unit :=
  let self := check_config self in
  if negb (is_activated self) then ret tt
  else
    self <- build_json self None ;;
    es_comments <- get_es_comments self ;;
    if no_comments self then ret tt
    else
      stop <- (if no_comments self
               then v <- lift_exn (subscript es_comments "comment_comments") ;;
                    ret (truthy v)
               else ret false) ;;
      if stop : bool then ret tt
      else
        delete_comments self ;;;
        upload_comments self.

End WithEnv.
End Comments.

(** ** The indexed entities *)

(** Run a method of an object with mutable attributes on a given
    object; the object it ends with is returned. *)
Definition with_self {O A} (o : O) (m : M (Store * O) A) : M Store (A * O) :=
  fun s => match m (s, o) with
           | Ok a so => Ok (a, snd so) (fst so)
           | Raise e so => Raise e (fst so)
           end.

(** [not json_data] for an attribute that is [False]/[None] or a dict. *)
Definition no_data (json_data : option doc) : bool :=
  match json_data with
  | None => true
  | Some d => map_size_eqb_zero d
  end.

Module YoutubeVideo.

Record t : Type := mk {
  youtube_id : string;
  json_data : option doc;
  youtube_meta : bool;
}.

Definition index_name : string := "ta_video".

Section WithEnv.
Context `{Env}.

Definition init (youtube_id : string) : t := mk youtube_id None false.

(** Modelled from the spec: [YoutubeVideo.get_from_es] is not among the
    files; §4.4 step 1: read the current persisted record. *)
Definition get_from_es (self : t) : M Store t :=
  source <- ElasticWrap.get index_name (youtube_id self) ;;
  ret (mk (youtube_id self) source (youtube_meta self)).

(** Modelled from the spec: [YoutubeVideo.build_json] is not among the
    files; §4.4 step 2: pull fresh metadata from the source, which may
    be unresolvable upstream; step 7: it fails when the on-disk location
    implied by the record no longer exists. *)
Definition build_json (self : t) : M Store t :=
  r <- upstream (fun c => video_build_json c (youtube_id self)) ;;
  match r with
  | BuildFresh d => ret (mk (youtube_id self) (Some d) true)
  | BuildNoMeta => ret (mk (youtube_id self) (json_data self) false)
  | BuildRaise e => raise e
  end.

(** Modelled from the spec: [deactivate] is not among the files; §3:
    upstream disappearance sets active=false only. *)
Definition deactivate (self : t) : M Store unit :=
  ElasticWrap.update index_name (youtube_id self) {["active" := JBool false]}.

(** Modelled from the spec: [delete_subtitles] and [check_subtitles] are
    not among the files; §4.4 step 3: delete and re-check subtitle
    availability against fresh metadata. *)
Definition delete_subtitles (self : t) (subtitles : option json) : M Store unit :=
  emit (EvDeleteSubtitles (youtube_id self) subtitles).

Definition check_subtitles (self : t) : M Store t :=
  r <- upstream (fun c => video_check_subtitles c (youtube_id self)) ;;
  match r, json_data self with
  | Some subs, Some d =>
      ret (mk (youtube_id self) (Some (<["subtitles" := subs]> d)) (youtube_meta self))
  | _, _ => ret self
  end.

(** Modelled from the spec: [upload_to_es] is not among the files; §4.4
    step 5: persist the merged record as a single atomic document
    replace. *)
Definition upload_to_es (self : t) : M Store unit :=
  match json_data self with
  | Some d => ElasticWrap.put index_name (youtube_id self) d
  | None => ret tt
  end.

(** [self.json_data[k] = v] *)
Definition set_item (self : t) (k : string) (v : json) : exn + t :=
  match json_data self with
  | None => inl TypeError
  | Some d => inr (mk (youtube_id self) (Some (<[k := v]> d)) (youtube_meta self))
  end.

End WithEnv.
End YoutubeVideo.

Module YoutubeChannel.

Record t : Type := mk {
  youtube_id : string;
  json_data : option doc;
}.

Definition index_name : string := "ta_channel".

Section WithEnv.
Context `{Env}.

Definition init (youtube_id : string) : t := mk youtube_id None.

(** Modelled from the spec: the methods of [YoutubeChannel] are not
    among the files; §4.4, per-collection refresh: read the record, pull
    fresh metadata (nothing when unresolvable upstream), mark inactive,
    persist, propagate the collection's fields to the owned items. *)
Definition get_from_es (self : t) : M Store t :=
  source <- ElasticWrap.get index_name (youtube_id self) ;;
  ret (mk (youtube_id self) source).

Definition get_from_youtube (self : t) : M Store t :=
  r <- upstream (fun c => channel_get_from_youtube c (youtube_id self)) ;;
  ret (mk (youtube_id self) r).

Definition deactivate (self : t) : M Store unit :=
  ElasticWrap.update index_name (youtube_id self)
    {["channel_active" := JBool false]}.

Definition upload_to_es (self : t) : M Store unit :=
  match json_data self with
  | Some d => ElasticWrap.put index_name (youtube_id self) d
  | None => ret tt
  end.

Definition sync_to_videos (self : t) : M Store unit :=
  match json_data self with
  | Some d =>
      ElasticWrap.update_by_query "ta_video"
        (ElasticWrap.term_nested "channel" "channel_id" (youtube_id self))
        (insert "channel" (json_of_doc d))
  | None => ret tt
  end.

Definition set_item (self : t) (k : string) (v : json) : exn + t :=
  match json_data self with
  | None => inl TypeError
  | Some d => inr (mk (youtube_id self) (Some (<[k := v]> d)))
  end.

End WithEnv.
End YoutubeChannel.

Module YoutubePlaylist.

Record t : Type := mk {
  youtube_id : string;
  json_data : option doc;
  all_youtube_ids : option (list json);
}.

Definition index_name : string := "ta_playlist".

Section WithEnv.
Context `{Env}.

Definition init (youtube_id : string) : t := mk youtube_id None None.

(** Modelled from the spec: the methods of [YoutubePlaylist] are not
    among the files; §4.4, per-subcollection refresh: read the record,
    pull fresh metadata validated against the indexed item identifiers
    (nothing when unresolvable upstream), mark inactive, persist. *)
Definition get_from_es (self : t) : M Store t :=
  source <- ElasticWrap.get index_name (youtube_id self) ;;
  ret (mk (youtube_id self) source (all_youtube_ids self)).

Definition build_json (self : t) (scrape : bool) : M Store t :=
  r <- upstream (fun c =>
         playlist_build_json c (youtube_id self) scrape (all_youtube_ids self)) ;;
  ret (mk (youtube_id self) r (all_youtube_ids self)).

Definition deactivate (self : t) : M Store unit :=
  ElasticWrap.update index_name (youtube_id self)
    {["playlist_active" := JBool false]}.

Definition upload_to_es (self : t) : M Store unit :=
  match json_data self with
  | Some d => ElasticWrap.put index_name (youtube_id self) d
  | None => ret tt
  end.

Definition set_item (self : t) (k : string) (v : json) : exn + t :=
  match json_data self with
  | None => inl TypeError
  | Some d =>
      inr (mk (youtube_id self) (Some (<[k := v]> d)) (all_youtube_ids self))
  end.

End WithEnv.
End YoutubePlaylist.

(** ** reindex.py *)

Record reindex_config : Type := mkReindexConfig {
  index_name : string;
  queue_name : string;
  active_key : string;
  refresh_key : string;
}.

Module ReindexBase.

Definition REINDEX_CONFIG : list (string * reindex_config) :=
  [("video",
    mkReindexConfig "ta_video" "reindex:ta_video" "active" "vid_last_refresh");
   ("channel",
    mkReindexConfig "ta_channel" "reindex:ta_channel" "channel_active"
      "channel_last_refresh");
   ("playlist",
    mkReindexConfig "ta_playlist" "reindex:ta_playlist" "playlist_active"
      "playlist_last_refresh")].

(** [REINDEX_CONFIG.values()] *)
Definition values : list reindex_config := map snd REINDEX_CONFIG.

(** [REINDEX_CONFIG.get(key)] *)
Fixpoint lookup_config (key : string) (l : list (string * reindex_config))
  : option reindex_config :=
  match l with
  | [] => None
  | (k, c) :: rest => if String.eqb key k then Some c else lookup_config key rest
  end.
Definition get (key : string) : option reindex_config :=
  lookup_config key REINDEX_CONFIG.

Definition queue_name_of (rc : reindex_config) : string := queue_name rc.

Definition MULTIPLY : spec_float := Float64.lit_1_2.

Definition populate (all_ids : list string) (rc : reindex_config) : M World unit :=
  match all_ids with
  | [] => ret tt
  | _ => RedisQueue.add_list (queue_name rc) all_ids
  end.

End ReindexBase.

Module ReindexOutdated.
Import ReindexBase.

Section WithEnv.
Context `{Env}.

(** [self.interval] *)
Definition interval : Z := scheduler_check_reindex_days config.

Definition _get_total_hits (rc : reindex_config) : M Store Z :=
  ElasticWrap.count (index_name rc) (ElasticWrap.match_true (active_key rc)).

(** [int((total_hits // self.interval + 1) * self.MULTIPLY)], then the
    cap. *)
Definition _get_daily_should (total_hits : Z) : exn + Z :=
  if interval =? 0 then inl ZeroDivisionError
  else
    match Float64.int_mul (total_hits / interval + 1) MULTIPLY with
    | inl e => inl e
    | inr x =>
        match Float64.to_int x with
        | inl e => inl e
        | inr daily_should =>
            inr (if 10000 <=? daily_should then 9999 else daily_should)
        end
    end.

Definition _get_outdated_ids (rc : reindex_config) (daily_should : Z)
  : M Store (list string) :=
  let now_lte := now - interval * 24 * 60 * 60 in
  let must d := ElasticWrap.match_true "active" d
                && ElasticWrap.range_lte (refresh_key rc) now_lte d in
  if daily_should <? 0 then raise (KeyError "hits")
  else
    hits <- ElasticWrap.search (index_name rc) must (refresh_key rc) true
              (Some (Z.to_nat daily_should)) ;;
    ret (map fst hits).

Definition add_outdated : M World unit :=
  for_each values (fun rc =>
    total_hits <- lift (_get_total_hits rc) ;;
    daily_should <- lift_exn (_get_daily_should total_hits) ;;
    all_ids <- lift (_get_outdated_ids rc daily_should) ;;
    populate all_ids rc).

End WithEnv.
End ReindexOutdated.

Module ReindexManual.
Import ReindexBase.

Section WithEnv.
Context `{Env}.

(** [[i["youtube_id"] for i in all_results]] *)
Fixpoint youtube_ids_of (all_results : list doc) : exn + list string :=
  match all_results with
  | [] => inr []
  | d :: rest =>
      match item d "youtube_id" with
      | inl e => inl e
      | inr v =>
          match as_str v, youtube_ids_of rest with
          | inr id, inr ids => inr (id :: ids)
          | inl e, _ => inl e
          | _, inl e => inl e
          end
      end
  end.

Definition _get_channel_videos (channel_id : string) : M Store (list string) :=
  hits <- ElasticWrap.search "ta_video"
            (ElasticWrap.term_nested "channel" "channel_id" channel_id)
            "_doc" false None ;;
  lift_exn (youtube_ids_of (map snd hits)).

Definition _get_playlist_videos (playlist_id : string) : M Store (list string) :=
  hits <- ElasticWrap.search "ta_video" (ElasticWrap.term "playlist" playlist_id)
            "_doc" false None ;;
  lift_exn (youtube_ids_of (map snd hits)).

Definition _add_videos (values : list string) : M World unit :=
  match values with
  | [] => ret tt
  | _ => RedisQueue.add_list "reindex:ta_video" values
  end.

Definition _add_channels (extract_videos : bool) (values : list string)
  : M World unit :=
  RedisQueue.add_list "reindex:ta_channel" values ;;;
  if extract_videos
  then for_each values (fun channel_id =>
         all_videos <- lift (_get_channel_videos channel_id) ;;
         _add_videos all_videos)
  else ret tt.

Definition _add_playlists (extract_videos : bool) (values : list string)
  : M World unit :=
  RedisQueue.add_list "reindex:ta_playlist" values ;;;
  if extract_videos
  then for_each values (fun playlist_id =>
         all_videos <- lift (_get_playlist_videos playlist_id) ;;
         _add_videos all_videos)
  else ret tt.

Definition process_index (extract_videos : bool) (index_config : reindex_config)
  (values : list string) : M World unit :=
  let index_name := index_name index_config in
  if String.eqb index_name "ta_video" then _add_videos values
  else if String.eqb index_name "ta_channel" then _add_channels extract_videos values
  else if String.eqb index_name "ta_playlist" then _add_playlists extract_videos values
  else ret tt.

(** [data] is the dict of the request, in the order of its items. *)
Definition extract_data (extract_videos : bool)
  (data : list (string * list string)) : M World unit :=
  for_each data (fun kv =>
    match ReindexBase.get (fst kv) with
    | None =>
        lift (print ("reindex type " +:+ fst kv +:+ " not valid")) ;;;
        raise ValueError
    | Some rc => process_index extract_videos rc (snd kv)
    end).

End WithEnv.
End ReindexManual.

Module ChannelUrlFixer.

(** [self.video] is [False] until [get_as_is]. *)
Record t : Type := mk {
  youtube_id : string;
  video : option YoutubeVideo.t;
}.

Section WithEnv.
Context `{Env}.

(** [__init__(youtube_id, config)]: stores its arguments, nothing else. *)
Definition init (youtube_id : string) : t := mk youtube_id None.

(** [(video_path_is, video_folder_is)] *)
Definition get_as_is (self : t) : M Store (t * (string * string)) :=
  video <- YoutubeVideo.get_from_es (YoutubeVideo.init (youtube_id self)) ;;
  let self := mk (youtube_id self) (Some video) in
  media_url <- lift_exn (subscript (YoutubeVideo.json_data video) "media_url") ;;
  media_url <- lift_exn (as_str media_url) ;;
  let video_path_is := os_path_join (application_videos config) media_url in
  let video_folder_is := os_path_dirname video_path_is in
  ret (self, (video_path_is, video_folder_is)).

(** Modelled from the spec: [get_from_youtube] and [add_file_path] of
    [YoutubeVideo] are not among the files; §4.6: the expected on-disk
    folder from freshly pulled collection metadata.  Only the fresh
    [media_url] is kept here. *)
Definition get_as_should (self : t) : M Store (t * (string * string)) :=
  match video self with
  | None => raise AttributeError
  | Some video =>
      fresh <- upstream (fun c => video_media_url_should c (youtube_id self)) ;;
      match fresh with
      | None => raise TypeError
      | Some m =>
          video <- lift_exn (YoutubeVideo.set_item video "media_url" m) ;;
          media_url <- lift_exn (as_str m) ;;
          let video_path_should := os_path_join (application_videos config) media_url in
          let video_folder_should := os_path_dirname video_path_should in
          ret (mk (youtube_id self) (Some video),
               (video_path_should, video_folder_should))
      end
  end.

(** [shutil.move], then [VideoDownloader().move_to_archive] (not among
    the files; §4.6: re-file the media under the corrected path), then
    [update_media_url] (§4.6: persist the corrected path on the
    record). *)
Definition process (self : t) (video_path_is : string) : M Store unit :=
  print (youtube_id self +:+ ": fixing channel rename.") ;;;
  let cache_dir := application_cache_dir config in
  let new_path :=
    os_path_join (os_path_join cache_dir "download") (youtube_id self +:+ ".mp4") in
  modify (set_fs (fun f => {[new_path]} ∪ (f ∖ {[video_path_is]}))) ;;;
  match video self with
  | None => raise AttributeError
  | Some video =>
      media_url <- lift_exn (subscript (YoutubeVideo.json_data video) "media_url") ;;
      media_url_s <- lift_exn (as_str media_url) ;;
      emit (EvMoveToArchive (youtube_id self)) ;;;
      modify (set_fs (fun f =>
        {[os_path_join (application_videos config) media_url_s]} ∪ (f ∖ {[new_path]}))) ;;;
      ElasticWrap.update "ta_video" (youtube_id self) {["media_url" := media_url]}
  end.

Definition run (self : t) : M Store unit :=
  print (youtube_id self +:+ ": failed to build channel path, try to fix.") ;;;
  ' (self, (video_path_is, video_folder_is)) <- get_as_is self ;;
  exists_ <- gets (fun s => bool_decide (video_path_is ∈ fs s)) ;;
  if negb exists_
  then print "giving up reindex, video in video" ;;; raise ValueError
  else
    ' (self, (_, video_folder_should)) <- get_as_should self ;;
    if negb (String.eqb video_folder_is video_folder_should)
    then process self video_path_is
    else print (youtube_id self +:+ ": skip channel url fixer").

End WithEnv.
End ChannelUrlFixer.

Module Reindex.
Import ReindexBase.

(** [self.all_indexed_ids] is [False] until [_get_all_videos]. *)
Record t : Type := mk { all_indexed_ids : option (list json) }.

Section WithEnv.
Context `{Env}.

Definition init : t := mk None.

Definition cookie_invalid : M Store bool :=
  if negb (truthy (downloads_cookie_import config)) then ret false
  else
    valid <- upstream cookie_validate ;;
    ret valid.

Definition _reindex_single_video_call (youtube_id : string) : M Store unit :=
  let video := YoutubeVideo.init youtube_id in
  video <- YoutubeVideo.get_from_es video ;;
  player <- lift_exn (subscript (YoutubeVideo.json_data video) "player") ;;
  date_downloaded <-
    lift_exn (subscript (YoutubeVideo.json_data video) "date_downloaded") ;;
  channel_dict <- lift_exn (subscript (YoutubeVideo.json_data video) "channel") ;;
  playlist <- (match YoutubeVideo.json_data video with
               | None => raise AttributeError
               | Some d => ret (d !! "playlist")
               end) ;;
  subtitles <- (match YoutubeVideo.json_data video with
                | None => raise AttributeError
                | Some d => ret (d !! "subtitles")
                end) ;;
  video <- YoutubeVideo.build_json video ;;
  if negb (YoutubeVideo.youtube_meta video)
  then YoutubeVideo.deactivate video
  else
    YoutubeVideo.delete_subtitles video subtitles ;;;
    video <- YoutubeVideo.check_subtitles video ;;
    video <- lift_exn (YoutubeVideo.set_item video "player" player) ;;
    video <- lift_exn (YoutubeVideo.set_item video "date_downloaded" date_downloaded) ;;
    video <- lift_exn (YoutubeVideo.set_item video "channel" channel_dict) ;;
    video <- (match playlist with
              | Some pl =>
                  if truthy pl
                  then lift_exn (YoutubeVideo.set_item video "playlist" pl)
                  else ret video
              | None => ret video
              end) ;;
    YoutubeVideo.upload_to_es video ;;;
    emit (EvThumbDelete youtube_id) ;;;
    vid_thumb_url <-
      lift_exn (subscript (YoutubeVideo.json_data video) "vid_thumb_url") ;;
    emit (EvThumbDownload youtube_id vid_thumb_url) ;;;
    Comments.reindex_comments (Comments.init youtube_id).

(** The [ChannelUrlFixer] is built and dropped: its [run] is not
    called. *)
Definition _reindex_single_video (youtube_id : string) : M Store unit :=
  try_except (_reindex_single_video_call youtube_id) FileNotFoundError
    (let _fixer := ChannelUrlFixer.init youtube_id in
     _reindex_single_video_call youtube_id).

Definition _reindex_single_channel (channel_id : string) : M Store unit :=
  let channel := YoutubeChannel.init channel_id in
  channel <- YoutubeChannel.get_from_es channel ;;
  subscribed <-
    lift_exn (subscript (YoutubeChannel.json_data channel) "channel_subscribed") ;;
  overwrites <- (match YoutubeChannel.json_data channel with
                 | None => raise AttributeError
                 | Some d => ret (default (JBool false) (d !! "channel_overwrites"))
                 end) ;;
  channel <- YoutubeChannel.get_from_youtube channel ;;
  if no_data (YoutubeChannel.json_data channel)
  then
    YoutubeChannel.deactivate channel ;;;
    channel <- YoutubeChannel.get_from_es channel ;;
    YoutubeChannel.sync_to_videos channel
  else
    channel <- lift_exn (YoutubeChannel.set_item channel "channel_subscribed" subscribed) ;;
    channel <- (if truthy overwrites
                then lift_exn (YoutubeChannel.set_item channel "channel_overwrites" overwrites)
                else ret channel) ;;
    YoutubeChannel.upload_to_es channel ;;;
    YoutubeChannel.sync_to_videos channel.

(** [[i["youtube_id"] for i in handler.all_videos]] *)
Fixpoint ids_of (videos : list doc) : exn + list json :=
  match videos with
  | [] => inr []
  | d :: rest =>
      match item d "youtube_id", ids_of rest with
      | inr v, inr vs => inr (v :: vs)
      | inl e, _ => inl e
      | _, inl e => inl e
      end
  end.

Definition _get_all_videos (self : t) : M Store t :=
  match all_indexed_ids self with
  | Some (_ :: _) => ret self
  | _ =>
      ' (_, handler) <- with_self (PendingList.init None)
                          (PendingIndex.get_download ;;; PendingIndex.get_indexed) ;;
      match PendingIndex.all_videos handler with
      | None => raise TypeError
      | Some videos =>
          ids <- lift_exn (ids_of videos) ;;
          ret (mk (Some ids))
      end
  end.

Definition _reindex_single_playlist (self : t) (playlist_id : string) : M Store t :=
  self <- _get_all_videos self ;;
  let playlist := YoutubePlaylist.init playlist_id in
  playlist <- YoutubePlaylist.get_from_es playlist ;;
  subscribed <-
    lift_exn (subscript (YoutubePlaylist.json_data playlist) "playlist_subscribed") ;;
  let playlist :=
    YoutubePlaylist.mk (YoutubePlaylist.youtube_id playlist)
      (YoutubePlaylist.json_data playlist) (all_indexed_ids self) in
  playlist <- YoutubePlaylist.build_json playlist true ;;
  if no_data (YoutubePlaylist.json_data playlist)
  then YoutubePlaylist.deactivate playlist ;;; ret self
  else
    playlist <-
      lift_exn (YoutubePlaylist.set_item playlist "playlist_subscribed" subscribed) ;;
    YoutubePlaylist.upload_to_es playlist ;;;
    ret self.

(** [def_map.get(index_name)]: the function to run for an index, with
    the object it leaves. *)
Definition get_reindex_map (index_name : string)
  : option (t -> string -> M Store t) :=
  if String.eqb index_name "ta_video"
  then Some (fun self id => _reindex_single_video id ;;; ret self)
  else if String.eqb index_name "ta_channel"
  then Some (fun self id => _reindex_single_channel id ;;; ret self)
  else if String.eqb index_name "ta_playlist"
  then Some _reindex_single_playlist
  else None.

(** [(self, bool(youtube_id))] *)
Definition reindex_index (self : t) (index_config : reindex_config)
  : M World (t * bool) :=
  let reindex := get_reindex_map (index_name index_config) in
  youtube_id <- RedisQueue.get_next (queue_name index_config) ;;
  match youtube_id with
  | Some id =>
      if negb (String.eqb id "")
      then
        match reindex with
        | None => raise TypeError
        | Some reindex =>
            self <- lift (reindex self id) ;;
            let sleep_interval := default 0 (downloads_sleep_interval config) in
            lift (emit (EvSleep sleep_interval)) ;;;
            ret (self, true)
        end
      else ret (self, false)
  | None => ret (self, false)
  end.

(** [while True: has_next = self.reindex_index(index_config); if not
    has_next: break], unfolded at most [fuel] times.  [None] is not a
    Python value: it says that the bound was reached before the loop
    ended. *)
Fixpoint reindex_while (fuel : nat) (self : t) (index_config : reindex_config)
  : M World (option t) :=
  match fuel with
  | O => ret None
  | S fuel =>
      ' (self, has_next) <- reindex_index self index_config ;;
      if has_next : bool then reindex_while fuel self index_config
      else ret (Some self)
  end.

(** [for index_config in self.REINDEX_CONFIG.values(): ...].  The loop
    over a queue pops one identifier per turn, so it is unfolded once
    more than the queue is long; [None] as above. *)
Fixpoint reindex_queues (self : t) (configs : list reindex_config)
  : M World (option t) :=
  match configs with
  | [] => ret (Some self)
  | index_config :: rest =>
      has_item <- RedisQueue.has_item (queue_name index_config) ;;
      if negb has_item then reindex_queues self rest
      else
        queued <- gets (fun w => default [] (queues w !! queue_name index_config)) ;;
        r <- reindex_while (S (length queued)) self index_config ;;
        match r with
        | None => ret None
        | Some self => reindex_queues self rest
        end
  end.

(** [Some tt] is Python's [None], the value of a function that returns;
    [None] as above ([reindex_all] never yields it). *)
Definition reindex_all (self : t) : M World (option unit) :=
  invalid <- lift cookie_invalid ;;
  if invalid : bool
  then lift (print "[reindex] cookie invalid, exiting...") ;;; ret (Some tt)
  else
    r <- reindex_queues self values ;;
    match r with
    | None => ret None
    | Some _ =>
        lift (RedisArchivist.set_message "last_reindex" (JInt now) JNone) ;;;
        ret (Some tt)
    end.

End WithEnv.
End Reindex.

Module ReindexProgress.
Import ReindexBase.

(** [request_type] and [request_id]; [None] is the default [False]. *)
Record t : Type := mk {
  request_type : option string;
  request_id : option string;
}.

(** [not x] for an argument that is [False] or a string. *)
Definition falsy (x : option string) : bool :=
  match x with
  | None => true
  | Some s => String.eqb s ""
  end.

Section WithEnv.
Context `{Env}.

(** [(queue_name, request_type)] *)
Definition _get_queue_name (self : t) : M World (string * string) :=
  if falsy (request_type self) then ret ("all", "all")
  else
    let request_type := default "" (request_type self) in
    match ReindexBase.get request_type with
    | None =>
        lift (print ("reindex_config not found: " +:+ request_type)) ;;;
        raise ValueError
    | Some rc => ret (queue_name rc, request_type)
    end.

Fixpoint total_of (queues : list string) (total : Z) : M World Z :=
  match queues with
  | [] => ret total
  | queue :: rest =>
      items <- RedisQueue.get_all queue ;;
      total_of rest (total + Z.of_nat (length items))
  end.

Definition _get_total_in_queue (queue_name : string) : M World Z :=
  if String.eqb queue_name "all"
  then total_of (map ReindexBase.queue_name_of values) 0
  else
    items <- RedisQueue.get_all queue_name ;;
    ret (0 + Z.of_nat (length items)).

(** The state dict. *)
Definition _get_state (self : t) (total : Z) (queue_name : string) : M World doc :=
  if negb (falsy (request_id self))
  then
    let request_id := default "" (request_id self) in
    state <- RedisQueue.in_queue queue_name request_id ;;
    ret (<["state" := JBool state]> (<["id" := JStr request_id]> ∅))
  else
    let state := if negb (total =? 0) then "running" else "empty" in
    ret (<["state" := JStr state]> ∅).

Definition get_progress (self : t) : M World doc :=
  ' (queue_name, request_type) <- _get_queue_name self ;;
  total <- _get_total_in_queue queue_name ;;
  let progress : doc :=
    <["type" := JStr request_type]> (<["total_queued" := JInt total]> ∅) in
  state <- _get_state self total queue_name ;;
  ret (state ∪ progress).

End WithEnv.
End ReindexProgress.

(** ** Checked instances and the spec's formula *)

(** [int(k * 1.2)] *)
Definition int_mul_1_2 (k : Z) : exn + Z :=
  match Float64.int_mul k Float64.lit_1_2 with
  | inl e => inl e
  | inr x => Float64.to_int x
  end.

Fixpoint exact_from (n : nat) (k : Z) : bool :=
  match n with
  | O => true
  | S n' =>
      match int_mul_1_2 k with
      | inr v => (v =? 6 * k / 5) && exact_from n' (k + 1)
      | inl _ => false
      end
  end.

(** The refresh time of a hit, for the order of a result list. *)
Definition refresh_time (field : string) (h : string * doc) : Z :=
  match h.2 !! field with Some (JInt t) => t | _ => 0 end.

(** The spec's words (§3): [daily_quota = min(9999, ceil(active_count /
    interval_days * 1.2))], in exact arithmetic: 1.2 = 6/5. *)
Definition ceil_div (a b : Z) : Z := (a + b - 1) / b.
Definition spec_daily_quota (active_count interval_days : Z) : Z :=
  Z.min 9999 (ceil_div (6 * active_count) (5 * interval_days)).

(** ** Concrete scenarios *)

(** An environment where upstream knows nothing and answers nothing. *)
Definition quiet_env (cfg : Config) : Env :=
  mkEnv cfg 1700000000 (fun _ => true) (fun _ _ => BuildNoMeta) (fun _ _ => None)
    (fun _ _ => None) (fun _ _ _ _ => None) (fun _ _ _ => None) (fun _ _ => [])
    (fun _ => "NA") (fun _ => inl ValueError) (fun _ _ => "") (fun s => s)
    (fun _ _ => None) (fun a b => a +:+ "/" +:+ b) (fun p => p).

(** A configuration with a re-check interval of [days] days, no cookie,
    no comments. *)
Definition config_days (days : Z) : Config :=
  mkConfig days (JBool false) None (JBool false) "top" "/youtube" "/cache".

(** 700 active videos, video [i] last refreshed at second [i]. *)
Definition video_n (i : nat) : (string * string) * doc :=
  (("ta_video", pretty i),
   <["active" := JBool true]> (<["vid_last_refresh" := JInt (Z.of_nat i)]> ∅)).

Definition store_700 : Store :=
  mkStore (list_to_map (map video_n (seq 0 700))) ∅ [] 0 ∅.

Definition rc_video : reindex_config :=
  mkReindexConfig "ta_video" "reindex:ta_video" "active" "vid_last_refresh".

(** An environment whose only upstream knowledge is the uploads of the
    channels. *)
Definition channel_env (cfg : Config) (uploads : string -> list (string * string))
  : Env :=
  mkEnv cfg 1700000000 (fun _ => true) (fun _ _ => BuildNoMeta) (fun _ _ => None)
    (fun _ _ => None) (fun _ _ _ _ => None) (fun _ _ _ => None) (fun _ => uploads)
    (fun _ => "NA") (fun _ => inl ValueError) (fun _ _ => "") (fun s => s)
    (fun _ _ => None) (fun a b => a +:+ "/" +:+ b) (fun p => p).

(** A channel with three uploads; [a] is indexed, [b] is pending. *)
Definition three_uploads (channel : string) : list (string * string) :=
  if String.eqb channel "UC1"
  then [("a", "first"); ("b", "second"); ("c", "third")]
  else [].

Definition store_a_indexed_b_pending : Store :=
  mkStore
    (<[("ta_video", "a") := {["youtube_id" := JStr "a"]}]> (
     <[("ta_download", "b") :=
         <["status" := JStr "pending"]> {["youtube_id" := JStr "b"]}]> ∅))
    ∅ [] 0 ∅.

(** A request list with an entry of unknown type in the middle. *)
Definition entries_before_bad : list entry := [mkEntry "channel" "UC1"].
Definition bad_entry : entry := mkEntry "comment" "x".
Definition entries_after_bad : list entry := [mkEntry "video" "d"].

(** An environment where the platform has one answer for every comment
    request. *)
Definition comments_env (cfg : Config) (info : option doc) : Env :=
  mkEnv cfg 1700000000 (fun _ => true) (fun _ _ => BuildNoMeta) (fun _ _ => None)
    (fun _ _ => None) (fun _ _ _ _ => None) (fun _ _ _ => info) (fun _ _ => [])
    (fun _ => "NA") (fun _ => inl ValueError) (fun _ _ => "") (fun s => s)
    (fun _ _ => None) (fun a b => a +:+ "/" +:+ b) (fun p => p).

(** Comments enabled ("20,0,0,0", newest first). *)
Definition config_comments : Config :=
  mkConfig 90 (JBool false) None (JStr "20, 0, 0, 0") "top" "/youtube" "/cache".

(** A video whose stored comment document holds one comment. *)
Definition store_one_comment : Store :=
  mkStore
    (<[("ta_comment", "v1") :=
         <["comment_comments" := JList [JDict [("comment_id", JStr "c1")]]]>
           {["youtube_id" := JStr "v1"]}]> (
     <[("ta_video", "v1") := {["youtube_id" := JStr "v1"]}]> ∅))
    ∅ [] 0 ∅.

(** An environment where every cookie check answers [valid], every
    video metadata request [build] and every channel request
    [channel]. *)
Definition refresh_env (cfg : Config) (valid : bool) (build : string -> video_build)
    (channel : string -> option doc) : Env :=
  mkEnv cfg 1700000000 (fun _ => valid) (fun _ => build) (fun _ _ => None)
    (fun _ => channel) (fun _ _ _ _ => None) (fun _ _ _ => None) (fun _ _ => [])
    (fun _ => "NA") (fun _ => inl ValueError) (fun _ _ => "") (fun s => s)
    (fun _ _ => None) (fun a b => a +:+ "/" +:+ b) (fun p => p).

(** A subscribed channel whose overwrites were all removed again, and
    one watched video of it. *)
Definition channel_UC1 : doc :=
  <["channel_overwrites" := JDict []]> (
  <["channel_subscribed" := JBool true]> (
  <["channel_name" := JStr "old name"]> {["channel_id" := JStr "UC1"]})).

Definition video_v1 : doc :=
  <["player" := JDict [("watched", JBool true)]]> (
  <["date_downloaded" := JInt 1600000000]> (
  <["channel" := JDict [("channel_id", JStr "UC1")]]> (
  <["title" := JStr "old title"]> {["youtube_id" := JStr "v1"]}))).

Definition store_channel_and_video : Store :=
  mkStore (<[("ta_channel", "UC1") := channel_UC1]> (<[("ta_video", "v1") := video_v1]> ∅))
    ∅ [] 0 ∅.

(** What upstream has for them. *)
Definition fresh_video (id : string) : doc :=
  <["title" := JStr "new title"]> (
  <["duration" := JInt 61]> (
  <["vid_thumb_url" := JStr "https://i.ytimg.com/vi/v1/new.jpg"]>
    {["youtube_id" := JStr id]})).

Definition fresh_channel (id : string) : doc :=
  <["channel_name" := JStr "new name"]> {["channel_id" := JStr id]}.

Definition env_fresh : Env :=
  refresh_env (config_days 90) true (fun id => BuildFresh (fresh_video id))
    (fun id => Some (fresh_channel id)).


(** The video v1 is queued for a refresh, v2 behind it. *)
Definition world_two_queued : World :=
  mkWorld store_channel_and_video {["reindex:ta_video" := ["v1"; "v2"]]}.


(** A cookie is configured; upstream knows no video any more. *)
Definition config_cookie : Config :=
  mkConfig 90 (JBool true) None (JBool false) "top" "/youtube" "/cache".

Definition env_cookie (valid : bool) : Env :=
  refresh_env config_cookie valid (fun _ => BuildNoMeta) (fun _ => None).

Definition world_one_queued : World :=
  mkWorld store_channel_and_video {["reindex:ta_video" := ["v1"]]}.

Definition cycle_cookie (valid : bool) : Result World (option unit) :=
  @Reindex.reindex_all (env_cookie valid) Reindex.init world_one_queued.


(* ===================================================================== *)
(** * Part II: lemmas and theorems                                         *)
(* ===================================================================== *)

(** ** IEEE binary64: rounding in the normal range *)

Lemma digits2_bounds p :
  2 ^ (Zpos (digits2_pos p) - 1) <= Zpos p < 2 ^ Zpos (digits2_pos p).
Proof.
  induction p as [p IH|p IH|]; cbn [digits2_pos].
  - rewrite Pos2Z.inj_succ. change (Zpos p~1) with (2 * Zpos p + 1).
    replace (Z.succ (Zpos (digits2_pos p)) - 1) with (Z.succ (Zpos (digits2_pos p) - 1)) by lia.
    rewrite !Z.pow_succ_r by lia. lia.
  - rewrite Pos2Z.inj_succ. change (Zpos p~0) with (2 * Zpos p).
    replace (Z.succ (Zpos (digits2_pos p)) - 1) with (Z.succ (Zpos (digits2_pos p) - 1)) by lia.
    rewrite !Z.pow_succ_r by lia. lia.
  - cbn. lia.
Qed.

Lemma digits2_ge p n : 0 <= n -> 2 ^ n <= Zpos p -> n + 1 <= Zpos (digits2_pos p).
Proof.
  intros Hn Hp. destruct (digits2_bounds p) as [_ Hu].
  destruct (Z_lt_le_dec (Zpos (digits2_pos p)) (n + 1)) as [Hlt|]; [|lia].
  assert (2 ^ Zpos (digits2_pos p) <= 2 ^ n) by (apply Z.pow_le_mono_r; lia). lia.
Qed.

Lemma digits2_le p n : 0 <= n -> Zpos p < 2 ^ n -> Zpos (digits2_pos p) <= n.
Proof.
  intros Hn Hp. destruct (digits2_bounds p) as [Hl _].
  destruct (Z_lt_le_dec n (Zpos (digits2_pos p))) as [Hlt|]; [|lia].
  assert (2 ^ n <= 2 ^ (Zpos (digits2_pos p) - 1)) by (apply Z.pow_le_mono_r; lia). lia.
Qed.

Lemma shr_1_m r : 0 <= shr_m r -> shr_m (shr_1 r) = shr_m r / 2.
Proof.
  destruct r as [m b s]; cbn [shr_m]. intros Hm.
  destruct m as [|p|p]; [reflexivity| |lia].
  destruct p as [p|p|]; cbn [shr_1 shr_m].
  - change (Zpos p~1) with (2 * Zpos p + 1). apply Z.div_unique with (r := 1); lia.
  - change (Zpos p~0) with (2 * Zpos p). apply Z.div_unique with (r := 0); lia.
  - reflexivity.
Qed.

Lemma iter_shr_1_m p : forall r,
  0 <= shr_m r -> shr_m (SpecFloat.iter_pos shr_1 p r) = shr_m r / 2 ^ Zpos p.
Proof.
  induction p as [p IH|p IH|]; intros r Hr; cbn [SpecFloat.iter_pos].
  - assert (Hp : 0 < 2 ^ Zpos p) by (apply Z.pow_pos_nonneg; lia).
    assert (H1 : 0 <= shr_m (shr_1 r)) by (rewrite shr_1_m by lia; apply Z.div_pos; lia).
    assert (H2 : 0 <= shr_m (SpecFloat.iter_pos shr_1 p (shr_1 r)))
      by (rewrite IH by lia; apply Z.div_pos; lia).
    rewrite IH, IH, shr_1_m by lia.
    rewrite !Z.div_div by lia.
    f_equal. change (Zpos p~1) with (2 * Zpos p + 1).
    replace (2 * Zpos p + 1) with (1 + Zpos p + Zpos p) by lia.
    rewrite !Z.pow_add_r by lia. lia.
  - assert (Hp : 0 < 2 ^ Zpos p) by (apply Z.pow_pos_nonneg; lia).
    assert (H2 : 0 <= shr_m (SpecFloat.iter_pos shr_1 p r))
      by (rewrite IH by lia; apply Z.div_pos; lia).
    rewrite IH, IH by lia.
    rewrite !Z.div_div by lia.
    f_equal. change (Zpos p~0) with (2 * Zpos p).
    replace (2 * Zpos p) with (Zpos p + Zpos p) by lia.
    rewrite !Z.pow_add_r by lia. lia.
  - rewrite shr_1_m by lia. reflexivity.
Qed.

Lemma shr_spec r e n :
  0 <= shr_m r -> 0 <= n ->
  shr_m (fst (shr r e n)) = shr_m r / 2 ^ n /\ snd (shr r e n) = e + n.
Proof.
  intros Hr Hn. destruct n as [|p|p]; cbn [shr fst snd]; [| |lia].
  - rewrite Z.pow_0_r, Z.div_1_r. lia.
  - split; [apply iter_shr_1_m; lia|reflexivity].
Qed.

Lemma shr_record_of_loc_m m l : shr_m (shr_record_of_loc m l) = m.
Proof. destruct l as [|[]]; reflexivity. Qed.

Lemma round_nearest_even_bounds m l :
  m <= round_nearest_even m l <= m + 1.
Proof.
  destruct l as [|[]]; cbn [round_nearest_even]; try lia.
  destruct (Z.even m); lia.
Qed.

Lemma fexp64_normal e : -1021 <= e -> fexp 53 1024 e = e - 53.
Proof. intros He. unfold fexp, emin. lia. Qed.

(** Rounding a mantissa of at least 53 bits in the normal range. *)
Lemma binary_round_aux_normal sx mx ex lx :
  let d := Zpos (digits2_pos mx) in
  53 <= d -> -1021 <= d + ex -> d + ex <= 1023 ->
  exists m e,
    binary_round_aux 53 1024 sx (Zpos mx) ex lx = S754_finite sx m e
    /\ 2 ^ 52 <= Zpos m < 2 ^ 53
    /\ d + ex - 53 <= e <= d + ex - 52.
Proof.
  intros d Hd Hlo Hhi.
  unfold binary_round_aux.
  destruct (shr_fexp 53 1024 (Zpos mx) ex lx) as [r1 e1] eqn:E1.
  unfold shr_fexp in E1. cbn [Zdigits2] in E1. fold d in E1.
  rewrite fexp64_normal in E1 by lia.
  destruct (shr_spec (shr_record_of_loc (Zpos mx) lx) ex (d + ex - 53 - ex)) as [Hm1 He1].
  { rewrite shr_record_of_loc_m. lia. }
  { lia. }
  rewrite E1 in Hm1, He1. cbn [fst snd] in Hm1, He1.
  rewrite shr_record_of_loc_m in Hm1.
  replace (d + ex - 53 - ex) with (d - 53) in Hm1 by lia.
  destruct (digits2_bounds mx) as [Hl Hu]. fold d in Hl, Hu.
  assert (Hb1 : 2 ^ 52 <= shr_m r1 < 2 ^ 53).
  { rewrite Hm1.
    assert (Hp : 0 < 2 ^ (d - 53)) by (apply Z.pow_pos_nonneg; lia).
    split.
    - apply Z.div_le_lower_bound; [lia|].
      rewrite <- Z.pow_add_r by lia. replace (d - 53 + 52) with (d - 1) by lia. exact Hl.
    - apply Z.div_lt_upper_bound; [lia|].
      rewrite <- Z.pow_add_r by lia. replace (d - 53 + 53) with d by lia. exact Hu. }
  pose proof (round_nearest_even_bounds (shr_m r1) (loc_of_shr_record r1)) as Hr.
  set (m2 := round_nearest_even (shr_m r1) (loc_of_shr_record r1)) in *.
  destruct m2 as [|p2|p2] eqn:Em2; [lia| |lia].
  destruct (shr_fexp 53 1024 (Zpos p2) e1 loc_Exact) as [r2 e2] eqn:E2.
  unfold shr_fexp in E2. cbn [Zdigits2] in E2.
  assert (Hd2 : 53 <= Zpos (digits2_pos p2) <= 54).
  { split.
    - pose proof (digits2_ge p2 52). lia.
    - apply digits2_le; [lia|].
      replace (2 ^ 54) with (2 * 2 ^ 53) by reflexivity. lia. }
  rewrite fexp64_normal in E2 by lia.
  destruct (shr_spec (shr_record_of_loc (Zpos p2) loc_Exact) e1
              (Zpos (digits2_pos p2) + e1 - 53 - e1)) as [Hm2 He2].
  { cbn. lia. }
  { lia. }
  rewrite E2 in Hm2, He2. cbn [fst snd] in Hm2, He2.
  rewrite shr_record_of_loc_m in Hm2.
  replace (Zpos (digits2_pos p2) + e1 - 53 - e1) with (Zpos (digits2_pos p2) - 53) in Hm2 by lia.
  assert (Hb2 : 2 ^ 52 <= shr_m r2 < 2 ^ 53).
  { rewrite Hm2.
    destruct (Z.eq_dec (Zpos (digits2_pos p2)) 53) as [E53|N53].
    - rewrite E53. cbn [Z.sub Z.add Z.opp Z.pos_sub Pos.compare]. 
      replace (53 - 53) with 0 by lia. rewrite Z.pow_0_r, Z.div_1_r.
      split; [lia|].
      destruct (digits2_bounds p2) as [_ Hu2]. rewrite E53 in Hu2. exact Hu2.
    - assert (E54 : Zpos (digits2_pos p2) = 54) by lia.
      rewrite E54. replace (54 - 53) with 1 by lia.
      destruct (digits2_bounds p2) as [Hl2 _]. rewrite E54 in Hl2.
      replace (54 - 1) with 53 in Hl2 by lia.
      assert (Zpos p2 = 2 ^ 53) by lia.
      rewrite H. change (2 ^ 53 / 2 ^ 1) with (2 ^ 52). lia. }
  destruct (shr_m r2) as [|m|m] eqn:Er2; [lia| |lia].
  assert (He2' : e2 <= 1024 - 53) by lia.
  apply Z.leb_le in He2'. rewrite He2'.
  exists m, e2. split; [reflexivity|]. split; [exact Hb2|]. lia.
Qed.

Lemma digits2_iter_xO p n :
  Zpos (digits2_pos (Pos.iter xO p n)) = Zpos (digits2_pos p) + Zpos n.
Proof.
  induction n as [|n IH] using Pos.peano_ind.
  - cbn. lia.
  - rewrite Pos.iter_succ. cbn [digits2_pos]. lia.
Qed.

(** [float(k)] for a positive int is a normal number next to [k]. *)
Lemma of_int_normal (k : positive) :
  Zpos (digits2_pos k) <= 1000 ->
  exists m e,
    Float64.of_int (Zpos k) = inr (S754_finite false m e)
    /\ 2 ^ 52 <= Zpos m < 2 ^ 53
    /\ Zpos (digits2_pos k) - 53 <= e <= Zpos (digits2_pos k) - 52.
Proof.
  intros Hk. unfold Float64.of_int, Float64.prec, Float64.emax.
  cbn [binary_normalize]. unfold binary_round.
  set (d := Zpos (digits2_pos k)) in *.
  assert (Hd : 1 <= d) by (unfold d; lia).
  rewrite Z.add_0_r. rewrite fexp64_normal by lia.
  unfold shl_align.
  destruct (d - 53 - 0) as [|q|q] eqn:Eq.
  - destruct (binary_round_aux_normal false k 0 loc_Exact) as (m & e & -> & Hm & He);
      fold d; try lia.
    exists m, e. fold d in He. split; [reflexivity|]. split; [exact Hm|lia].
  - destruct (binary_round_aux_normal false k 0 loc_Exact) as (m & e & -> & Hm & He);
      fold d; try lia.
    exists m, e. fold d in He. split; [reflexivity|]. split; [exact Hm|lia].
  - pose proof (digits2_iter_xO k q) as Hq. fold d in Hq.
    destruct (binary_round_aux_normal false (Pos.iter xO k q) (d - 53) loc_Exact)
      as (m & e & -> & Hm & He); rewrite ?Hq; try lia.
    exists m, e. rewrite Hq in He. split; [reflexivity|]. split; [exact Hm|lia].
Qed.

Lemma to_int_lower m e :
  2 ^ 52 <= Zpos m -> -38 <= e ->
  exists v, Float64.to_int (S754_finite false m e) = inr v /\ 2 ^ 14 <= v.
Proof.
  intros Hm He. cbn [Float64.to_int].
  destruct e as [|p|p].
  - eexists; split; [reflexivity|]. lia.
  - eexists; split; [reflexivity|].
    assert (1 <= 2 ^ Zpos p) by (apply (Z.pow_le_mono_r 2 0); lia). nia.
  - eexists; split; [reflexivity|].
    assert (Hp : 0 < 2 ^ Zpos p) by (apply Z.pow_pos_nonneg; lia).
    apply Z.div_le_lower_bound; [lia|].
    assert (2 ^ Zpos p <= 2 ^ 38) by (apply Z.pow_le_mono_r; lia).
    change (2 ^ 52) with (2 ^ 38 * 2 ^ 14) in Hm. nia.
Qed.

(** [int(k * 1.2)] is large as soon as [k] is. *)
Lemma int_mul_1_2_large k :
  2 ^ 14 <= k < 2 ^ 64 ->
  exists x v, Float64.int_mul k Float64.lit_1_2 = inr x
              /\ Float64.to_int x = inr v /\ 2 ^ 14 <= v.
Proof.
  intros [Hlo Hhi]. destruct k as [|k|k]; [lia| |lia].
  assert (Hd : 15 <= Zpos (digits2_pos k) <= 64).
  { split; [apply (digits2_ge k 14); lia|apply digits2_le; lia]. }
  destruct (of_int_normal k) as (mk & ek & Hof & Hmk & Hek); [lia|].
  unfold Float64.int_mul. rewrite Hof.
  unfold Float64.lit_1_2. cbn [SFmul xorb].
  set (M := 5404319552844595%positive).
  assert (HM : 2 ^ 52 <= Zpos M < 2 ^ 53) by (unfold M; lia).
  assert (Hprod : 2 ^ 104 <= Zpos (mk * M) < 2 ^ 106).
  { rewrite Pos2Z.inj_mul.
    change (2 ^ 104) with (2 ^ 52 * 2 ^ 52). change (2 ^ 106) with (2 ^ 53 * 2 ^ 53).
    nia. }
  assert (Hdp : 105 <= Zpos (digits2_pos (mk * M)) <= 106).
  { split; [apply (digits2_ge _ 104); lia|apply digits2_le; lia]. }
  destruct (binary_round_aux_normal false (mk * M) (ek + -52) loc_Exact)
    as (m & e & Hbra & Hm & He); try lia.
  unfold Float64.prec, Float64.emax. rewrite Hbra.
  destruct (to_int_lower m e) as (v & Hv & Hv15); [lia|lia|].
  exists (S754_finite false m e), v. auto.
Qed.

Lemma exact_from_spec n : forall k,
  exact_from n k = true ->
  forall j, k <= j < k + Z.of_nat n -> int_mul_1_2 j = inr (6 * j / 5).
Proof.
  induction n as [|n IH]; intros k Hn j Hj; [lia|].
  cbn [exact_from] in Hn.
  destruct (int_mul_1_2 k) as [e|v] eqn:Ev; [discriminate|].
  apply andb_prop in Hn as [Hv Hn]. apply Z.eqb_eq in Hv.
  destruct (Z.eq_dec j k) as [->|Hne].
  - rewrite Ev, Hv. reflexivity.
  - apply (IH (k + 1)); [exact Hn|lia].
Qed.

Lemma exact_from_0_16384 : exact_from (Z.to_nat 16384) 0 = true.
Proof. vm_compute. reflexivity. Qed.

Lemma int_mul_1_2_small k :
  0 <= k < 16384 -> int_mul_1_2 k = inr (6 * k / 5).
Proof.
  intros Hk. apply (exact_from_spec (Z.to_nat 16384) 0 exact_from_0_16384). lia.
Qed.

Section Quota.
Context `{Env}.

Lemma get_daily_should_eq total_hits :
  0 <= total_hits < 2 ^ 63 -> 0 < ReindexOutdated.interval ->
  ReindexOutdated._get_daily_should total_hits
  = inr (Z.min 9999 (6 * (total_hits / ReindexOutdated.interval + 1) / 5)).
Proof.
  intros Hn Hd. unfold ReindexOutdated._get_daily_should.
  destruct (Z.eqb_spec ReindexOutdated.interval 0) as [E0|_]; [lia|].
  set (k := total_hits / ReindexOutdated.interval + 1).
  assert (Hk : 1 <= k <= 2 ^ 63).
  { unfold k. split.
    - assert (0 <= total_hits / ReindexOutdated.interval) by (apply Z.div_pos; lia). lia.
    - assert (total_hits / ReindexOutdated.interval <= total_hits)
        by (apply Z.div_le_upper_bound; nia). lia. }
  unfold ReindexBase.MULTIPLY.
  destruct (Z_lt_le_dec k 16384) as [Hs|Hl].
  - pose proof (int_mul_1_2_small k ltac:(lia)) as Hx. unfold int_mul_1_2 in Hx.
    destruct (Float64.int_mul k Float64.lit_1_2) as [e|x]; [discriminate|].
    rewrite Hx. f_equal.
    destruct (Z.leb_spec 10000 (6 * k / 5)); lia.
  - destruct (int_mul_1_2_large k) as (x & v & -> & -> & Hv).
    { change (2 ^ 14) with 16384. lia. }
    assert (10000 <= 6 * k / 5) by (apply Z.div_le_lower_bound; lia).
    change (2 ^ 14) with 16384 in Hv.
    destruct (Z.leb_spec 10000 v); [|lia]. f_equal. lia.
Qed.

End Quota.

(** ** The outdated-detection pass *)

Lemma elem_of_docs_of (index : string) (m : gmap (string * string) doc) (id : string) (d : doc) :
  (id, d) ∈ ElasticWrap.docs_of index m ↔ m !! (index, id) = Some d.
Proof.
  unfold ElasticWrap.docs_of. rewrite list_elem_of_omap. split.
  - intros ([[i k] d'] & Hin & Hsome). cbn in Hsome.
    destruct (String.eqb_spec i index) as [->|]; [|discriminate].
    injection Hsome as -> ->. by apply elem_of_map_to_list.
  - intros Hm. exists ((index, id), d). split; [by apply elem_of_map_to_list|].
    cbn. by rewrite String.eqb_refl.
Qed.

Lemma key_leb_total a b :
  ElasticWrap.key_leb a b = true ∨ ElasticWrap.key_leb b a = true.
Proof.
  destruct a as [[]|], b as [[]|]; cbn; auto; try lia.
  apply String.leb_total.
Qed.

#[global] Instance hit_le_total (field : string) (asc : bool) : Total (ElasticWrap.hit_le field asc).
Proof.
  intros a b. unfold ElasticWrap.hit_le. destruct asc.
  - apply key_leb_total.
  - destruct (key_leb_total (a.2 !! field) (b.2 !! field)); auto.
Qed.

Lemma Sorted_take {A} (R : relation A) (l : list A) n :
  Sorted R l → Sorted R (take n l).
Proof.
  intros Hs. revert n. induction Hs as [|x l Hs IH Hhd]; intros [|n]; cbn; try constructor.
  - apply IH.
  - destruct Hhd; destruct n; cbn; constructor; done.
Qed.

Lemma Sorted_fmap_impl {A B} (R : relation A) (R' : relation B) (f : A → B) l :
  (∀ x y, x ∈ l → y ∈ l → R x y → R' (f x) (f y)) →
  Sorted R l → Sorted R' (f <$> l).
Proof.
  intros Hf Hs. induction Hs as [|x l Hs IH Hhd]; cbn; constructor.
  - apply IH. intros ?? ???. apply Hf; set_solver.
  - destruct Hhd; cbn; constructor. apply Hf; set_solver.
Qed.

Section Outdated.
Context `{Env}.

Lemma get_outdated_ids_spec (rc : reindex_config) (q : Z) (s : Store) :
  0 <= q ->
  exists ids ts,
    ReindexOutdated._get_outdated_ids rc q s = Ok ids s
    /\ (length ids <= Z.to_nat q)%nat
    /\ Forall2 (fun id t => exists d,
                  es s !! (index_name rc, id) = Some d
                  /\ d !! "active" = Some (JBool true)
                  /\ d !! refresh_key rc = Some (JInt t)
                  /\ t <= now - ReindexOutdated.interval * 24 * 60 * 60) ids ts
    /\ Sorted Z.le ts.
Proof.
  intros Hq. unfold ReindexOutdated._get_outdated_ids.
  destruct (Z.ltb_spec q 0) as [|_]; [lia|].
  unfold bind, ElasticWrap.search, gets, ret.
  set (hits := take (Z.to_nat q) (merge_sort _ _)).
  exists (map fst hits), (refresh_time (refresh_key rc) <$> hits).
  assert (Hin : forall h, h ∈ hits ->
            es s !! (index_name rc, h.1) = Some h.2
            /\ h.2 !! "active" = Some (JBool true)
            /\ h.2 !! refresh_key rc = Some (JInt (refresh_time (refresh_key rc) h))
            /\ refresh_time (refresh_key rc) h <= now - ReindexOutdated.interval * 24 * 60 * 60).
  { intros [id d] Hh. unfold hits in Hh.
    apply elem_of_take in Hh as (i & Hi & _).
    apply list_elem_of_lookup_2 in Hi.
    rewrite merge_sort_Permutation in Hi.
    apply list_elem_of_filter in Hi as [Hm Hd].
    apply elem_of_docs_of in Hd. cbn [fst snd] in *.
    apply andb_prop in Hm as [Ha Hr].
    unfold ElasticWrap.match_true in Ha. unfold ElasticWrap.range_lte in Hr.
    unfold refresh_time. cbn [snd].
    destruct (d !! "active") as [[| [] | | | |]|]; try discriminate.
    destruct (d !! refresh_key rc) as [[| | t | | |]|]; try discriminate.
    apply Z.leb_le in Hr. auto. }
  split; [reflexivity|]. split; [|split].
  - rewrite length_map. unfold hits. rewrite length_take. lia.
  - change (map fst hits) with (fst <$> hits).
    apply Forall2_fmap, Forall_Forall2_diag, Forall_forall.
    intros h Hh. exists h.2. by apply Hin.
  - apply (Sorted_fmap_impl (ElasticWrap.hit_le (refresh_key rc) true)).
    + intros x y Hx Hy Hxy. unfold ElasticWrap.hit_le in Hxy.
      destruct (Hin x Hx) as (_ & _ & Ex & _), (Hin y Hy) as (_ & _ & Ey & _).
      rewrite Ex, Ey in Hxy. cbn in Hxy. by apply Z.leb_le.
    + unfold hits. apply Sorted_take, Sorted_merge_sort. apply _.
Qed.

End Outdated.

Section OutdatedPass.
Context `{Env}.

Lemma get_total_hits_ok (rc : reindex_config) (s : Store) :
  exists n, ReindexOutdated._get_total_hits rc s = Ok n s /\ 0 <= n.
Proof.
  unfold ReindexOutdated._get_total_hits, ElasticWrap.count, gets.
  eexists; split; [reflexivity|]. lia.
Qed.

(** C1 (amended).  With [q = total_hits // interval + 1], the daily
    quota is [min(9999, floor(q * 1.2))] (the binary64 product truncated,
    which is [6 * q / 5] in integer arithmetic), for every count below
    2^63 and every positive interval.  The outdated pass then selects at
    most that many identifiers; each is an active document whose last
    refresh is at or before [now - interval days], and they come ordered
    oldest-refreshed-first.  For 700 active items and an interval of 7
    the quota is 121; for 1,000,000 items and an interval of 1 it is the
    cap 9999. *)
Theorem daily_quota_outdated_pass (rc : reindex_config) (s : Store) (total_hits : Z) :
  0 < ReindexOutdated.interval ->
  ReindexOutdated._get_total_hits rc s = Ok total_hits s ->
  total_hits < 2 ^ 63 ->
  let quota := Z.min 9999 (6 * (total_hits / ReindexOutdated.interval + 1) / 5) in
  ReindexOutdated._get_daily_should total_hits = inr quota
  /\ (exists ids ts,
        ReindexOutdated._get_outdated_ids rc quota s = Ok ids s
        /\ Z.of_nat (length ids) <= quota
        /\ Forall2 (fun id t => exists d,
                      es s !! (index_name rc, id) = Some d
                      /\ d !! "active" = Some (JBool true)
                      /\ d !! refresh_key rc = Some (JInt t)
                      /\ t <= now - ReindexOutdated.interval * 24 * 60 * 60) ids ts
        /\ Sorted Z.le ts)
  /\ (total_hits = 700 -> ReindexOutdated.interval = 7 -> quota = 121)
  /\ (total_hits = 1000000 -> ReindexOutdated.interval = 1 -> quota = 9999).
Proof.
  intros Hd Hn Hlt quota.
  destruct (get_total_hits_ok rc s) as (n & Hn' & Hn0).
  rewrite Hn in Hn'. injection Hn' as <-.
  assert (Hq : 0 <= quota).
  { unfold quota. apply Z.min_glb; [lia|]. apply Z.div_pos; [|lia].
    assert (0 <= total_hits / ReindexOutdated.interval) by (apply Z.div_pos; lia). lia. }
  split; [|split; [|split]].
  - apply get_daily_should_eq; lia.
  - destruct (get_outdated_ids_spec rc quota s Hq) as (ids & ts & Hids & Hlen & Hall & Hsorted).
    exists ids, ts. repeat split; try assumption. lia.
  - intros -> E7. unfold quota. rewrite E7. reflexivity.
  - intros -> E1. unfold quota. rewrite E1. reflexivity.
Qed.

End OutdatedPass.

(** C1, witness: the pass over 700 active videos with an interval of 7
    days. *)
Lemma daily_quota_outdated_pass_witness :
  @ReindexOutdated._get_daily_should (quiet_env (config_days 7)) 700 = inr 121.
Proof.
  assert (H700 : @ReindexOutdated._get_total_hits rc_video store_700 = Ok 700 store_700).
  { unfold ReindexOutdated._get_total_hits, ElasticWrap.count, gets.
    f_equal; vm_compute; reflexivity. }
  assert (Hd : 0 < @ReindexOutdated.interval (quiet_env (config_days 7)))
    by (vm_compute; reflexivity).
  assert (Hlt : 700 < 2 ^ 63) by (vm_compute; reflexivity).
  exact (proj1 (@daily_quota_outdated_pass (quiet_env (config_days 7)) rc_video
                  store_700 700 Hd H700 Hlt)).
Defined.

(** C1, counterexample: for 700 active items and an interval of 7 days
    the spec's formula gives 120, the code computes 121, and the pass
    over 700 outdated videos selects 121 identifiers, more than 120. *)
Lemma daily_quota_700_7_is_not_120 :
  spec_daily_quota 700 7 = 120
  /\ @ReindexOutdated._get_daily_should (quiet_env (config_days 7)) 700 = inr 121
  /\ inr 121 <> (inr (spec_daily_quota 700 7) : exn + Z)
  /\ match bind (S := Store) (@ReindexOutdated._get_total_hits rc_video)
             (fun total_hits =>
                bind (lift_exn (@ReindexOutdated._get_daily_should
                                  (quiet_env (config_days 7)) total_hits))
                  (fun daily_should =>
                     @ReindexOutdated._get_outdated_ids (quiet_env (config_days 7))
                       rc_video daily_should)) store_700 with
     | Ok ids _ => length ids = 121%nat
     | Raise _ _ => False
     end.
Proof.
  split; [reflexivity|]. split; [vm_compute; reflexivity|]. split.
  - vm_compute. discriminate.
  - vm_compute. reflexivity.
Qed.

(** ** The intake progress notifier *)

Lemma notify_print_guard_iff (idx : Z) :
  PendingList.notify_print_guard idx = true <-> idx = -1.
Proof.
  unfold PendingList.notify_print_guard.
  change (1 mod 25) with 1. rewrite Z.eqb_eq. lia.
Qed.

(** C8 (amended).  The guard [idx + 1 % 25 == 0] is [idx + 1 == 0]: it
    is true at [idx = -1] only, hence false for every index the
    enumeration produces, and [_notify_add] publishes its progress
    message without ever writing the console line. *)
Theorem notify_add_never_prints (idx : Z) (s : Store) (o : PendingIndex.t)
    (missing : list string) :
  0 <= idx ->
  PendingIndex.missing_videos o = Some missing ->
  PendingList.notify_print_guard idx = false
  /\ (forall i, PendingList.notify_print_guard i = true <-> i = -1)
  /\ exists message expire,
       PendingList._notify_add idx (s, o)
       = Ok tt (set_messages (insert "message:add" (message, expire)) s, o)
       /\ log (set_messages (insert "message:add" (message, expire)) s) = log s.
Proof.
  intros Hidx Hm. split; [|split].
  - destruct (PendingList.notify_print_guard idx) eqn:E; [|reflexivity].
    apply notify_print_guard_iff in E. lia.
  - apply notify_print_guard_iff.
  - unfold PendingList._notify_add, bind, self_get, gets. cbn [snd]. rewrite Hm.
    unfold on_store, RedisArchivist.set_message, modify. cbn [fst snd].
    destruct (PendingList.notify_print_guard idx) eqn:E.
    + apply notify_print_guard_iff in E. lia.
    + eexists _, _. split; reflexivity.
Qed.

(** C8, witness: the 25th item of a pass over 50 missing videos. *)
Lemma notify_add_never_prints_witness :
  PendingList.notify_print_guard 24 = false.
Proof.
  assert (H0 : 0 <= 24) by lia.
  assert (Hm : PendingIndex.missing_videos
                 (PendingIndex.set_missing_videos (Some (replicate 50 "id"))
                    PendingIndex.init)
               = Some (replicate 50 "id")) by reflexivity.
  exact (proj1 (notify_add_never_prints 24 (mkStore ∅ ∅ [] 0 ∅) _ _ H0 Hm)).
Defined.

(** C8, counterexample: the guard is not true for nearly every index; no
    index of an enumeration makes it true, the 25th item (index 24)
    included. *)
Lemma notify_print_guard_never_true :
  ~ (exists idx, 0 <= idx /\ PendingList.notify_print_guard idx = true).
Proof.
  intros (idx & Hidx & Hg). apply notify_print_guard_iff in Hg. lia.
Qed.

(** ** Reasoning about computations *)

Import PendingIndex.

(** Hoare triples with a normal and an exceptional postcondition. *)
Definition hoare {S A} (P : S → Prop) (m : M S A) (Q : A → S → Prop) (E : S → Prop) : Prop :=
  ∀ s, P s → match m s with Ok a s' => Q a s' | Raise _ s' => E s' end.

Lemma hoare_ret {S A} (a : A) (Q : A → S → Prop) E : hoare (Q a) (ret a) Q E.
Proof. intros s Hs. exact Hs. Qed.


Lemma hoare_bind {S A B} (m : M S A) (k : A → M S B) P Q' Q E :
  hoare P m Q' E → (∀ a, hoare (Q' a) (k a) Q E) → hoare P (bind m k) Q E.
Proof.
  intros Hm Hk s Hs. unfold bind. specialize (Hm s Hs).
  destruct (m s) as [a s'|e s']; [by apply Hk|done].
Qed.

Lemma hoare_conseq {S A} (m : M S A) (P P' : S → Prop) (Q Q' : A → S → Prop) (E E' : S → Prop) :
  hoare P' m Q' E' → (∀ s, P s → P' s) → (∀ a s, Q' a s → Q a s) → (∀ s, E' s → E s) →
  hoare P m Q E.
Proof.
  intros Hm HP HQ HE s Hs. specialize (Hm s (HP s Hs)).
  destruct (m s); auto.
Qed.

Lemma hoare_gets {S A} (f : S → A) (Q : A → S → Prop) E :
  hoare (λ s, Q (f s) s) (gets f) Q E.
Proof. intros s Hs. exact Hs. Qed.

Lemma hoare_modify {S} (f : S → S) (Q : unit → S → Prop) E :
  hoare (λ s, Q tt (f s)) (modify f) Q E.
Proof. intros s Hs. exact Hs. Qed.

Lemma hoare_lift_exn {S A} (r : exn + A) (P : S → Prop) :
  hoare P (lift_exn r) (λ a s, P s ∧ r = inr a) P.
Proof. intros s Hs. destruct r; cbn; auto. Qed.



Lemma hoare_on_store {O A} (m : M Store A) (P : Store * O → Prop) (Q : A → Store * O → Prop) E :
  (∀ o, hoare (λ s, P (s, o)) m (λ a s, Q a (s, o)) (λ s, E (s, o))) →
  hoare P (on_store m) Q E.
Proof.
  intros Hm [s o] Hs. unfold on_store. cbn [fst snd].
  specialize (Hm o s Hs). by destruct (m s).
Qed.


Lemma json_eqb_str_r (x : json) (id : string) :
  json_eqb x (JStr id) = true ↔ x = JStr id.
Proof.
  destruct x; cbn; try (split; [discriminate|congruence]).
  rewrite String.eqb_eq. split; congruence.
Qed.


Lemma str_in_spec (x : string) (l : list string) : str_in x l = true ↔ x ∈ l.
Proof.
  unfold str_in. rewrite existsb_exists. split.
  - intros (y & Hy & Heq). apply String.eqb_eq in Heq as ->. by apply list_elem_of_In.
  - intros Hin. exists x. split; [by apply list_elem_of_In|apply String.eqb_refl].
Qed.

Section Resolution.
Context `{Env}.




(** A computation on the store that leaves the documents alone. *)
Definition keeps_es {A} (m : M Store A) : Prop := ∀ s, es (final (m s)) = es s.


Lemma keeps_es_upstream {A} (ask : nat → A) : keeps_es (upstream ask).
Proof. by intros s. Qed.
Lemma keeps_es_emit e : keeps_es (emit e).
Proof. by intros s. Qed.
Lemma keeps_es_print msg : keeps_es (print msg).
Proof. by intros s. Qed.
Lemma keeps_es_set_message k m e : keeps_es (RedisArchivist.set_message k m e).
Proof. by intros s. Qed.



















Lemma hoare_exists {S A X} (m : M S A) (P : X → S → Prop) (Q : X → A → S → Prop)
    (E : X → S → Prop) :
  (∀ x, hoare (P x) m (Q x) (E x)) →
  hoare (λ s, ∃ x, P x s) m (λ a s, ∃ x, Q x a s) (λ s, ∃ x, E x s).
Proof.
  intros Hm s (x & Hx). specialize (Hm x s Hx). destruct (m s); eauto.
Qed.


Lemma hoare_weaken {S A} (m : M S A) (P : S → Prop) (Q Q' : A → S → Prop)
    (E E' : S → Prop) :
  hoare P m Q' E' → (∀ a s, Q' a s → Q a s) → (∀ s, E' s → E s) → hoare P m Q E.
Proof. intros Hm HQ HE. eapply hoare_conseq; eauto. Qed.



(** *** Committing the missing list *)

(** An invariant: it holds in the state a computation ends in, normally
    or by an exception, when it holds where it starts. *)
Definition inv {S A} (I : S → Prop) (m : M S A) : Prop :=
  ∀ s, I s → I (final (m s)).

Lemma inv_hoare {S A} (I : S → Prop) (m : M S A) :
  inv I m ↔ hoare I m (λ _, I) I.
Proof.
  split; intros Hm s Hs; specialize (Hm s Hs); by destruct (m s).
Qed.

Lemma inv_ret {S A} (I : S → Prop) (a : A) : inv I (ret a).
Proof. by intros s Hs. Qed.
Lemma inv_raise {S A} (I : S → Prop) e : inv I (raise (A := A) e).
Proof. by intros s Hs. Qed.
Lemma inv_gets {S A} (I : S → Prop) (f : S → A) : inv I (gets f).
Proof. by intros s Hs. Qed.
Lemma inv_lift_exn {S A} (I : S → Prop) (r : exn + A) : inv I (lift_exn r).
Proof. intros s Hs. by destruct r. Qed.
Lemma inv_bind {S A B} (I : S → Prop) (m : M S A) (k : A → M S B) :
  inv I m → (∀ a, inv I (k a)) → inv I (bind m k).
Proof.
  intros Hm Hk s Hs. unfold bind. specialize (Hm s Hs).
  destruct (m s) as [a s'|e s']; [by apply Hk|done].
Qed.
Lemma inv_for_each {S A} (I : S → Prop) (l : list A) (body : A → M S unit) :
  (∀ x, inv I (body x)) → inv I (for_each l body).
Proof.
  intros Hb. induction l as [|x l IH]; cbn [for_each]; [apply inv_ret|].
  apply inv_bind; [apply Hb|]. intros _. apply IH.
Qed.
Lemma inv_self_get {O A} (I : Store * O → Prop) (f : O → A) : inv I (self_get f).
Proof. by intros s Hs. Qed.

(** The documents stay as they are and the object keeps a property. *)
Definition holding (es0 : gmap (string * string) doc)
    (ψ : PendingIndex.t → Prop) (so : Store * PendingIndex.t) : Prop :=
  es so.1 = es0 ∧ ψ so.2.

Lemma inv_holding_on_store {A} es0 ψ (m : M Store A) :
  keeps_es m → inv (holding es0 ψ) (on_store m).
Proof.
  intros Hk [s o] [Hes Hm]. unfold on_store. cbn [fst snd] in *.
  specialize (Hk s). destruct (m s); cbn in *; split; cbn; congruence.
Qed.

Lemma inv_holding_self_set es0 (ψ : PendingIndex.t → Prop)
    (f : PendingIndex.t → PendingIndex.t) :
  (∀ o, ψ o → ψ (f o)) → inv (holding es0 ψ) (self_set f).
Proof. intros Hf [s o] [Hes Hm]. split; cbn; [done|]. by apply Hf. Qed.

Lemma inv_holding_append_to {A} es0 (ψ : PendingIndex.t → Prop)
    (get : PendingIndex.t → option (list A))
    (set : option (list A) → PendingIndex.t → PendingIndex.t) (x : A) :
  (∀ v o, ψ o → ψ (set v o)) → inv (holding es0 ψ) (append_to get set x).
Proof.
  intros Hf. unfold append_to. apply inv_bind; [apply inv_self_get|].
  intros [l|]; [apply inv_holding_self_set; intros o Ho; by apply Hf|apply inv_raise].
Qed.

(** While the missing list is committed, the documents and the missing
    list stay as they are. *)
Definition committing (es0 : gmap (string * string) doc)
    (mv : option (list string)) : Store * PendingIndex.t → Prop :=
  holding es0 (fun o => missing_videos o = mv).

Lemma keeps_es_paginate_all index field asc :
  keeps_es (paginate_all index field asc).
Proof. by intros s. Qed.

Ltac inv_holding :=
  unfold committing;
  repeat first
    [ apply inv_ret | apply inv_raise | apply inv_self_get | apply inv_lift_exn
    | apply inv_holding_append_to; intros ? ? Hψ; exact Hψ
    | apply inv_holding_self_set; intros ? Hψ; exact Hψ
    | apply inv_holding_on_store;
        first [ apply keeps_es_upstream | apply keeps_es_emit | apply keeps_es_print
              | apply keeps_es_set_message | apply keeps_es_paginate_all ]
    | apply inv_for_each; intros ?
    | apply inv_bind; [|intros ?]
    | match goal with
      | |- inv _ (match ?x with _ => _ end) => destruct x
      | |- inv _ (let '_ := ?x in _) => destruct x
      end ].

Lemma get_channels_committing es0 mv : inv (committing es0 mv) get_channels.
Proof. unfold get_channels, _map_overwrites. inv_holding. Qed.

Lemma notify_add_committing es0 mv idx :
  inv (committing es0 mv) (PendingList._notify_add idx).
Proof. unfold PendingList._notify_add. inv_holding. Qed.

Lemma get_youtube_details_committing es0 mv id :
  inv (committing es0 mv) (PendingList.get_youtube_details id).
Proof.
  unfold PendingList.get_youtube_details, PendingList._parse_youtube_details.
  inv_holding.
Qed.

(** The create actions are for identifiers of the list walked. *)
Lemma add_loop_committing es0 mv status (ids : list string) :
  ∀ idx bulk_list,
  hoare (committing es0 mv) (PendingList.add_loop status idx ids bulk_list)
    (λ bl so, committing es0 mv so
              ∧ ∀ a, a ∈ bl → a ∈ bulk_list ∨ ∃ id, id ∈ ids ∧ a.1 = ("ta_download", id))
    (committing es0 mv).
Proof.
  induction ids as [|id ids IH]; intros idx bulk_list; cbn [PendingList.add_loop].
  { intros so Hso. cbn. split; [done|]. auto. }
  eapply hoare_bind; [apply inv_hoare; inv_holding|]. intros ?.
  eapply hoare_bind; [apply inv_hoare, get_youtube_details_committing|].
  intros [video_details|].
  - eapply hoare_bind; [apply inv_hoare; inv_holding|]. intros thumb.
    eapply hoare_bind; [apply inv_hoare; inv_holding|]. intros ?.
    eapply hoare_bind; [apply inv_hoare, notify_add_committing|]. intros ?.
    eapply hoare_weaken; [apply IH| |done].
    intros bl so [Hc Hbl]. split; [done|]. intros act Hact.
    destruct (Hbl act Hact) as [[Hin| ->%list_elem_of_singleton]%elem_of_app|(id' & Hid' & Ha')].
    + by left.
    + right. exists id. split; [by left|done].
    + right. exists id'. split; [by right|done].
  - eapply hoare_weaken; [apply IH| |done].
    intros bl so [Hc Hbl]. split; [done|]. intros act Hact.
    destruct (Hbl act Hact) as [Hin|(id' & Hid' & Ha')]; [by left|].
    right. exists id'. split; [by right|done].
Qed.












(** *** An entry of unknown type *)

Lemma for_each_app {S A} (l1 l2 : list A) (body : A → M S unit) (s : S) :
  for_each (l1 ++ l2) body s = (for_each l1 body ;;; for_each l2 body) s.
Proof.
  revert s. induction l1 as [|x l1 IH]; intros s; cbn [for_each app].
  - reflexivity.
  - unfold bind in *. destruct (body x s) as [[] s'|e s']; [apply IH|reflexivity].
Qed.

Lemma snapshot_keeps_youtube_ids es0 ids :
  inv (holding es0 (fun o => youtube_ids o = ids))
    (self_set (set_missing_videos (Some [])) ;;; get_download ;;; get_indexed).
Proof. unfold get_download, get_indexed. inv_holding. Qed.

(** C10.  When the entries before an entry of unknown type have been
    processed without an exception, the pass ends with the ValueError of
    that entry, in the state those entries left (with the progress
    message of the failing entry set): the missing list keeps what they
    added, and no entry after it is looked at. *)
Theorem unknown_type_aborts_pass (s : Store) (before after : list entry)
    (bad : entry) (so0 so1 : Store * PendingIndex.t) :
  etype bad <> "video" -> etype bad <> "channel" -> etype bad <> "playlist" ->
  (self_set (set_missing_videos (Some [])) ;;; get_download ;;; get_indexed)
    (s, PendingList.init (Some (before ++ bad :: after))) = Ok tt so0 ->
  for_each before PendingList.parse_url_entry so0 = Ok tt so1 ->
  PendingList._process_entry bad so1 = Raise ValueError so1
  /\ exists s2,
       PendingList.parse_url_list (s, PendingList.init (Some (before ++ bad :: after)))
       = Raise ValueError (s2, so1.2)
       /\ s2 = set_messages (insert "message:add"
                               (PendingList.mess_extracting, JBool true)) so1.1
       /\ missing_videos so1.2
          = missing_videos
              (final (PendingList.parse_url_list
                        (s, PendingList.init (Some (before ++ bad :: after))))).2.
Proof.
  intros Hv Hc Hp Hsnap Hbefore.
  assert (Hbad : forall so, PendingList._process_entry bad so = Raise ValueError so).
  { intros so. unfold PendingList._process_entry.
    apply String.eqb_neq in Hv, Hc, Hp. by rewrite Hv, Hc, Hp. }
  split; [apply Hbad|].
  pose proof (snapshot_keeps_youtube_ids (es s) (Some (before ++ bad :: after))
                (s, PendingList.init (Some (before ++ bad :: after)))) as Hids.
  rewrite Hsnap in Hids. destruct Hids as [_ Hids]; [done|]. cbn [final snd] in Hids.
  assert (Hrun : PendingList.parse_url_list
                   (s, PendingList.init (Some (before ++ bad :: after)))
                 = Raise ValueError
                     (set_messages (insert "message:add"
                                      (PendingList.mess_extracting, JBool true)) so1.1,
                      so1.2)).
  { unfold PendingList.parse_url_list. unfold bind in Hsnap |- *.
    destruct (self_set _ _) as [[] sa|e sa]; [|discriminate].
    destruct (get_download sa) as [[] sb|e sb]; [|discriminate].
    destruct (get_indexed sb) as [[] sc|e sc]; [|discriminate].
    injection Hsnap as ->. unfold self_get, gets. rewrite Hids.
    rewrite for_each_app. unfold bind at 1. rewrite Hbefore.
    cbn [for_each]. unfold bind at 1.
    unfold PendingList.parse_url_entry at 1. unfold bind at 1.
    unfold on_store, RedisArchivist.set_message, modify. cbn [fst snd].
    by rewrite Hbad. }
  eexists. split; [exact Hrun|]. split; [reflexivity|]. by rewrite Hrun.
Qed.

End Resolution.

Lemma ok_final {S} (r : Result S unit) : is_ok r = true -> r = Ok tt (final r).
Proof. destruct r as [[] s|e s]; [reflexivity|discriminate]. Qed.

(** C5, an instance: a channel with three uploads, one already indexed
    and one already pending, leaves exactly one missing identifier. *)
Example resolution_three_uploads :
  PendingIndex.missing_videos
    (final (@PendingList.parse_url_list (channel_env (config_days 7) three_uploads)
              (store_a_indexed_b_pending,
               PendingList.init (Some [mkEntry "channel" "UC1"])))).2
  = Some ["c"].
Proof. vm_compute. reflexivity. Qed.

(** C10, witness: a channel entry, then an entry of type "comment", then
    a video entry. *)
Lemma unknown_type_aborts_pass_witness :
  exists s2,
    @PendingList.parse_url_list (channel_env (config_days 7) three_uploads)
      (store_a_indexed_b_pending,
       PendingList.init (Some (entries_before_bad ++ bad_entry :: entries_after_bad)))
    = Raise ValueError
        (s2,
         (final (for_each entries_before_bad
                   (@PendingList.parse_url_entry
                      (channel_env (config_days 7) three_uploads))
                   (final ((self_set (PendingIndex.set_missing_videos (Some [])) ;;;
                            PendingIndex.get_download ;;; PendingIndex.get_indexed)
                             (store_a_indexed_b_pending,
                              PendingList.init
                                (Some (entries_before_bad ++ bad_entry
                                         :: entries_after_bad))))))).2).
Proof.
  destruct (@unknown_type_aborts_pass (channel_env (config_days 7) three_uploads)
              store_a_indexed_b_pending entries_before_bad entries_after_bad bad_entry
              (final ((self_set (PendingIndex.set_missing_videos (Some [])) ;;;
                       PendingIndex.get_download ;;; PendingIndex.get_indexed)
                        (store_a_indexed_b_pending,
                         PendingList.init
                           (Some (entries_before_bad ++ bad_entry :: entries_after_bad)))))
              (final (for_each entries_before_bad
                        (@PendingList.parse_url_entry
                           (channel_env (config_days 7) three_uploads))
                        (final ((self_set (PendingIndex.set_missing_videos (Some [])) ;;;
                                 PendingIndex.get_download ;;; PendingIndex.get_indexed)
                                  (store_a_indexed_b_pending,
                                   PendingList.init
                                     (Some (entries_before_bad ++ bad_entry
                                              :: entries_after_bad))))))))
    as [_ (s2 & Hrun & _)].
  - cbn. discriminate.
  - cbn. discriminate.
  - cbn. discriminate.
  - apply ok_final. vm_compute. reflexivity.
  - apply ok_final. vm_compute. reflexivity.
  - exists s2. exact Hrun.
Defined.

(** C10, the same instance evaluated: the upload [c] found before the
    bad entry stays in the missing list, the video [d] after it is never
    added. *)
Example unknown_type_keeps_earlier_additions :
  PendingIndex.missing_videos
    (final (@PendingList.parse_url_list (channel_env (config_days 7) three_uploads)
              (store_a_indexed_b_pending,
               PendingList.init
                 (Some (entries_before_bad ++ bad_entry :: entries_after_bad))))).2
  = Some ["c"]
  /\ is_ok (@PendingList.parse_url_list (channel_env (config_days 7) three_uploads)
              (store_a_indexed_b_pending,
               PendingList.init
                 (Some (entries_before_bad ++ bad_entry :: entries_after_bad))))
     = false.
Proof. split; vm_compute; reflexivity. Qed.

(** ** Comment refresh *)

(** A computation on the store that leaves the documents as they are,
    however it ends. *)
Definition es_is (es0 : gmap (string * string) doc) (s : Store) : Prop := es s = es0.

Lemma inv_es_upstream {A} es0 (ask : nat → A) : inv (es_is es0) (upstream ask).
Proof. by intros s Hs. Qed.
Lemma inv_es_emit es0 e : inv (es_is es0) (emit e).
Proof. by intros s Hs. Qed.
Lemma inv_es_print es0 msg : inv (es_is es0) (print msg).
Proof. by intros s Hs. Qed.
Lemma inv_es_set_message es0 k m e : inv (es_is es0) (RedisArchivist.set_message k m e).
Proof. by intros s Hs. Qed.
Lemma inv_es_get es0 index id : inv (es_is es0) (ElasticWrap.get index id).
Proof. by intros s Hs. Qed.

Ltac inv_es :=
  repeat first
    [ apply inv_ret | apply inv_raise | apply inv_gets | apply inv_lift_exn
    | apply inv_es_upstream | apply inv_es_emit | apply inv_es_print
    | apply inv_es_set_message | apply inv_es_get
    | apply inv_for_each; intros ?
    | apply inv_bind; [|intros ?]
    | match goal with
      | |- inv _ (match ?x with _ => _ end) => destruct x
      | |- inv _ (let '_ := ?x in _) => destruct x
      end ].

Section CommentRefresh.
Context `{Env}.

Lemma build_json_keeps_es es0 (self : Comments.t) notify :
  inv (es_is es0) (Comments.build_json self notify).
Proof.
  unfold Comments.build_json, Comments._send_notification, Comments.get_yt_comments,
    Comments.format_comments.
  inv_es.
Qed.

Lemma clean_all_length (raw cleaned : list json) :
  Comments.clean_all raw = inr cleaned -> length cleaned = length raw.
Proof.
  revert cleaned. induction raw as [|c raw IH]; intros cleaned; cbn [Comments.clean_all].
  - by intros [= <-].
  - destruct (Comments.clean_comment c); [discriminate|].
    destruct (Comments.clean_all raw) as [|cs]; [discriminate|].
    intros [= <-]. cbn. f_equal. by apply IH.
Qed.

(** What [build_json] leaves in the object when it returns. *)
Lemma build_json_ok (self self' : Comments.t) (s s' : Store) :
  Comments.build_json self None s = Ok self' s' ->
  truthy (downloads_comment_max config) = true ->
  Comments.youtube_id self' = Comments.youtube_id self
  /\ Comments.is_activated self' = true
  /\ exists comments data,
       Comments.comments_format self' = Some comments
       /\ Comments.json_data self' = Some data
       /\ data !! "comment_comments" = Some (JList comments).
Proof.
  intros Hb Hact. unfold Comments.build_json in Hb.
  unfold bind at 1 in Hb. unfold print, emit, modify in Hb.
  cbn [Comments.check_config Comments.is_activated] in Hb.
  rewrite Hact in Hb. cbn [negb Comments._send_notification] in Hb.
  unfold bind at 1 in Hb. cbn [ret] in Hb. unfold bind at 1 in Hb.
  destruct (Comments.get_yt_comments _ _) as [[comments_raw channel_id] s1|e s1];
    [|discriminate].
  unfold bind at 1 in Hb.
  match type of Hb with
  | match ?m s1 with _ => _ end = _ => destruct (m s1) as [self1 s2|e s2] eqn:Em
  end; [|discriminate].
  cbn [ret] in Hb. injection Hb as <- <-. cbn [Comments.youtube_id Comments.is_activated
    Comments.comments_format Comments.json_data].
  assert (Hself1 : Comments.youtube_id self1 = Comments.youtube_id self
                   /\ Comments.is_activated self1 = true
                   /\ exists comments, Comments.comments_format self1 = Some comments).
  { destruct comments_raw as [raw|].
    - destruct (truthy raw).
      + unfold Comments.format_comments in Em.
        destruct raw as [| | | |l|]; try discriminate.
        unfold bind, lift_exn in Em.
        destruct (Comments.clean_all l) as [e|cleaned]; [discriminate|].
        cbn in Em. injection Em as <- <-. cbn. eauto.
      + cbn in Em. injection Em as <- <-. cbn. eauto.
    - cbn in Em. injection Em as <- <-. cbn. eauto. }
  destruct Hself1 as (Hid & Hact1 & comments & Hcf).
  split; [done|]. split; [done|].
  exists comments. eexists. split; [done|]. split; [reflexivity|].
  rewrite lookup_insert_eq, Hcf. reflexivity.
Qed.

(** When the freshly pulled comment set is empty, [build_json] returns
    with an empty list. *)
Lemma build_json_empty (youtube_id : string) (s : Store) (obs : yt_obs) (info : doc) :
  truthy (downloads_comment_max config) = true ->
  Comments.build_yt_obs = inr obs ->
  yt_extract (clock s) obs youtube_id = Some info ->
  truthy (default JNone (info !! "comments")) = false ->
  exists self' s',
    Comments.build_json (Comments.check_config (Comments.init youtube_id)) None s
    = Ok self' s'
    /\ es s' = es s
    /\ Comments.no_comments self' = true.
Proof.
  intros Hact Hobs Hinfo Hempty.
  unfold Comments.build_json.
  unfold bind at 1. unfold print, emit, modify.
  cbn [Comments.check_config Comments.is_activated Comments.init].
  rewrite Hact. cbn [negb Comments._send_notification].
  unfold bind at 1. cbn [ret]. unfold bind at 1.
  unfold Comments.get_yt_comments. unfold bind at 1. rewrite Hobs. cbn [lift_exn ret].
  unfold bind at 1. unfold upstream. cbn [clock add_event].
  unfold Comments.check_config, Comments.init.
  cbn [Comments.youtube_id Comments.json_data Comments.is_activated
       Comments.comments_format].
  rewrite Hinfo. cbn [ret].
  destruct (info !! "comments") as [raw|]; cbn in Hempty.
  - rewrite Hempty. unfold bind, ret. eexists _, _. split; [reflexivity|]. by split.
  - unfold bind, ret. eexists _, _. split; [reflexivity|]. by split.
Qed.

Lemma get_es_comments_ok (self : Comments.t) (s : Store) :
  exists r s', Comments.get_es_comments self s = Ok r s' /\ es s' = es s.
Proof.
  unfold Comments.get_es_comments, bind, ElasticWrap.get, gets.
  destruct (es s !! _); eexists _, _; split; reflexivity.
Qed.

Lemma bind_ok {S A B} (m : M S A) (k : A -> M S B) (s s' : S) (a : A) :
  m s = Ok a s' -> bind m k s = k a s'.
Proof. intros E. unfold bind. by rewrite E. Qed.

Lemma bind_raise {S A B} (m : M S A) (k : A -> M S B) (s s' : S) (e : exn) :
  m s = Raise e s' -> bind m k s = Raise e s'.
Proof. intros E. unfold bind. by rewrite E. Qed.

(** What a comment refresh does to the documents: nothing, or it
    replaces the comment document by one with a non-empty comment list
    and records the count on the video. *)
Lemma reindex_comments_outcome (youtube_id : string) (s : Store) :
  let r := Comments.reindex_comments (Comments.init youtube_id) s in
  es (final r) = es s
  \/ exists data c cs,
       data !! "comment_comments" = Some (JList (c :: cs))
       /\ is_ok r = true
       /\ es (final r)
          = alter (fun old => {["comment_count" := JInt (Z.of_nat (length (c :: cs)))]} ∪ old)
              ("ta_video", youtube_id)
              (<[("ta_comment", youtube_id) := data]>
                 (delete ("ta_comment", youtube_id) (es s))).
Proof.
  intros r. unfold r, Comments.reindex_comments.
  cbn [Comments.check_config Comments.is_activated].
  destruct (truthy (downloads_comment_max config)) eqn:Hact; cbn [negb]; [|by left].
  pose proof (build_json_keeps_es (es s)
                (Comments.check_config (Comments.init youtube_id)) None s eq_refl) as Hkeep.
  destruct (Comments.build_json _ None s) as [self' s1|e s1] eqn:Eb;
    [|rewrite (bind_raise _ _ _ _ _ Eb); by left].
  rewrite (bind_ok _ _ _ _ _ Eb).
  cbn [final] in Hkeep. unfold es_is in Hkeep.
  destruct (build_json_ok _ _ _ _ Eb Hact) as (Hid & Hact' & comments & data & Hcf & Hjd & Hdata).
  cbn [Comments.check_config Comments.youtube_id Comments.init] in Hid.
  destruct (get_es_comments_ok self' s1) as (es_comments & s2 & Eg & Hes2).
  rewrite (bind_ok _ _ _ _ _ Eg).
  unfold Comments.no_comments. rewrite Hcf.
  destruct comments as [|c cs]; [left; cbn; congruence|].
  right. exists data, c, cs. split; [done|].
  unfold Comments.delete_comments, Comments.upload_comments, bind, ret, print, emit, modify,
    ElasticWrap.delete, ElasticWrap.put, ElasticWrap.update.
  rewrite Hact', Hjd, Hcf, Hid. cbn [negb]. unfold modify. cbn [is_ok]. split; [reflexivity|].
  unfold modify, Comments.es_index. cbn [final set_es es add_event]. by rewrite Hes2, Hkeep.
Qed.

(** C7.  A comment refresh whose freshly pulled comment set is empty
    returns and leaves every document as it was; and whatever is
    pulled, a stored comment document with a non-empty comment list has
    a non-empty comment list after the refresh. *)
Theorem empty_refresh_keeps_comments (youtube_id : string) (s : Store) :
  let r := Comments.reindex_comments (Comments.init youtube_id) s in
  (forall obs info,
     Comments.build_yt_obs = inr obs ->
     yt_extract (clock s) obs youtube_id = Some info ->
     truthy (default JNone (info !! "comments")) = false ->
     is_ok r = true /\ es (final r) = es s)
  /\ (forall stored c cs,
        es s !! ("ta_comment", youtube_id) = Some stored ->
        stored !! "comment_comments" = Some (JList (c :: cs)) ->
        exists stored' c' cs',
          es (final r) !! ("ta_comment", youtube_id) = Some stored'
          /\ stored' !! "comment_comments" = Some (JList (c' :: cs'))).
Proof.
  intros r. split.
  - intros obs info Hobs Hinfo Hempty. unfold r, Comments.reindex_comments.
    cbn [Comments.check_config Comments.is_activated].
    destruct (truthy (downloads_comment_max config)) eqn:Hact; cbn [negb]; [|done].
    destruct (build_json_empty youtube_id s obs info Hact Hobs Hinfo Hempty)
      as (self' & s1 & Eb & Hes1 & Hno).
    unfold Comments.check_config, Comments.init in Eb.
    cbn [Comments.youtube_id Comments.json_data Comments.is_activated
         Comments.comments_format] in Eb.
    rewrite (bind_ok _ _ _ _ _ Eb).
    destruct (get_es_comments_ok self' s1) as (es_comments & s2 & Eg & Hes2).
    rewrite (bind_ok _ _ _ _ _ Eg). rewrite Hno. cbn. split; [done|congruence].
  - intros stored c cs Hstored Hcs.
    destruct (reindex_comments_outcome youtube_id s) as [Hsame|(data & c' & cs' & Hd & _ & Hes)];
      fold r in Hsame || fold r in Hes.
    + exists stored, c, cs. by rewrite Hsame.
    + exists data, c', cs'. split; [|done]. rewrite Hes.
      rewrite lookup_alter_ne by discriminate. by rewrite lookup_insert_eq.
Qed.

End CommentRefresh.

(** C7, an instance: the platform answers with no comments; the stored
    comment stays. *)
Example empty_refresh_keeps_one_comment :
  (es (final (@Comments.reindex_comments
                (comments_env config_comments (Some {["comments" := JList []]}))
                (Comments.init "v1") store_one_comment))
     !! ("ta_comment", "v1")) ≫= (fun d => d !! "comment_comments")
  = Some (JList [JDict [("comment_id", JStr "c1")]]).
Proof. vm_compute. reflexivity. Qed.

(** ** Refreshing one entity *)

(** *** Documents are never deleted by a refresh *)









Lemma inv_try_except {S A} (I : S → Prop) (m h : M S A) e0 :
  inv I m → inv I h → inv I (try_except m e0 h).
Proof.
  intros Hm Hh s Hs. unfold try_except. specialize (Hm s Hs).
  destruct (m s) as [a s'|e s']; [done|].
  destruct (same_class e e0); [by apply Hh|done].
Qed.

Lemma inv_with_self {O A} (I : Store → Prop) (o : O) (m : M (Store * O) A) :
  inv (λ so, I so.1) m → inv I (with_self o m).
Proof.
  intros Hm s Hs. unfold with_self. specialize (Hm (s, o) Hs).
  by destruct (m (s, o)) as [a [s' o']|e [s' o']].
Qed.

Lemma inv_on_store {O A} (I : Store → Prop) (m : M Store A) :
  inv I m → inv (λ so : Store * O, I so.1) (on_store m).
Proof.
  intros Hm [s o] Hs. unfold on_store. cbn [fst snd] in *. specialize (Hm s Hs).
  by destruct (m s).
Qed.

Lemma inv_self_set_store {O} (I : Store → Prop) (f : O → O) :
  inv (λ so : Store * O, I so.1) (self_set f).
Proof. by intros [s o] Hs. Qed.

Section NoDeletion.
Context `{Env}.








End NoDeletion.

(** *** Upstream knows nothing of the entity *)

Lemma subscript_ok (d : doc) (k : string) (v : json) :
  d !! k = Some v → subscript (Some d) k = inr v.
Proof. intros E. unfold subscript, item. by rewrite E. Qed.

Lemma alter_present {K A} `{Countable K} (f : A → A) (m : gmap K A) (k : K) (x : A) :
  m !! k = Some x → alter f k m = <[k := f x]> m.
Proof.
  intros Hk. apply map_eq. intros j. destruct (decide (k = j)) as [<-|Hne].
  - by rewrite lookup_alter_eq, lookup_insert_eq, Hk.
  - by rewrite lookup_alter_ne, lookup_insert_ne.
Qed.

Lemma set_flag_false (flag : string) (old : doc) :
  {[flag := JBool false]} ∪ old = <[flag := JBool false]> old.
Proof. by rewrite insert_union_singleton_l. Qed.

Section NoData.
Context `{Env}.

(** The sticky fields of a video record are read before anything else:
    the refresh returns or raises there with nothing done. *)
Lemma video_call_reads_first (id : string) (s : Store) :
  (exists old player date_downloaded channel,
     es s !! ("ta_video", id) = Some old
     /\ old !! "player" = Some player
     /\ old !! "date_downloaded" = Some date_downloaded
     /\ old !! "channel" = Some channel)
  \/ exists e, Reindex._reindex_single_video_call id s = Raise e s
               /\ same_class e FileNotFoundError = false.
Proof.
  unfold Reindex._reindex_single_video_call, YoutubeVideo.get_from_es, ElasticWrap.get.
  unfold bind at 1. unfold bind at 1. unfold gets. cbn [ret YoutubeVideo.json_data].
  unfold YoutubeVideo.index_name, YoutubeVideo.init.
  cbn [YoutubeVideo.youtube_id YoutubeVideo.json_data YoutubeVideo.youtube_meta].
  destruct (es s !! ("ta_video", id)) as [old|] eqn:Eold.
  2:{ right. exists TypeError. split; reflexivity. }
  unfold bind at 1. unfold subscript at 1, item.
  destruct (old !! "player") as [player|] eqn:Ep.
  2:{ right. eexists. split; reflexivity. }
  cbn [lift_exn ret]. unfold bind at 1. unfold subscript at 1, item.
  destruct (old !! "date_downloaded") as [dd|] eqn:Ed.
  2:{ right. eexists. split; reflexivity. }
  cbn [lift_exn ret]. unfold bind at 1. unfold subscript at 1, item.
  destruct (old !! "channel") as [ch|] eqn:Ec.
  2:{ right. eexists. split; reflexivity. }
  left. eauto 10.
Qed.

Lemma video_call_no_meta (id : string) (s : Store) (old : doc)
    (player date_downloaded channel : json) :
  es s !! ("ta_video", id) = Some old ->
  old !! "player" = Some player ->
  old !! "date_downloaded" = Some date_downloaded ->
  old !! "channel" = Some channel ->
  video_build_json (clock s) id = BuildNoMeta ->
  Reindex._reindex_single_video_call id s
  = Ok tt (set_es (insert ("ta_video", id) (<["active" := JBool false]> old))
             (bump_clock s)).
Proof.
  intros Hold Hp Hd Hc Hbuild.
  unfold Reindex._reindex_single_video_call, YoutubeVideo.get_from_es, ElasticWrap.get,
    YoutubeVideo.build_json, YoutubeVideo.deactivate, ElasticWrap.update, upstream.
  unfold bind, gets, ret, modify. unfold YoutubeVideo.index_name, YoutubeVideo.init.
  cbn [YoutubeVideo.youtube_id YoutubeVideo.json_data YoutubeVideo.youtube_meta].
  rewrite Hold. rewrite (subscript_ok _ _ _ Hp), (subscript_ok _ _ _ Hd),
    (subscript_ok _ _ _ Hc). cbn [lift_exn ret].
  rewrite Hbuild. cbn [negb YoutubeVideo.youtube_meta].
  f_equal. unfold set_es. cbn [es bump_clock]. f_equal.
  rewrite (alter_present _ _ _ _ Hold). by rewrite set_flag_false.
Qed.


Lemma no_data_falsy (fresh : option doc) :
  no_data fresh = true → fresh = None ∨ fresh = Some ∅.
Proof.
  destruct fresh as [d|]; [|by left]. unfold no_data, map_size_eqb_zero.
  destruct (map_to_list d) eqn:E; [|discriminate].
  intros _. right. f_equal. by apply map_to_list_empty_iff.
Qed.

(** What [sync_to_videos] does to a document of the video index. *)
Definition synced (id : string) (channel : doc) (k : string * string) (d : doc)
  : option doc :=
  Some (if String.eqb k.1 "ta_video"
           && ElasticWrap.term_nested "channel" "channel_id" id d
        then <["channel" := json_of_doc channel]> d
        else d).

Lemma channel_no_data (id : string) (s : Store) (old : doc) (subscribed : json) :
  es s !! ("ta_channel", id) = Some old ->
  old !! "channel_subscribed" = Some subscribed ->
  no_data (channel_get_from_youtube (clock s) id) = true ->
  Reindex._reindex_single_channel id s
  = Ok tt
      (set_es (map_imap (synced id (<["channel_active" := JBool false]> old)))
         (set_es (insert ("ta_channel", id) (<["channel_active" := JBool false]> old))
            (bump_clock s))).
Proof.
  intros Hold Hsub Hno.
  unfold Reindex._reindex_single_channel, YoutubeChannel.get_from_es, ElasticWrap.get,
    YoutubeChannel.get_from_youtube, YoutubeChannel.deactivate, ElasticWrap.update,
    YoutubeChannel.sync_to_videos, ElasticWrap.update_by_query, upstream.
  unfold bind, gets, ret, modify. unfold YoutubeChannel.index_name, YoutubeChannel.init.
  cbn [YoutubeChannel.youtube_id YoutubeChannel.json_data].
  rewrite Hold. rewrite (subscript_ok _ _ _ Hsub). cbn [lift_exn ret].
  rewrite Hno. unfold set_es. cbn [es bump_clock messages log clock fs].
  rewrite (alter_present _ _ _ _ Hold), set_flag_false, lookup_insert_eq.
  reflexivity.
Qed.

Lemma channel_reads_first (id : string) (s : Store) :
  (exists old subscribed,
     es s !! ("ta_channel", id) = Some old
     /\ old !! "channel_subscribed" = Some subscribed)
  \/ exists e, Reindex._reindex_single_channel id s = Raise e s.
Proof.
  unfold Reindex._reindex_single_channel, YoutubeChannel.get_from_es, ElasticWrap.get.
  unfold bind at 1. unfold bind at 1. unfold gets. cbn [ret YoutubeChannel.json_data].
  unfold YoutubeChannel.index_name, YoutubeChannel.init.
  cbn [YoutubeChannel.youtube_id YoutubeChannel.json_data].
  destruct (es s !! ("ta_channel", id)) as [old|] eqn:Eold.
  2:{ right. exists TypeError. reflexivity. }
  unfold bind at 1. unfold subscript at 1, item.
  destruct (old !! "channel_subscribed") as [sub|] eqn:Ep.
  2:{ right. eexists. reflexivity. }
  left. eauto.
Qed.

Lemma unchanged_cases {S A} (m : M S A) (s : S) :
  inv (fun s' => s' = s) m →
  (exists a, m s = Ok a s) \/ (exists e, m s = Raise e s).
Proof.
  intros Hm. specialize (Hm s eq_refl).
  destruct (m s) as [a s'|e s']; cbn in Hm; subst s'; eauto.
Qed.

Lemma get_all_videos_reads (self : Reindex.t) (s : Store) :
  (exists self', Reindex._get_all_videos self s = Ok self' s)
  \/ (exists e, Reindex._get_all_videos self s = Raise e s).
Proof.
  apply unchanged_cases.
  unfold Reindex._get_all_videos.
  destruct (Reindex.all_indexed_ids self) as [[|]|].
  2: apply inv_ret.
  all: apply inv_bind;
         [|intros [? handler]; destruct (PendingIndex.all_videos handler);
           repeat first [apply inv_ret | apply inv_raise | apply inv_lift_exn
                        | apply inv_bind; [|intros ?]]].
  all: apply (inv_with_self (fun s' => s' = s)).
  all: unfold PendingIndex.get_download, PendingIndex.get_indexed,
         PendingIndex.paginate_all, PendingIndex.append_to, ElasticWrap.search.
  all: repeat first
         [ apply inv_ret | apply inv_raise | apply inv_self_get | apply inv_lift_exn
         | apply (inv_self_set_store (fun s' => s' = s))
         | apply (inv_on_store (fun s' => s' = s));
             repeat first [apply inv_ret | apply inv_gets | apply inv_bind; [|intros ?]]
         | apply inv_for_each; intros ?
         | apply inv_bind; [|intros ?]
         | match goal with
           | |- inv _ (match ?x with _ => _ end) => destruct x
           | |- inv _ (if ?x then _ else _) => destruct x
           end ].
Qed.

Lemma playlist_no_data (self : Reindex.t) (id : string) (s : Store) :
  (forall ids, no_data (playlist_build_json (clock s) id true ids) = true) ->
  (exists self' old subscribed,
     Reindex._get_all_videos self s = Ok self' s
     /\ es s !! ("ta_playlist", id) = Some old
     /\ old !! "playlist_subscribed" = Some subscribed
     /\ Reindex._reindex_single_playlist self id s
        = Ok self'
            (set_es (insert ("ta_playlist", id)
                       (<["playlist_active" := JBool false]> old))
               (bump_clock s)))
  \/ exists e, Reindex._reindex_single_playlist self id s = Raise e s.
Proof.
  intros Hno. unfold Reindex._reindex_single_playlist.
  destruct (get_all_videos_reads self s) as [[self' Eg]|[e Eg]].
  2:{ right. exists e. by rewrite (bind_raise _ _ _ _ _ Eg). }
  rewrite (bind_ok _ _ _ _ _ Eg).
  unfold YoutubePlaylist.get_from_es, ElasticWrap.get,
    YoutubePlaylist.build_json, YoutubePlaylist.deactivate, ElasticWrap.update,
    upstream.
  unfold bind, gets, ret, modify.
  unfold YoutubePlaylist.index_name, YoutubePlaylist.init.
  cbn [YoutubePlaylist.youtube_id YoutubePlaylist.json_data
       YoutubePlaylist.all_youtube_ids].
  unfold subscript, item, lift_exn, raise, ret.
  destruct (es s !! ("ta_playlist", id)) as [old|] eqn:Eold.
  2:{ right. exists TypeError. reflexivity. }
  destruct (old !! "playlist_subscribed") as [sub|] eqn:Ep.
  2:{ right. eexists. reflexivity. }
  left. exists self', old, sub. split; [done|]. split; [done|]. split; [done|].
  rewrite Hno. unfold set_es. cbn [es bump_clock messages log clock fs].
  rewrite (alter_present _ _ _ _ Eold), set_flag_false. reflexivity.
Qed.


(** With upstream silent, each refresh either raised while reading the
    stored record, with nothing written, or returned having set the
    active flag to false in the entity's document. *)
Lemma no_data_refresh_outcomes (self : Reindex.t) (id : string) (s : Store) :
  (video_build_json (clock s) id = BuildNoMeta ->
      (exists e, Reindex._reindex_single_video id s = Raise e s)
      \/ exists old,
           es s !! ("ta_video", id) = Some old
           /\ Reindex._reindex_single_video id s
              = Ok tt (set_es (insert ("ta_video", id) (<["active" := JBool false]> old))
                         (bump_clock s)))
  /\ (no_data (channel_get_from_youtube (clock s) id) = true ->
      (exists e, Reindex._reindex_single_channel id s = Raise e s)
      \/ exists old,
           es s !! ("ta_channel", id) = Some old
           /\ Reindex._reindex_single_channel id s
              = Ok tt
                  (set_es (map_imap (synced id (<["channel_active" := JBool false]> old)))
                     (set_es (insert ("ta_channel", id)
                                (<["channel_active" := JBool false]> old))
                        (bump_clock s))))
  /\ ((forall ids, no_data (playlist_build_json (clock s) id true ids) = true) ->
      (exists e, Reindex._reindex_single_playlist self id s = Raise e s)
      \/ exists old self',
           es s !! ("ta_playlist", id) = Some old
           /\ Reindex._reindex_single_playlist self id s
              = Ok self'
                  (set_es (insert ("ta_playlist", id)
                             (<["playlist_active" := JBool false]> old))
                     (bump_clock s))).
Proof.
  split; [|split].
  - intros Hbuild. unfold Reindex._reindex_single_video, try_except.
    destruct (video_call_reads_first id s)
      as [(old & p & dd & ch & Hold & Hp & Hd & Hc)|(e & -> & Hcls)].
    + right. exists old. split; [done|].
      by rewrite (video_call_no_meta id s old p dd ch Hold Hp Hd Hc Hbuild).
    + left. exists e. by rewrite Hcls.
  - intros Hno. destruct (channel_reads_first id s) as [(old & sub & Hold & Hsub)|[e He]].
    + right. exists old. split; [done|]. by apply (channel_no_data id s old sub).
    + left. eauto.
  - intros Hno. destruct (playlist_no_data self id s Hno)
      as [(self' & old & sub & _ & Hold & _ & Hrun)|[e He]].
    + right. exists old, self'. by split.
    + left. eauto.
Qed.



End NoData.


(** C6, instances: upstream has the video v1 and the channel UC1 no
    more.  Their documents stay, with the active flag false and the
    other fields as they were. *)
Example vanished_video_is_deactivated :
  @Reindex._reindex_single_video (env_cookie false) "v1" store_channel_and_video
  = Ok tt (mkStore
             (<[("ta_video", "v1") := <["active" := JBool false]> video_v1]>
                (es store_channel_and_video))
             ∅ [] 1 ∅).
Proof. vm_compute. reflexivity. Qed.

Example vanished_channel_is_deactivated :
  (es (final (@Reindex._reindex_single_channel (env_cookie false) "UC1"
                store_channel_and_video)) !! ("ta_channel", "UC1"))
  = Some (<["channel_active" := JBool false]> channel_UC1).
Proof. vm_compute. reflexivity. Qed.

(** *** Sticky fields *)

Section Sticky.
Context `{Env}.

(** The record a video refresh persists: the fresh record, with the
    subtitles found for it, and the stored player, archival date,
    channel and (when there is one) playlist put back. *)
Definition video_merged (fresh : doc) (subtitles : option json)
    (player date_downloaded channel : json) (playlist : option json) : doc :=
  let checked := match subtitles with
                 | Some subs => <["subtitles" := subs]> fresh
                 | None => fresh
                 end in
  let restored :=
    <["channel" := channel]> (
    <["date_downloaded" := date_downloaded]> (
    <["player" := player]> checked)) in
  match playlist with
  | Some pl => if truthy pl then <["playlist" := pl]> restored else restored
  | None => restored
  end.

Lemma video_merged_sticky fresh subtitles player date_downloaded channel playlist :
  let d := video_merged fresh subtitles player date_downloaded channel playlist in
  d !! "player" = Some player
  /\ d !! "date_downloaded" = Some date_downloaded
  /\ d !! "channel" = Some channel
  /\ forall k, k ∉ ["player"; "date_downloaded"; "channel"; "playlist"; "subtitles"] ->
               d !! k = fresh !! k.
Proof.
  intros d. unfold d, video_merged.
  assert (Hbase : forall checked : doc,
    let restored := <["channel" := channel]> (<["date_downloaded" := date_downloaded]>
                      (<["player" := player]> checked)) in
    forall d' : doc,
    d' = restored \/ (exists pl, d' = <["playlist" := pl]> restored) ->
    d' !! "player" = Some player /\ d' !! "date_downloaded" = Some date_downloaded
    /\ d' !! "channel" = Some channel
    /\ forall k, k ∉ ["player"; "date_downloaded"; "channel"; "playlist"; "subtitles"] ->
                 d' !! k = checked !! k).
  { intros checked restored d' Hd'.
    assert (Hr : restored !! "player" = Some player
                 /\ restored !! "date_downloaded" = Some date_downloaded
                 /\ restored !! "channel" = Some channel
                 /\ forall k, k ∉ ["player"; "date_downloaded"; "channel"; "playlist";
                                   "subtitles"] -> restored !! k = checked !! k).
    { unfold restored. repeat split.
      - by rewrite lookup_insert_ne, lookup_insert_ne, lookup_insert_eq.
      - by rewrite lookup_insert_ne, lookup_insert_eq.
      - by rewrite lookup_insert_eq.
      - intros k Hk. rewrite !lookup_insert_ne; [done|..]; intros <-; apply Hk;
          repeat constructor. }
    destruct Hd' as [->|[pl ->]]; [exact Hr|].
    destruct Hr as (Hp & Hd & Hc & Hk). repeat split.
    + by rewrite lookup_insert_ne.
    + by rewrite lookup_insert_ne.
    + by rewrite lookup_insert_ne.
    + intros k Hnk. rewrite lookup_insert_ne; [by apply Hk|].
      intros <-. apply Hnk. repeat constructor. }
  set (checked := match subtitles with Some subs => _ | None => fresh end).
  assert (Hchecked : forall k, k ∉ ["player"; "date_downloaded"; "channel"; "playlist";
                                    "subtitles"] -> checked !! k = fresh !! k).
  { intros k Hk. unfold checked. destruct subtitles; [|done].
    rewrite lookup_insert_ne; [done|]. intros <-. apply Hk. repeat constructor. }
  match goal with |- ?d' !! _ = _ /\ _ => destruct (Hbase checked d') as (Hp & Hd & Hc & Hk) end.
  { destruct playlist as [pl|]; [|by left]. destruct (truthy pl); [right; eauto|by left]. }
  repeat split; try done. intros k Hk0. rewrite Hk by done. by apply Hchecked.
Qed.

End Sticky.


Section StickyRefresh.
Context `{Env}.






End StickyRefresh.




(** ** The drain cycle and its queues *)

Section Cycle.
Context `{Env}.

Lemma lift_queues {A} (m : M Store A) (w : World) :
  queues (final (lift m w)) = queues w.
Proof. unfold lift. by destruct (m (store w)). Qed.

Lemma lift_ok {A} (m : M Store A) (w : World) (a : A) (s : Store) :
  m (store w) = Ok a s -> lift m w = Ok a (set_store w s).
Proof. intros E. unfold lift. by rewrite E. Qed.


(** The loop over a queue ends: unfolded more often than the queue is
    long, it does not stop at the bound. *)
Lemma reindex_while_returns (fuel : nat) :
  forall (self : Reindex.t) (index_config : reindex_config) (w w' : World),
    (length (default [] (queues w !! queue_name index_config)) < fuel)%nat ->
    Reindex.reindex_while fuel self index_config w <> Ok None w'.
Proof.
  induction fuel as [|fuel IH]; intros self index_config w w' Hlen; [lia|].
  cbn [Reindex.reindex_while]. unfold Reindex.reindex_index.
  unfold bind at 1. unfold bind at 1. unfold RedisQueue.get_next.
  destruct (default [] (queues w !! queue_name index_config)) as [|id rest] eqn:Eq.
  { cbn. discriminate. }
  destruct (String.eqb id "") eqn:Eid; cbn [negb].
  { cbn. discriminate. }
  destruct (Reindex.get_reindex_map (index_name index_config)) as [reindex|].
  2:{ cbn. discriminate. }
  unfold bind at 1.
  match goal with |- context [lift (reindex self id) ?w1] =>
    pose proof (lift_queues (reindex self id) w1) as Hq;
    destruct (lift (reindex self id) w1) as [self' w2|e w2]
  end.
  2:{ discriminate. }
  cbn [final] in Hq. unfold bind at 1.
  match goal with |- context [lift ?m w2] =>
    pose proof (lift_queues m w2) as Hq';
    destruct (lift m w2) as [[] w3|e w3] eqn:Esleep
  end.
  2:{ discriminate. }
  cbn [final] in Hq'. cbn [ret]. apply IH.
  rewrite Hq', Hq. cbn [queues set_queues]. rewrite lookup_insert_eq. cbn [default].
  unfold Datatypes.id. cbn [length] in Hlen. lia.
Qed.

Lemma reindex_queues_returns (configs : list reindex_config) :
  forall (self : Reindex.t) (w w' : World),
    Reindex.reindex_queues self configs w <> Ok None w'.
Proof.
  induction configs as [|index_config rest IH]; intros self w w'; [discriminate|].
  cbn [Reindex.reindex_queues]. unfold bind at 1, RedisQueue.has_item, gets.
  destruct (default [] (queues w !! queue_name index_config)) as [|id queued] eqn:Eq;
    cbn [negb]; [apply IH|].
  unfold bind at 1. rewrite Eq. unfold bind at 1.
  destruct (Reindex.reindex_while _ self index_config w) as [[self'|] w1|e w1] eqn:Ew.
  - apply IH.
  - exfalso. revert Ew. apply reindex_while_returns. rewrite Eq. lia.
  - discriminate.
Qed.

(** [reindex_all] returns or raises. *)
Lemma reindex_all_returns (self : Reindex.t) (w w' : World) :
  Reindex.reindex_all self w <> Ok None w'.
Proof.
  unfold Reindex.reindex_all. unfold bind at 1.
  destruct (lift Reindex.cookie_invalid w) as [[|] w0|e w0]; [| |discriminate].
  - unfold bind. by destruct (lift _ w0).
  - unfold bind at 1.
    destruct (Reindex.reindex_queues self ReindexBase.values w0) as [[self'|] w1|e w1] eqn:Eq.
    + unfold bind. by destruct (lift _ w1).
    + exfalso. by apply reindex_queues_returns in Eq.
    + discriminate.
Qed.

(** What is left of a queue is a tail of [bound]. *)
Definition shrunk (q : string) (bound : list string) (w : World) : Prop :=
  default [] (queues w !! q) `suffix_of` bound.

Lemma inv_shrunk_lift {A} q bound (m : M Store A) : inv (shrunk q bound) (lift m).
Proof. intros w Hw. unfold shrunk. by rewrite lift_queues. Qed.

Lemma inv_shrunk_get_next q bound q' : inv (shrunk q bound) (RedisQueue.get_next q').
Proof.
  intros w Hw. unfold RedisQueue.get_next.
  destruct (default [] (queues w !! q')) as [|x rest] eqn:Eq; [done|].
  cbn [final]. unfold shrunk in *. cbn [queues set_queues].
  destruct (decide (q' = q)) as [->|Hne].
  - rewrite lookup_insert_eq. cbn [default]. rewrite Eq in Hw.
    by apply suffix_cons_l in Hw.
  - by rewrite lookup_insert_ne.
Qed.

Lemma inv_shrunk_reindex_index q bound self index_config :
  inv (shrunk q bound) (Reindex.reindex_index self index_config).
Proof.
  unfold Reindex.reindex_index.
  apply inv_bind; [apply inv_shrunk_get_next|]. intros [id|]; [|apply inv_ret].
  destruct (negb (String.eqb id "")); [|apply inv_ret].
  destruct (Reindex.get_reindex_map (index_name index_config)); [|apply inv_raise].
  apply inv_bind; [apply inv_shrunk_lift|]. intros self'.
  apply inv_bind; [apply inv_shrunk_lift|]. intros ?. apply inv_ret.
Qed.

Lemma inv_shrunk_reindex_while q bound index_config (fuel : nat) :
  forall self, inv (shrunk q bound) (Reindex.reindex_while fuel self index_config).
Proof.
  induction fuel as [|fuel IH]; intros self; cbn [Reindex.reindex_while];
    [apply inv_ret|].
  apply inv_bind; [apply inv_shrunk_reindex_index|]. intros [self' [|]];
    [apply IH|apply inv_ret].
Qed.

Lemma inv_shrunk_reindex_queues q bound (configs : list reindex_config) :
  forall self, inv (shrunk q bound) (Reindex.reindex_queues self configs).
Proof.
  induction configs as [|index_config rest IH]; intros self;
    cbn [Reindex.reindex_queues]; [apply inv_ret|].
  apply inv_bind; [apply inv_gets|]. intros has_item.
  destruct (negb has_item); [apply IH|].
  apply inv_bind; [apply inv_gets|]. intros queued.
  apply inv_bind; [apply inv_shrunk_reindex_while|]. intros [self'|];
    [apply IH|apply inv_ret].
Qed.

Lemma final_bind_inv {S A B} (I : S -> Prop) (m : M S A) (k : A -> M S B) (s : S) :
  I (final (m s)) -> (forall a, inv I (k a)) -> I (final (bind m k s)).
Proof.
  intros Hm Hk. unfold bind. destruct (m s) as [a s'|e s']; [|done].
  by apply Hk.
Qed.

Lemma bind_gets {S A B} (f : S -> A) (k : A -> M S B) (s : S) :
  bind (gets f) k s = k (f s) s.
Proof. reflexivity. Qed.

Lemma reindex_queues_cons (self : Reindex.t) (index_config : reindex_config)
    (configs : list reindex_config) (w : World) (id : string) (queued : list string) :
  default [] (queues w !! queue_name index_config) = id :: queued ->
  Reindex.reindex_queues self (index_config :: configs) w
  = bind (Reindex.reindex_while (S (length (id :: queued))) self index_config)
      (fun r => match r with
                | None => ret None
                | Some self => Reindex.reindex_queues self configs
                end) w.
Proof.
  intros Eq. cbn [Reindex.reindex_queues].
  unfold bind at 1, RedisQueue.has_item, gets. rewrite Eq. cbn [negb].
  unfold bind at 1. by rewrite Eq.
Qed.

(** Once the guard has let the cycle pass, the head of a non-empty
    video queue is popped. *)
Lemma cycle_pops_head (self : Reindex.t) (w : World) (s0 : Store)
    (id : string) (rest : list string) :
  Reindex.cookie_invalid (store w) = Ok false s0 ->
  queues w !! "reindex:ta_video" = Some (id :: rest) ->
  shrunk "reindex:ta_video" rest (final (Reindex.reindex_all self w)).
Proof.
  intros Hguard Hq. unfold Reindex.reindex_all.
  rewrite (bind_ok _ _ _ _ _ (lift_ok _ _ _ _ Hguard)).
  apply final_bind_inv.
  2:{ intros [?|]; [|apply inv_ret].
      apply inv_bind; [apply inv_shrunk_lift|]. intros ?. apply inv_ret. }
  cbn [ReindexBase.values ReindexBase.REINDEX_CONFIG map snd].
  rewrite (reindex_queues_cons self _ _ _ id rest)
    by (cbn [queue_name queues set_store]; by rewrite Hq).
  apply final_bind_inv.
  2:{ intros [?|]; [|apply inv_ret]. apply inv_shrunk_reindex_queues. }
  cbn [Reindex.reindex_while].
  apply final_bind_inv.
  2:{ intros [self' [|]]; [apply inv_shrunk_reindex_while|apply inv_ret]. }
  unfold Reindex.reindex_index.
  assert (Hpop : RedisQueue.get_next "reindex:ta_video" (set_store w s0)
                 = Ok (Some id)
                     (set_queues (insert "reindex:ta_video" rest) (set_store w s0))).
  { unfold RedisQueue.get_next. cbn [queues set_store]. by rewrite Hq. }
  cbn [queue_name]. rewrite (bind_ok _ _ _ _ _ Hpop).
  match goal with |- shrunk _ _ (final (?m ?w1)) =>
    assert (Hm : inv (shrunk "reindex:ta_video" rest) m); [|apply Hm]
  end.
  { destruct (negb (String.eqb id "")); [|apply inv_ret].
    destruct (Reindex.get_reindex_map _); [|apply inv_raise].
    apply inv_bind; [apply inv_shrunk_lift|]. intros self'.
    apply inv_bind; [apply inv_shrunk_lift|]. intros ?. apply inv_ret. }
  unfold shrunk. cbn [queues set_queues set_store]. by rewrite lookup_insert_eq.
Qed.

(** What [cookie_invalid] returns is whether the cookie is valid. *)
Lemma cookie_invalid_is_valid (s : Store) :
  Reindex.cookie_invalid s
  = if truthy (downloads_cookie_import config)
    then Ok (cookie_validate (clock s)) (bump_clock s)
    else Ok false s.
Proof.
  unfold Reindex.cookie_invalid. by destruct (truthy (downloads_cookie_import config)).
Qed.

(** C2.  With a cookie configured, the guard of the cycle returns the
    outcome of the validation: a cookie that validates makes the cycle
    print that the cookie is invalid and return with nothing popped and
    nothing else written; a cookie that fails validation lets the cycle
    pass, which returns or raises and has popped the head of a non-empty
    video queue. *)
Theorem cookie_guard_follows_validation (self : Reindex.t) (w : World) :
  truthy (downloads_cookie_import config) = true ->
  Reindex.cookie_invalid (store w)
  = Ok (cookie_validate (clock (store w))) (bump_clock (store w))
  /\ (cookie_validate (clock (store w)) = true ->
      Reindex.reindex_all self w
      = Ok (Some tt)
          (set_store w (add_event (EvPrint "[reindex] cookie invalid, exiting...")
                          (bump_clock (store w)))))
  /\ (cookie_validate (clock (store w)) = false ->
      (forall w', Reindex.reindex_all self w <> Ok None w')
      /\ forall id rest,
           queues w !! "reindex:ta_video" = Some (id :: rest) ->
           default [] (queues (final (Reindex.reindex_all self w)) !! "reindex:ta_video")
             `suffix_of` rest).
Proof.
  intros Hcookie. pose proof (cookie_invalid_is_valid (store w)) as Hguard.
  rewrite Hcookie in Hguard. split; [done|]. split.
  - intros Hvalid. rewrite Hvalid in Hguard. unfold Reindex.reindex_all.
    rewrite (bind_ok _ _ _ _ _ (lift_ok _ _ _ _ Hguard)). reflexivity.
  - intros Hvalid. rewrite Hvalid in Hguard. split; [apply reindex_all_returns|].
    intros id rest Hq. by apply (cycle_pops_head self w _ id rest Hguard).
Qed.


End Cycle.



(** C2, an instance: the configured cookie fails validation. *)
Lemma cookie_guard_follows_validation_witness :
  @Reindex.cookie_invalid (env_cookie false) (store world_one_queued)
  = Ok false (bump_clock (store world_one_queued))
  /\ default [] (queues (final (cycle_cookie false)) !! "reindex:ta_video")
     `suffix_of` [].
Proof.
  destruct (@cookie_guard_follows_validation (env_cookie false) Reindex.init
              world_one_queued eq_refl) as (Hguard & _ & Hpass).
  split; [exact Hguard|].
  exact (proj2 (Hpass eq_refl) "v1" [] eq_refl).
Defined.

(** C2, evaluated: with a cookie that fails validation the cycle pops
    v1, deactivates it and records its time; with a cookie that
    validates it prints that the cookie is invalid and leaves v1
    queued. *)
Example cookie_rejected_cycle_drains :
  cycle_cookie false
  = Ok (Some tt)
      (mkWorld
         (mkStore
            (<[("ta_video", "v1") := <["active" := JBool false]> video_v1]>
               (es store_channel_and_video))
            {["last_reindex" := (JInt 1700000000, JNone)]}
            [EvSleep 0] 2 ∅)
         {["reindex:ta_video" := []]}).
Proof. vm_compute. reflexivity. Qed.

Example cookie_accepted_cycle_exits :
  cycle_cookie true
  = Ok (Some tt)
      (mkWorld
         (mkStore (es store_channel_and_video) ∅
            [EvPrint "[reindex] cookie invalid, exiting..."] 1 ∅)
         {["reindex:ta_video" := ["v1"]]}).
Proof. vm_compute. reflexivity. Qed.



(** *** The Redis list named "all" *)

(** The queue named "all" is none of the refresh queues. *)
Lemma all_is_no_refresh_queue :
  "all" ∉ map queue_name ReindexBase.values.
Proof.
  cbn. intros Hin. repeat (apply elem_of_cons in Hin as [Hin|Hin]; [discriminate|]).
  inversion Hin.
Qed.

Section QueueAll.
Context `{Env}.

(** The Redis list named "all" is as it was. *)
Definition all_is (q0 : option (list string)) (w : World) : Prop :=
  queues w !! "all" = q0.

Lemma inv_all_lift {A} q0 (m : M Store A) : inv (all_is q0) (lift m).
Proof. intros w Hw. unfold all_is. by rewrite lift_queues. Qed.

Lemma inv_all_add_list q0 (q : string) (to_add : list string) :
  q <> "all" -> inv (all_is q0) (RedisQueue.add_list q to_add).
Proof.
  intros Hq w Hw. unfold all_is in *. cbn. by rewrite lookup_insert_ne.
Qed.

Lemma inv_all_get_next q0 (q : string) :
  q <> "all" -> inv (all_is q0) (RedisQueue.get_next q).
Proof.
  intros Hq w Hw. unfold RedisQueue.get_next.
  destruct (default [] (queues w !! q)); [done|].
  unfold all_is in *. cbn. by rewrite lookup_insert_ne.
Qed.

Lemma refresh_queue_is_not_all (index_config : reindex_config) :
  index_config ∈ ReindexBase.values -> queue_name index_config <> "all".
Proof.
  intros Hin Hall. apply all_is_no_refresh_queue.
  rewrite <- Hall. apply list_elem_of_In, in_map. by apply list_elem_of_In.
Qed.

Lemma inv_all_reindex_index q0 self index_config :
  queue_name index_config <> "all" ->
  inv (all_is q0) (Reindex.reindex_index self index_config).
Proof.
  intros Hq. unfold Reindex.reindex_index.
  apply inv_bind; [by apply inv_all_get_next|]. intros [id|]; [|apply inv_ret].
  destruct (negb (String.eqb id "")); [|apply inv_ret].
  destruct (Reindex.get_reindex_map (index_name index_config)); [|apply inv_raise].
  apply inv_bind; [apply inv_all_lift|]. intros self'.
  apply inv_bind; [apply inv_all_lift|]. intros ?. apply inv_ret.
Qed.

Lemma inv_all_reindex_while q0 index_config (fuel : nat) :
  queue_name index_config <> "all" ->
  forall self, inv (all_is q0) (Reindex.reindex_while fuel self index_config).
Proof.
  intros Hq. induction fuel as [|fuel IH]; intros self; cbn [Reindex.reindex_while];
    [apply inv_ret|].
  apply inv_bind; [by apply inv_all_reindex_index|]. intros [self' [|]];
    [apply IH|apply inv_ret].
Qed.

Lemma inv_all_reindex_queues q0 (configs : list reindex_config) :
  Forall (fun index_config => queue_name index_config <> "all") configs ->
  forall self, inv (all_is q0) (Reindex.reindex_queues self configs).
Proof.
  induction 1 as [|index_config rest Hq _ IH]; intros self;
    cbn [Reindex.reindex_queues]; [apply inv_ret|].
  apply inv_bind; [apply inv_gets|]. intros has_item.
  destruct (negb has_item); [apply IH|].
  apply inv_bind; [apply inv_gets|]. intros queued.
  apply inv_bind; [by apply inv_all_reindex_while|]. intros [self'|];
    [apply IH|apply inv_ret].
Qed.

Lemma refresh_queues_are_not_all :
  Forall (fun index_config => queue_name index_config <> "all") ReindexBase.values.
Proof. apply Forall_forall. intros c Hc. by apply refresh_queue_is_not_all. Qed.

(** The code that pushes to and pops from the queues leaves the list
    named "all" alone. *)
Lemma queue_all_is_unused (q0 : option (list string)) :
  inv (all_is q0) ReindexOutdated.add_outdated
  /\ (forall extract_videos data,
        inv (all_is q0) (ReindexManual.extract_data extract_videos data))
  /\ (forall self, inv (all_is q0) (Reindex.reindex_all self)).
Proof.
  split; [|split].
  - unfold ReindexOutdated.add_outdated.
    pose proof refresh_queues_are_not_all as Hall.
    induction Hall as [|rc rest Hq _ IH]; cbn [for_each]; [apply inv_ret|].
    apply inv_bind; [|intros ?; apply IH].
    apply inv_bind; [apply inv_all_lift|]. intros total_hits.
    apply inv_bind; [apply inv_lift_exn|]. intros daily_should.
    apply inv_bind; [apply inv_all_lift|]. intros [|id ids]; cbn [ReindexBase.populate];
      [apply inv_ret|by apply inv_all_add_list].
  - intros extract_videos data. unfold ReindexManual.extract_data.
    assert (Hvideos : forall values, inv (all_is q0) (ReindexManual._add_videos values)).
    { intros [|v vs]; cbn [ReindexManual._add_videos];
        [apply inv_ret|by apply inv_all_add_list]. }
    apply inv_for_each. intros [key values]. cbn [fst snd].
    destruct (ReindexBase.get key) as [rc|].
    2:{ apply inv_bind; [apply inv_all_lift|]. intros ?. apply inv_raise. }
    unfold ReindexManual.process_index.
    destruct (String.eqb (index_name rc) "ta_video"); [apply Hvideos|].
    destruct (String.eqb (index_name rc) "ta_channel").
    { unfold ReindexManual._add_channels.
      apply inv_bind; [by apply inv_all_add_list|]. intros ?.
      destruct extract_videos; [|apply inv_ret].
      apply inv_for_each. intros channel_id.
      apply inv_bind; [apply inv_all_lift|]. intros ?. apply Hvideos. }
    destruct (String.eqb (index_name rc) "ta_playlist"); [|apply inv_ret].
    unfold ReindexManual._add_playlists.
    apply inv_bind; [by apply inv_all_add_list|]. intros ?.
    destruct extract_videos; [|apply inv_ret].
    apply inv_for_each. intros playlist_id.
    apply inv_bind; [apply inv_all_lift|]. intros ?. apply Hvideos.
  - intros self. unfold Reindex.reindex_all.
    apply inv_bind; [apply inv_all_lift|]. intros [|].
    { apply inv_bind; [apply inv_all_lift|]. intros ?. apply inv_ret. }
    apply inv_bind; [apply inv_all_reindex_queues, refresh_queues_are_not_all|].
    intros [?|]; [|apply inv_ret].
    apply inv_bind; [apply inv_all_lift|]. intros ?. apply inv_ret.
Qed.

End QueueAll.

(** ** Refresh progress *)

Section Progress.
Context `{Env}.

(** C9.  A progress query with a request id and no entity type returns
    normally, reads and changes nothing else, and its state is the
    membership of the id in the Redis list named "all".  That list is
    none of the three refresh queues, and the code that fills and drains
    the queues never writes it: the state does not depend on what the
    refresh queues hold, and it is false while nothing is stored under
    "all", also for an id queued under a type. *)
Theorem progress_without_type_reads_queue_all (w : World)
    (request_type : option string) (request_id : string) :
  ReindexProgress.falsy request_type = true ->
  request_id <> "" ->
  let self := ReindexProgress.mk request_type (Some request_id) in
  exists progress,
    ReindexProgress.get_progress self w = Ok progress w
    /\ progress !! "type" = Some (JStr "all")
    /\ progress !! "id" = Some (JStr request_id)
    /\ progress !! "state"
       = Some (JBool (str_in request_id (default [] (queues w !! "all"))))
    /\ ("all" ∉ map queue_name ReindexBase.values)
    /\ (forall w',
          queues w' !! "all" = queues w !! "all" ->
          exists progress',
            ReindexProgress.get_progress self w' = Ok progress' w'
            /\ progress' !! "state" = progress !! "state")
    /\ (queues w !! "all" = None -> progress !! "state" = Some (JBool false))
    /\ queues (final (ReindexOutdated.add_outdated w)) !! "all" = queues w !! "all"
    /\ (forall extract_videos data,
          queues (final (ReindexManual.extract_data extract_videos data w)) !! "all"
          = queues w !! "all")
    /\ (forall reindex,
          queues (final (Reindex.reindex_all reindex w)) !! "all" = queues w !! "all").
Proof.
  intros Hfalsy Hid self.
  assert (Hrun : forall w0, exists progress,
            ReindexProgress.get_progress self w0 = Ok progress w0
            /\ progress !! "type" = Some (JStr "all")
            /\ progress !! "id" = Some (JStr request_id)
            /\ progress !! "state"
               = Some (JBool (str_in request_id (default [] (queues w0 !! "all"))))).
  { intros w0. unfold ReindexProgress.get_progress, ReindexProgress._get_queue_name.
    cbn [ReindexProgress.request_type self]. rewrite Hfalsy.
    unfold bind at 1. cbn [ret].
    unfold ReindexProgress._get_total_in_queue. cbn [String.eqb Ascii.eqb Bool.eqb].
    cbn [ReindexBase.values ReindexBase.REINDEX_CONFIG map snd
         ReindexBase.queue_name_of queue_name ReindexProgress.total_of].
    unfold bind, RedisQueue.get_all, gets, ret.
    unfold ReindexProgress._get_state. cbn [ReindexProgress.request_id self].
    assert (Hf : ReindexProgress.falsy (Some request_id) = false).
    { cbn. by apply String.eqb_neq. }
    rewrite Hf. cbn [negb]. unfold bind, RedisQueue.in_queue, gets, ret.
    eexists. split; [reflexivity|]. cbn [default]. repeat split. }
  destruct (Hrun w) as (progress & Hp & Htype & Hrid & Hstate).
  destruct (queue_all_is_unused (queues w !! "all")) as (Hout & Hman & Hall).
  exists progress. split; [done|]. split; [done|]. split; [done|]. split; [done|].
  split; [apply all_is_no_refresh_queue|]. split; [|split; [|split; [|split]]].
  - intros w' Hw'. destruct (Hrun w') as (progress' & Hp' & _ & _ & Hstate').
    exists progress'. split; [done|]. by rewrite Hstate', Hstate, Hw'.
  - intros Hnone. by rewrite Hstate, Hnone.
  - by apply Hout.
  - intros extract_videos data. by apply Hman.
  - intros reindex. by apply Hall.
Qed.

End Progress.

(** C9, an instance: v1 is queued for a video refresh; asked without a
    type, the progress of v1 has the state false. *)
Lemma progress_without_type_reads_queue_all_witness :
  exists progress,
    ReindexProgress.get_progress (ReindexProgress.mk None (Some "v1")) world_one_queued
    = Ok progress world_one_queued
    /\ str_in "v1" (default [] (queues world_one_queued !! "reindex:ta_video")) = true
    /\ progress !! "state" = Some (JBool false).
Proof.
  assert (Hid : "v1" <> "") by discriminate.
  destruct (@progress_without_type_reads_queue_all (env_cookie false) world_one_queued
              None "v1" eq_refl Hid)
    as (progress & Hrun & _ & _ & _ & _ & _ & Hnone & _).
  exists progress. split; [exact Hrun|]. split; [reflexivity|].
  apply Hnone. reflexivity.
Defined.

(* ===================================================================== *)
(** * Part III: the rest of the three files                                *)
(* ===================================================================== *)

(** ** queue.py: PendingInteract *)

Module PendingInteract.

(** [video_id] and [status]; [None] is the default [False]. *)
Record t : Type := mk {
  video_id : option string;
  status : option string;
}.

(** [f"{x}"] for an attribute that is a string or [False]. *)
Definition formatted (x : option string) : string := default "False" x.


(** [{"term": {"status": {"value": self.status}}}] *)
Definition status_query (self : t) : doc -> bool :=
  match status self with
  | Some st => ElasticWrap.term "status" st
  | None => fun d => match d !! "status" with
                     | Some (JBool false) => true
                     | _ => false
                     end
  end.

Definition delete_item (self : t) : M Store unit :=
  ElasticWrap.delete "ta_download" (formatted (video_id self)).

Definition delete_by_status (self : t) : M Store unit :=
  ElasticWrap.delete_by_query "ta_download" (status_query self).


End PendingInteract.

(** ** Concrete scenarios, continued *)

(** One comment as the extractor gives it, and as it is indexed. *)
Definition raw_comment : json :=
  JDict [("id", JStr "c9"); ("text", JStr "first"); ("timestamp", JInt 1700000030);
         ("like_count", JInt 3); ("is_favorited", JBool false);
         ("author", JStr "ann"); ("author_id", JStr "UCann");
         ("author_thumbnail", JStr "https://yt3.ggpht.com/ann");
         ("author_is_uploader", JBool false); ("parent", JStr "root")].

Definition cleaned_comment : json :=
  JDict [("comment_id", JStr "c9"); ("comment_text", JStr "first");
         ("comment_timestamp", JInt 1700000030); ("comment_time_text", JStr "");
         ("comment_likecount", JInt 3); ("comment_is_favorited", JBool false);
         ("comment_author", JStr "ann"); ("comment_author_id", JStr "UCann");
         ("comment_author_thumbnail", JStr "https://yt3.ggpht.com/ann");
         ("comment_author_is_uploader", JBool false); ("comment_parent", JStr "root")].

Definition info_one_comment : doc :=
  <["comments" := JList [raw_comment]]> {["channel_id" := JStr "UC1"]}.

Definition env_one_comment : Env := comments_env config_comments (Some info_one_comment).

(** An environment where the extractor and the playlist scraper have
    one answer each and dates parse. *)
Definition intake_env (cfg : Config) (vid playlist : option doc) : Env :=
  mkEnv cfg 1700000000 (fun _ => true) (fun _ _ => BuildNoMeta) (fun _ _ => None)
    (fun _ _ => None) (fun _ _ _ _ => playlist) (fun _ _ _ => vid) (fun _ _ => [])
    (fun _ => "1:01") (fun _ => inr "2023-01-01") (fun _ _ => "") (fun s => s)
    (fun _ _ => None) (fun a b => a +:+ "/" +:+ b) (fun p => p).

Definition vid_v2 : doc :=
  <["id" := JStr "v2"]> (
  <["live_status" := JStr "not_live"]> (
  <["duration" := JInt 61]> (
  <["upload_date" := JStr "20230101"]> (
  <["channel" := JStr "Channel One"]> (
  <["thumbnail" := JStr "https://i.ytimg.com/vi/v2/hq.jpg"]> (
  <["title" := JStr "second video"]> {["channel_id" := JStr "UC1"]})))))).

Definition env_intake : Env := intake_env (config_days 90) (Some vid_v2) None.

(** A pass that has found v2 missing. *)
Definition pass_v2_missing : Store * PendingIndex.t :=
  (store_a_indexed_b_pending,
   set_missing_videos (Some ["v2"]) (set_all_pending (Some []) (PendingList.init None))).

(** A subscribed playlist, and what upstream has for it. *)
Definition playlist_PL1 : doc :=
  <["playlist_subscribed" := JBool true]> (
  <["playlist_name" := JStr "old list"]> {["playlist_id" := JStr "PL1"]}).

Definition fresh_playlist : doc :=
  <["playlist_name" := JStr "new list"]> {["playlist_id" := JStr "PL1"]}.

Definition store_playlist : Store :=
  mkStore (<[("ta_playlist", "PL1") := playlist_PL1]> (<[("ta_video", "v1") := video_v1]> ∅))
    ∅ [] 0 ∅.

Definition env_playlist : Env := intake_env (config_days 90) None (Some fresh_playlist).

(** A video whose record knows its media file; the file is gone. *)
Definition store_media : Store :=
  mkStore {[("ta_video", "v1") := <["media_url" := JStr "UC1/v1.mp4"]> video_v1]}
    ∅ [] 0 ∅.

(** A manual request: two videos and a channel; and one with a key that
    is no refresh type. *)
Definition manual_request : list (string * list string) :=
  [("video", ["v1"; "v2"]); ("channel", ["UC1"])].

(** A snapshot with one pending video of a channel with overwrites. *)
Definition pending_b : doc := <["channel_id" := JStr "UC1"]> {["youtube_id" := JStr "b"]}.

Definition snapshot_with_overwrites : PendingIndex.t :=
  set_channel_overwrites (Some {["UC1" := JDict [("download_format", JStr "best")]]})
    (set_all_pending (Some [pending_b]) PendingIndex.init).


(** ** The outdated pass and the manual requests *)

Lemma elem_of_push_new (q to_add : list string) (x : string) :
  x ∈ RedisQueue.push_new q to_add -> x ∈ q \/ x ∈ to_add.
Proof.
  revert q. induction to_add as [|y rest IH]; intros q; cbn [RedisQueue.push_new].
  - by left.
  - intros Hx. apply IH in Hx as [Hx|Hx]; [|right; by apply elem_of_cons; right].
    destruct (str_in y q); [by left|].
    apply elem_of_app in Hx as [Hx|Hx]; [by left|].
    apply list_elem_of_singleton in Hx as ->. right. by apply elem_of_cons; left.
Qed.

Lemma push_new_prefix (q to_add : list string) :
  q `prefix_of` RedisQueue.push_new q to_add.
Proof.
  revert q. induction to_add as [|y rest IH]; intros q; cbn [RedisQueue.push_new]; [done|].
  destruct (str_in y q); [apply IH|].
  etrans; [|apply IH]. by apply prefix_app_r.
Qed.

Section OutdatedQueue.
Context `{Env}.

(** An active document of the index of [rc] whose last refresh is at
    least the re-check interval ago. *)
Definition outdated (rc : reindex_config) (s : Store) (id : string) : Prop :=
  exists d t,
    es s !! (index_name rc, id) = Some d
    /\ d !! "active" = Some (JBool true)
    /\ d !! refresh_key rc = Some (JInt t)
    /\ t <= now - ReindexOutdated.interval * 24 * 60 * 60.

(** What the pass may have done to the queues of [w0]. *)
Definition queued_outdated (w0 w : World) : Prop :=
  store w = store w0
  /\ forall q,
       default [] (queues w0 !! q) `prefix_of` default [] (queues w !! q)
       /\ forall id,
            id ∈ default [] (queues w !! q) ->
            id ∈ default [] (queues w0 !! q)
            \/ exists rc, rc ∈ ReindexBase.values /\ queue_name rc = q
                          /\ outdated rc (store w0) id.

Lemma get_outdated_ids_outdated (rc : reindex_config) (q : Z) (s : Store) :
  match ReindexOutdated._get_outdated_ids rc q s with
  | Ok ids s' => s' = s /\ forall id, id ∈ ids -> outdated rc s id
  | Raise _ s' => s' = s
  end.
Proof.
  destruct (Z.ltb_spec q 0) as [Hneg|Hq].
  - unfold ReindexOutdated._get_outdated_ids. apply Z.ltb_lt in Hneg. by rewrite Hneg.
  - destruct (get_outdated_ids_spec rc q s Hq) as (ids & ts & -> & _ & Hall & _).
    split; [done|]. intros id Hid.
    apply list_elem_of_lookup in Hid as [i Hi].
    destruct (Forall2_lookup_l _ _ _ _ _ Hall Hi) as (t & _ & d & Hd).
    exists d, t. exact Hd.
Qed.

Lemma add_outdated_step (w0 : World) (rc : reindex_config) :
  rc ∈ ReindexBase.values ->
  inv (queued_outdated w0)
    (total_hits <- lift (ReindexOutdated._get_total_hits rc) ;;
     daily_should <- lift_exn (ReindexOutdated._get_daily_should total_hits) ;;
     all_ids <- lift (ReindexOutdated._get_outdated_ids rc daily_should) ;;
     ReindexBase.populate all_ids rc).
Proof.
  intros Hrc [s qs] (Hs & Hq). cbn [store queues] in Hs, Hq. subst s.
  unfold bind at 1. unfold lift at 1, ReindexOutdated._get_total_hits, ElasticWrap.count, gets.
  cbn [store set_store queues].
  unfold bind at 1.
  destruct (ReindexOutdated._get_daily_should _) as [e|daily_should];
    cbn [lift_exn raise ret final]; unfold set_store; cbn [store queues]; [by split|].
  cbn [ret]. unfold bind at 1, lift at 1. cbn [store].
  pose proof (get_outdated_ids_outdated rc daily_should (store w0)) as Hids.
  destruct (ReindexOutdated._get_outdated_ids rc daily_should (store w0))
    as [ids s'|e s']; unfold set_store; cbn [store queues].
  2:{ subst s'. by split. }
  destruct Hids as [-> Hids].
  destruct ids as [|id ids]; cbn [ReindexBase.populate ret final]; [by split|].
  unfold RedisQueue.add_list, modify, set_queues. cbn [final store queues].
  split; [done|]. intros q. destruct (Hq q) as [Hpre Hin]. cbn [queues] in *.
  destruct (decide (queue_name rc = q)) as [<-|Hne].
  - rewrite lookup_insert_eq. cbn [default]. split.
    + etrans; [exact Hpre|]. apply push_new_prefix.
    + intros x Hx. apply elem_of_push_new in Hx as [Hx|Hx]; [by apply Hin|].
      right. exists rc. split; [done|]. split; [done|]. by apply Hids.
  - rewrite lookup_insert_ne by done. by split.
Qed.

(** X13.  The outdated pass changes no document; it appends to the refresh
    queues and keeps what was queued, in place; and every identifier it
    adds to a queue is, in the index of that queue, a document whose
    field [active] is true and whose last refresh is at least the
    re-check interval ago.  This holds in whatever way the pass ends. *)
Theorem add_outdated_queues_only_outdated (w : World) :
  queued_outdated w (final (ReindexOutdated.add_outdated w)).
Proof.
  unfold ReindexOutdated.add_outdated.
  assert (Hl : forall l, Forall (fun rc => rc ∈ ReindexBase.values) l ->
            inv (queued_outdated w)
              (for_each l (fun rc =>
                 total_hits <- lift (ReindexOutdated._get_total_hits rc) ;;
                 daily_should <- lift_exn (ReindexOutdated._get_daily_should total_hits) ;;
                 all_ids <- lift (ReindexOutdated._get_outdated_ids rc daily_should) ;;
                 ReindexBase.populate all_ids rc))).
  { induction 1 as [|rc l Hrc _ IH]; cbn [for_each]; [apply inv_ret|].
    apply inv_bind; [by apply add_outdated_step|]. intros ?. apply IH. }
  apply Hl.
  - by apply Forall_forall.
  - split; [done|]. intros q. split; [done|]. intros id Hid. by left.
Qed.

(** X14.  With a re-check interval of 0 days the pass raises
    [ZeroDivisionError] at the first index, before any queue is
    touched. *)
Theorem add_outdated_interval_zero (w : World) :
  ReindexOutdated.interval = 0 ->
  ReindexOutdated.add_outdated w = Raise ZeroDivisionError w.
Proof.
  intros Hzero. unfold ReindexOutdated.add_outdated.
  cbn [ReindexBase.values ReindexBase.REINDEX_CONFIG map snd for_each].
  unfold bind at 1. unfold bind at 1.
  unfold lift at 1, ReindexOutdated._get_total_hits, ElasticWrap.count, gets.
  unfold bind at 1. unfold ReindexOutdated._get_daily_should. rewrite Hzero.
  cbn [Z.eqb lift_exn raise]. by destruct w.
Qed.

End OutdatedQueue.

Lemma push_new_keeps (q to_add : list string) (x : string) :
  x ∈ q -> x ∈ RedisQueue.push_new q to_add.
Proof.
  intros Hx. destruct (push_new_prefix q to_add) as [k ->].
  apply elem_of_app. by left.
Qed.

Lemma push_new_adds (q to_add : list string) (x : string) :
  x ∈ to_add -> x ∈ RedisQueue.push_new q to_add.
Proof.
  revert q. induction to_add as [|y rest IH]; intros q Hx; [by apply elem_of_nil in Hx|].
  cbn [RedisQueue.push_new]. apply elem_of_cons in Hx as [->|Hx]; [|by apply IH].
  apply push_new_keeps. destruct (str_in y q) eqn:E.
  - by apply str_in_spec.
  - apply elem_of_app. right. by apply list_elem_of_singleton.
Qed.

Section Manual.
Context `{Env}.

Lemma get_config_spec (key : string) :
  ReindexBase.get key
  = if String.eqb key "video"
    then Some (mkReindexConfig "ta_video" "reindex:ta_video" "active" "vid_last_refresh")
    else if String.eqb key "channel"
    then Some (mkReindexConfig "ta_channel" "reindex:ta_channel" "channel_active"
                 "channel_last_refresh")
    else if String.eqb key "playlist"
    then Some (mkReindexConfig "ta_playlist" "reindex:ta_playlist" "playlist_active"
                 "playlist_last_refresh")
    else None.
Proof. reflexivity. Qed.

(** X15.  A manual request with a key that is no refresh type: the keys before
    it are processed, then the request raises [ValueError] after a
    console line; the keys behind it are not processed and what the
    earlier keys queued stays queued. *)
Theorem extract_data_unknown_key (extract_videos : bool)
    (before behind : list (string * list string)) (key : string) (ids : list string)
    (w : World) :
  key <> "video" -> key <> "channel" -> key <> "playlist" ->
  ReindexManual.extract_data extract_videos (before ++ (key, ids) :: behind) w
  = match ReindexManual.extract_data extract_videos before w with
    | Ok _ w1 =>
        Raise ValueError
          (set_store w1
             (add_event (EvPrint ("reindex type " +:+ key +:+ " not valid")) (store w1)))
    | Raise e w1 => Raise e w1
    end.
Proof.
  intros Hv Hc Hp. unfold ReindexManual.extract_data.
  rewrite for_each_app. unfold bind at 1.
  destruct (for_each before _ w) as [[] w1|e w1]; [|reflexivity].
  cbn [for_each fst snd]. rewrite get_config_spec.
  apply String.eqb_neq in Hv, Hc, Hp. rewrite Hv, Hc, Hp.
  reflexivity.
Qed.

(** The queue a refresh type is pushed to. *)
Definition queue_of_type (key : string) : string := "reindex:ta_" +:+ key.

(** What a manual request has done to the queues of [w0]. *)
Definition queued_request (data : list (string * list string)) (w0 w : World) : Prop :=
  store w = store w0
  /\ (forall q, default [] (queues w0 !! q) `prefix_of` default [] (queues w !! q))
  /\ (forall key ids id,
        (key, ids) ∈ data -> id ∈ ids -> id ∈ default [] (queues w !! queue_of_type key))
  /\ (forall q id,
        id ∈ default [] (queues w !! q) ->
        id ∈ default [] (queues w0 !! q)
        \/ exists key ids, (key, ids) ∈ data /\ q = queue_of_type key /\ id ∈ ids).

Lemma process_index_plain (rc : reindex_config) (key : string) (ids : list string)
    (w : World) :
  ReindexBase.get key = Some rc ->
  exists w',
    ReindexManual.process_index false rc ids w = Ok tt w'
    /\ store w' = store w
    /\ (forall q, q <> queue_of_type key -> queues w' !! q = queues w !! q)
    /\ (default [] (queues w' !! queue_of_type key)
        = RedisQueue.push_new (default [] (queues w !! queue_of_type key)) ids).
Proof.
  rewrite get_config_spec.
  destruct (String.eqb_spec key "video") as [->|_].
  { intros [= <-]. unfold ReindexManual.process_index. cbn [index_name String.eqb Ascii.eqb
      Bool.eqb]. destruct ids as [|id ids]; cbn [ReindexManual._add_videos].
    - exists w. by repeat split.
    - eexists. split; [reflexivity|]. unfold set_queues. cbn [store queues].
      split; [done|]. split.
      + intros q Hq. by rewrite lookup_insert_ne.
      + by rewrite lookup_insert_eq. }
  destruct (String.eqb_spec key "channel") as [->|_].
  { intros [= <-]. unfold ReindexManual.process_index. cbn [index_name String.eqb Ascii.eqb
      Bool.eqb]. unfold ReindexManual._add_channels, bind, RedisQueue.add_list, modify, ret.
    eexists. split; [reflexivity|]. unfold set_queues. cbn [store queues].
    split; [done|]. split.
    + intros q Hq. by rewrite lookup_insert_ne.
    + by rewrite lookup_insert_eq. }
  destruct (String.eqb_spec key "playlist") as [->|_]; [|discriminate].
  intros [= <-]. unfold ReindexManual.process_index. cbn [index_name String.eqb Ascii.eqb
    Bool.eqb]. unfold ReindexManual._add_playlists, bind, RedisQueue.add_list, modify, ret.
  eexists. split; [reflexivity|]. unfold set_queues. cbn [store queues].
  split; [done|]. split.
  + intros q Hq. by rewrite lookup_insert_ne.
  + by rewrite lookup_insert_eq.
Qed.

(** X16.  A manual request whose keys are all refresh types, without
    extraction of the videos, returns; it changes no document; every
    identifier listed under a type is then in the queue of that type;
    what was queued before stays queued, in place; and nothing else is
    added to any queue. *)
Theorem extract_data_queues_ids (data : list (string * list string)) (w : World) :
  Forall (fun kv => is_Some (ReindexBase.get kv.1)) data ->
  exists w',
    ReindexManual.extract_data false data w = Ok tt w'
    /\ queued_request data w w'.
Proof.
  intros Hvalid. revert w.
  induction data as [|[key ids] data IH] using rev_ind; intros w.
  { exists w. split; [reflexivity|]. split; [done|]. split; [done|]. split.
    - intros key ids id Hin. by apply elem_of_nil in Hin.
    - intros q id Hid. by left. }
  apply Forall_app in Hvalid as [Hdata Hlast].
  apply Forall_cons in Hlast as [[rc Hrc] _]. cbn [fst] in Hrc.
  destruct (IH Hdata w) as (w1 & Hrun & Hs1 & Hpre1 & Hin1 & Hof1).
  unfold ReindexManual.extract_data in *. rewrite for_each_app.
  rewrite (bind_ok _ _ _ _ _ Hrun). cbn [for_each fst snd]. rewrite Hrc.
  destruct (process_index_plain rc key ids w1 Hrc) as (w' & Hstep & Hs' & Hother & Hq).
  rewrite (bind_ok _ _ _ _ _ Hstep). exists w'. split; [reflexivity|].
  assert (Hkeep : forall q, default [] (queues w1 !! q) `prefix_of` default [] (queues w' !! q)).
  { intros q. destruct (decide (q = queue_of_type key)) as [->|Hne].
    - rewrite Hq. apply push_new_prefix.
    - by rewrite Hother. }
  split; [congruence|]. split; [|split].
  - intros q. etrans; [apply Hpre1|apply Hkeep].
  - intros key' ids' id Hin Hid. apply elem_of_app in Hin as [Hin|Hin].
    + destruct (Hkeep (queue_of_type key')) as [k ->]. apply elem_of_app. left.
      by apply (Hin1 key' ids').
    + apply list_elem_of_singleton in Hin as [= -> ->]. rewrite Hq. by apply push_new_adds.
  - intros q id Hid. destruct (decide (q = queue_of_type key)) as [->|Hne].
    + rewrite Hq in Hid. apply elem_of_push_new in Hid as [Hid|Hid].
      * destruct (Hof1 _ _ Hid) as [?|(key' & ids' & Hin & ? & ?)]; [by left|].
        right. exists key', ids'. split; [|done]. apply elem_of_app. by left.
      * right. exists key, ids. split; [|done]. apply elem_of_app. right.
        by apply list_elem_of_singleton.
    + rewrite Hother in Hid by done.
      destruct (Hof1 _ _ Hid) as [?|(key' & ids' & Hin & ? & ?)]; [by left|].
      right. exists key', ids'. split; [|done]. apply elem_of_app. by left.
Qed.

End Manual.

(** ** Progress of a refresh type *)

Section ProgressMore.
Context `{Env}.

(** X19.  A progress query for a type: an unknown type raises [ValueError]
    after a console line; a refresh type reads its own queue and
    nothing else is changed: the total is the length of that queue, and
    the state is the membership of the request id when one is given,
    otherwise "running" or "empty" as the queue holds something or
    not. *)
Theorem progress_of_type (w : World) (request_type : string)
    (request_id : option string) :
  request_type <> "" ->
  let self := ReindexProgress.mk (Some request_type) request_id in
  let queue := default [] (queues w !! ("reindex:ta_" +:+ request_type)) in
  match ReindexBase.get request_type with
  | None =>
      ReindexProgress.get_progress self w
      = Raise ValueError
          (set_store w (add_event
                          (EvPrint ("reindex_config not found: " +:+ request_type))
                          (store w)))
  | Some rc =>
      queue_name rc = "reindex:ta_" +:+ request_type
      /\ exists progress,
           ReindexProgress.get_progress self w = Ok progress w
           /\ progress !! "type" = Some (JStr request_type)
           /\ progress !! "total_queued" = Some (JInt (Z.of_nat (length queue)))
           /\ (if ReindexProgress.falsy request_id
               then progress !! "id" = None
                    /\ progress !! "state"
                       = Some (JStr (match queue with [] => "empty" | _ => "running" end))
               else progress !! "id" = Some (JStr (default "" request_id))
                    /\ progress !! "state"
                       = Some (JBool (str_in (default "" request_id) queue)))
  end.
Proof.
  intros Hne self queue.
  assert (Hf : ReindexProgress.falsy (Some request_type) = false).
  { cbn. by apply String.eqb_neq. }
  assert (Hrun : forall rc,
    ReindexBase.get request_type = Some rc ->
    queue_name rc = "reindex:ta_" +:+ request_type ->
    queue_name rc <> "all" ->
    exists progress,
      ReindexProgress.get_progress self w = Ok progress w
      /\ progress !! "type" = Some (JStr request_type)
      /\ progress !! "total_queued" = Some (JInt (Z.of_nat (length queue)))
      /\ (if ReindexProgress.falsy request_id
          then progress !! "id" = None
               /\ progress !! "state"
                  = Some (JStr (match queue with [] => "empty" | _ => "running" end))
          else progress !! "id" = Some (JStr (default "" request_id))
               /\ progress !! "state"
                  = Some (JBool (str_in (default "" request_id) queue)))).
  { intros rc Hrc Hq Hall.
    unfold ReindexProgress.get_progress, ReindexProgress._get_queue_name.
    cbn [ReindexProgress.request_type self]. rewrite Hf. cbn [default]. unfold Datatypes.id. rewrite Hrc.
    unfold bind at 1. cbn [ret]. unfold ReindexProgress._get_total_in_queue.
    apply String.eqb_neq in Hall. rewrite Hall, Hq.
    unfold bind, RedisQueue.get_all, gets, ret, ReindexProgress._get_state.
    cbn [ReindexProgress.request_id self]. fold queue.
    destruct (ReindexProgress.falsy request_id) eqn:Hid; cbn [negb].
    - eexists. split; [reflexivity|].
      split; [by rewrite lookup_union_r, lookup_insert_eq by done|].
      split; [by rewrite lookup_union_r, lookup_insert_ne, lookup_insert_eq by done|].
      split; [by rewrite lookup_union_r by done|].
      rewrite lookup_union_l, lookup_insert_eq by done. do 2 f_equal.
      destruct queue; [reflexivity|]. cbn [length].
      destruct (Z.eqb_spec (0 + Z.of_nat (S (length queue))) 0); [lia|reflexivity].
    - unfold RedisQueue.in_queue, gets. eexists. split; [reflexivity|]. fold queue.
      split; [by rewrite lookup_union_r, lookup_insert_eq by done|].
      split; [by rewrite lookup_union_r, lookup_insert_ne, lookup_insert_eq by done|].
      split.
      + by rewrite lookup_union_l, lookup_insert_ne, lookup_insert_eq by done.
      + by rewrite lookup_union_l, lookup_insert_eq by done. }
  rewrite get_config_spec.
  destruct (String.eqb_spec request_type "video") as [->|Hv].
  { split; [reflexivity|]. eapply Hrun; [reflexivity|reflexivity|discriminate]. }
  destruct (String.eqb_spec request_type "channel") as [->|Hc].
  { split; [reflexivity|]. eapply Hrun; [reflexivity|reflexivity|discriminate]. }
  destruct (String.eqb_spec request_type "playlist") as [->|Hp].
  { split; [reflexivity|]. eapply Hrun; [reflexivity|reflexivity|discriminate]. }
  unfold ReindexProgress.get_progress, ReindexProgress._get_queue_name.
  cbn [ReindexProgress.request_type self]. rewrite Hf. cbn [default]. unfold Datatypes.id.
  rewrite get_config_spec.
  apply String.eqb_neq in Hv, Hc, Hp. rewrite Hv, Hc, Hp.
  reflexivity.
Qed.

(** X20.  A progress query without a type and without a request id counts what
    the three refresh queues hold together; the state is "running" while
    one of them holds something, otherwise "empty"; nothing is
    changed. *)
Theorem progress_overall (w : World) (request_type request_id : option string) :
  ReindexProgress.falsy request_type = true ->
  ReindexProgress.falsy request_id = true ->
  let videos := default [] (queues w !! "reindex:ta_video") in
  let channels := default [] (queues w !! "reindex:ta_channel") in
  let playlists := default [] (queues w !! "reindex:ta_playlist") in
  exists progress,
    ReindexProgress.get_progress (ReindexProgress.mk request_type request_id) w
    = Ok progress w
    /\ progress !! "type" = Some (JStr "all")
    /\ progress !! "total_queued"
       = Some (JInt (Z.of_nat (length videos + length channels + length playlists)))
    /\ progress !! "id" = None
    /\ progress !! "state"
       = Some (JStr (match videos, channels, playlists with
                     | [], [], [] => "empty"
                     | _, _, _ => "running"
                     end)).
Proof.
  intros Htype Hid videos channels playlists.
  unfold ReindexProgress.get_progress, ReindexProgress._get_queue_name.
  cbn [ReindexProgress.request_type]. rewrite Htype.
  unfold bind at 1. cbn [ret].
  unfold ReindexProgress._get_total_in_queue. cbn [String.eqb Ascii.eqb Bool.eqb].
  cbn [ReindexBase.values ReindexBase.REINDEX_CONFIG map snd
       ReindexBase.queue_name_of queue_name ReindexProgress.total_of].
  unfold bind, RedisQueue.get_all, gets, ret, ReindexProgress._get_state.
  cbn [ReindexProgress.request_id]. rewrite Hid. cbn [negb].
  fold videos channels playlists.
  eexists. split; [reflexivity|].
  split; [by rewrite lookup_union_r, lookup_insert_eq by done|].
  split.
  { rewrite lookup_union_r, lookup_insert_ne, lookup_insert_eq by done.
    do 2 f_equal. lia. }
  split; [by rewrite lookup_union_r by done|].
  rewrite lookup_union_l, lookup_insert_eq by done. do 2 f_equal.
  destruct videos, channels, playlists; cbn [length];
    match goal with
    | |- context [?a =? 0] => destruct (Z.eqb_spec a 0)
    end; first [reflexivity | lia].
Qed.

End ProgressMore.

(** ** The path repair *)

Section Fixer.
Context `{Env}.

(** X21.  The path repair moves nothing unless the media file is where the
    stored record says and its folder differs from the one fresh
    metadata gives: with the file missing it gives up with [ValueError]
    before any request upstream; with the folder unchanged it returns
    after one request.  In both cases no document and no file is
    changed. *)
Theorem fixer_run_without_move (id : string) (s : Store) (old : doc) (media_url : string) :
  es s !! ("ta_video", id) = Some old ->
  old !! "media_url" = Some (JStr media_url) ->
  let video_path_is := os_path_join (application_videos config) media_url in
  let started :=
    add_event (EvPrint (id +:+ ": failed to build channel path, try to fix.")) s in
  (video_path_is ∉ fs s ->
   ChannelUrlFixer.run (ChannelUrlFixer.init id) s
   = Raise ValueError (add_event (EvPrint "giving up reindex, video in video") started))
  /\ (video_path_is ∈ fs s ->
      forall media_url_should,
        video_media_url_should (clock s) id = Some (JStr media_url_should) ->
        os_path_dirname (os_path_join (application_videos config) media_url_should)
        = os_path_dirname video_path_is ->
        ChannelUrlFixer.run (ChannelUrlFixer.init id) s
        = Ok tt (add_event (EvPrint (id +:+ ": skip channel url fixer"))
                   (bump_clock started))).
Proof.
  intros Hold Hurl video_path_is started.
  assert (Hpath : forall k : ChannelUrlFixer.t * (string * string) -> M Store unit,
    bind (ChannelUrlFixer.get_as_is (ChannelUrlFixer.init id)) k started
    = k (ChannelUrlFixer.mk id (Some (YoutubeVideo.mk id (Some old) false)),
         (video_path_is, os_path_dirname video_path_is)) started).
  { intros k. apply bind_ok.
    unfold ChannelUrlFixer.get_as_is, YoutubeVideo.get_from_es, ElasticWrap.get,
      YoutubeVideo.index_name, bind, gets, ret.
    cbn [ChannelUrlFixer.init ChannelUrlFixer.youtube_id YoutubeVideo.init
         YoutubeVideo.youtube_id YoutubeVideo.json_data YoutubeVideo.youtube_meta].
    unfold started. cbn [es add_event]. rewrite Hold.
    cbn [YoutubeVideo.json_data]. rewrite (subscript_ok _ _ _ Hurl).
    cbn [lift_exn ret as_str]. reflexivity. }
  assert (Hrun : ChannelUrlFixer.run (ChannelUrlFixer.init id) s
    = (if negb (bool_decide (video_path_is ∈ fs s))
       then print "giving up reindex, video in video" ;;; raise ValueError
       else
         ' (self, (_, video_folder_should)) <-
           ChannelUrlFixer.get_as_should
             (ChannelUrlFixer.mk id (Some (YoutubeVideo.mk id (Some old) false))) ;;
         if negb (String.eqb (os_path_dirname video_path_is) video_folder_should)
         then ChannelUrlFixer.process self video_path_is
         else print (ChannelUrlFixer.youtube_id self +:+ ": skip channel url fixer"))
        started).
  { unfold ChannelUrlFixer.run. unfold bind at 1. unfold print at 1, emit, modify.
    cbn [ChannelUrlFixer.init ChannelUrlFixer.youtube_id]. fold started.
    change (ChannelUrlFixer.mk id None) with (ChannelUrlFixer.init id).
    rewrite Hpath. reflexivity. }
  rewrite Hrun. clear Hrun Hpath.
  split.
  - intros Hmissing.
    destruct (bool_decide (video_path_is ∈ fs s)) eqn:E;
      [by apply bool_decide_eq_true in E|].
    cbn [negb]. reflexivity.
  - intros Hthere media_url_should Hshould Hsame.
    destruct (bool_decide (video_path_is ∈ fs s)) eqn:E;
      [|by apply bool_decide_eq_false in E].
    cbn [negb].
    unfold ChannelUrlFixer.get_as_should, upstream.
    cbn [ChannelUrlFixer.video ChannelUrlFixer.youtube_id].
    unfold bind at 1. unfold bind at 1.
    assert (Hclock : clock started = clock s) by reflexivity. rewrite Hclock, Hshould.
    cbn [YoutubeVideo.set_item YoutubeVideo.json_data lift_exn ret as_str].
    unfold bind. cbn [ret]. rewrite Hsame, String.eqb_refl. cbn [negb].
    reflexivity.
Qed.

End Fixer.

(** ** Refreshing a playlist *)

Section PlaylistSticky.
Context `{Env}.

(** X12.  A playlist refresh that pulls fresh metadata replaces the playlist
    document by the fresh record with the stored subscription flag put
    back; it hands the identifiers of the indexed videos to the
    metadata request and changes no other document. *)
Theorem playlist_refresh_keeps_subscription (self self' : Reindex.t) (id : string)
    (s : Store) (old fresh : doc) (subscribed : json) :
  Reindex._get_all_videos self s = Ok self' s ->
  es s !! ("ta_playlist", id) = Some old ->
  old !! "playlist_subscribed" = Some subscribed ->
  playlist_build_json (clock s) id true (Reindex.all_indexed_ids self') = Some fresh ->
  no_data (Some fresh) = false ->
  Reindex._reindex_single_playlist self id s
  = Ok self'
      (set_es (insert ("ta_playlist", id) (<["playlist_subscribed" := subscribed]> fresh))
         (bump_clock s)).
Proof.
  intros Hall Hold Hsub Hfresh Hdata. unfold Reindex._reindex_single_playlist.
  rewrite (bind_ok _ _ _ _ _ Hall).
  unfold YoutubePlaylist.get_from_es, ElasticWrap.get, YoutubePlaylist.build_json,
    YoutubePlaylist.upload_to_es, ElasticWrap.put, upstream.
  unfold bind, gets, ret, modify.
  unfold YoutubePlaylist.index_name, YoutubePlaylist.init.
  cbn [YoutubePlaylist.youtube_id YoutubePlaylist.json_data
       YoutubePlaylist.all_youtube_ids].
  rewrite Hold. rewrite (subscript_ok _ _ _ Hsub). cbn [lift_exn ret].
  rewrite Hfresh, Hdata.
  cbn [lift_exn YoutubePlaylist.set_item YoutubePlaylist.json_data
       YoutubePlaylist.youtube_id ret].
  reflexivity.
Qed.

End PlaylistSticky.

(** ** A stored record without its sticky fields *)

Section StickyMissing.
Context `{Env}.

(** The first of the fields player, date_downloaded, channel that a
    record lacks. *)
Definition first_missing (old : doc) : option string :=
  match old !! "player", old !! "date_downloaded", old !! "channel" with
  | None, _, _ => Some "player"
  | Some _, None, _ => Some "date_downloaded"
  | Some _, Some _, None => Some "channel"
  | Some _, Some _, Some _ => None
  end.

(** X11.  A video whose stored document lacks one of the fields that are put
    back after a refresh is not refreshed: the refresh raises [KeyError]
    for the first field missing, before any request upstream, with
    nothing written; the wrapper does not try again. *)
Theorem video_refresh_needs_sticky_fields (id : string) (s : Store) (old : doc)
    (key : string) :
  es s !! ("ta_video", id) = Some old ->
  first_missing old = Some key ->
  Reindex._reindex_single_video id s = Raise (KeyError key) s.
Proof.
  intros Hold Hkey.
  assert (Hcall : Reindex._reindex_single_video_call id s = Raise (KeyError key) s).
  { unfold Reindex._reindex_single_video_call, YoutubeVideo.get_from_es, ElasticWrap.get.
    unfold bind at 1. unfold bind at 1. unfold gets. cbn [ret YoutubeVideo.json_data].
    unfold YoutubeVideo.index_name, YoutubeVideo.init.
    cbn [YoutubeVideo.youtube_id YoutubeVideo.json_data YoutubeVideo.youtube_meta].
    rewrite Hold. unfold first_missing in Hkey.
    unfold bind at 1. unfold subscript at 1, item.
    destruct (old !! "player") as [player|]; [|by injection Hkey as <-].
    cbn [lift_exn ret]. unfold bind at 1. unfold subscript at 1, item.
    destruct (old !! "date_downloaded") as [dd|]; [|by injection Hkey as <-].
    cbn [lift_exn ret]. unfold bind at 1. unfold subscript at 1, item.
    destruct (old !! "channel") as [ch|]; [discriminate|by injection Hkey as <-]. }
  unfold Reindex._reindex_single_video, try_except. by rewrite Hcall.
Qed.

End StickyMissing.

(** ** What a cycle leaves behind *)

(** What is left of a queue when the loop over it ends: nothing, or
    what stood behind the first empty identifier. *)
Fixpoint after_blank (q : list string) : list string :=
  match q with
  | [] => []
  | id :: rest => if String.eqb id "" then rest else after_blank rest
  end.

Lemma after_blank_none (q : list string) :
  Forall (fun id => id <> "") q -> after_blank q = [].
Proof.
  induction 1 as [|id rest Hid _ IH]; cbn [after_blank]; [done|].
  apply String.eqb_neq in Hid. by rewrite Hid.
Qed.

Section Drain.
Context `{Env}.

Lemma reindex_while_ok (fuel : nat) :
  forall (self self' : Reindex.t) (index_config : reindex_config) (w w' : World),
    Reindex.reindex_while fuel self index_config w = Ok (Some self') w' ->
    default [] (queues w' !! queue_name index_config)
    = after_blank (default [] (queues w !! queue_name index_config))
    /\ forall q, q <> queue_name index_config -> queues w' !! q = queues w !! q.
Proof.
  induction fuel as [|fuel IH]; intros self self' index_config w w'; [discriminate|].
  cbn [Reindex.reindex_while]. unfold Reindex.reindex_index.
  unfold bind at 1. unfold bind at 1. unfold RedisQueue.get_next.
  destruct (default [] (queues w !! queue_name index_config)) as [|id rest] eqn:Eq.
  { cbn. intros [= <- <-]. by rewrite Eq. }
  cbn [after_blank].
  destruct (String.eqb id "") eqn:Eid; cbn [negb].
  { cbn. intros [= <- <-]. unfold set_queues. cbn [queues].
    rewrite lookup_insert_eq. split; [done|]. intros q Hq. by rewrite lookup_insert_ne. }
  destruct (Reindex.get_reindex_map (index_name index_config)) as [reindex|].
  2:{ cbn. discriminate. }
  unfold bind at 1.
  match goal with |- context [lift (reindex self id) ?w1] =>
    pose proof (lift_queues (reindex self id) w1) as Hq;
    destruct (lift (reindex self id) w1) as [self1 w2|e w2]
  end.
  2:{ discriminate. }
  cbn [final] in Hq. unfold bind at 1.
  match goal with |- context [lift ?m w2] =>
    pose proof (lift_queues m w2) as Hq';
    destruct (lift m w2) as [[] w3|e w3] eqn:Esleep
  end.
  2:{ discriminate. }
  cbn [final] in Hq'. cbn [ret]. intros Hloop.
  apply IH in Hloop as [Hdone Hother]. rewrite Hq', Hq in Hdone, Hother.
  unfold set_queues in Hdone, Hother. cbn [queues] in Hdone, Hother.
  rewrite lookup_insert_eq in Hdone. split; [done|].
  intros q Hne. rewrite Hother by done. by rewrite lookup_insert_ne.
Qed.

Lemma reindex_queues_ok (configs : list reindex_config) :
  forall (self self' : Reindex.t) (w w' : World),
    NoDup (map queue_name configs) ->
    Reindex.reindex_queues self configs w = Ok (Some self') w' ->
    (forall q, q ∈ map queue_name configs ->
       default [] (queues w' !! q) = after_blank (default [] (queues w !! q)))
    /\ (forall q, q ∉ map queue_name configs -> queues w' !! q = queues w !! q).
Proof.
  induction configs as [|index_config rest IH]; intros self self' w w' Hnodup Hrun.
  { injection Hrun as <- <-. split; [|done]. intros q Hq. by apply elem_of_nil in Hq. }
  cbn [map] in Hnodup. apply NoDup_cons in Hnodup as [Hfresh Hnodup].
  cbn [Reindex.reindex_queues] in Hrun. unfold bind at 1, RedisQueue.has_item, gets in Hrun.
  destruct (default [] (queues w !! queue_name index_config)) as [|id queued] eqn:Eq;
    cbn [negb] in Hrun.
  { destruct (IH _ _ _ _ Hnodup Hrun) as [Hin Hout]. split.
    - intros q Hq. cbn [map] in Hq. apply elem_of_cons in Hq as [->|Hq]; [|by apply Hin].
      rewrite Hout by done. by rewrite Eq.
    - intros q Hq. apply Hout. intros Hq'. apply Hq. cbn [map]. by apply elem_of_cons; right. }
  unfold bind at 1 in Hrun. rewrite Eq in Hrun. unfold bind at 1 in Hrun.
  destruct (Reindex.reindex_while _ self index_config w) as [[self1|] w1|e w1] eqn:Ew;
    [|discriminate|discriminate].
  apply reindex_while_ok in Ew as [Hdone Hother].
  destruct (IH _ _ _ _ Hnodup Hrun) as [Hin Hout]. split.
  - intros q Hq. cbn [map] in Hq. apply elem_of_cons in Hq as [->|Hq].
    + rewrite Hout by done. exact Hdone.
    + rewrite Hin by done. rewrite Hother; [done|]. intros ->. by apply Hfresh.
  - intros q Hq. rewrite Hout.
    + apply Hother. intros ->. apply Hq. cbn [map]. by apply elem_of_cons; left.
    + intros Hq'. apply Hq. cbn [map]. by apply elem_of_cons; right.
Qed.

(** X17.  A cycle that passes the guard and returns has recorded its time
    and has drained the three refresh queues: each is empty, or holds
    what stood behind its first empty identifier; no other Redis list
    is changed. *)
Theorem cycle_drains_queues (self : Reindex.t) (w w' : World) (s0 : Store) :
  Reindex.cookie_invalid (store w) = Ok false s0 ->
  Reindex.reindex_all self w = Ok (Some tt) w' ->
  (forall q, q ∈ ["reindex:ta_video"; "reindex:ta_channel"; "reindex:ta_playlist"] ->
     default [] (queues w' !! q) = after_blank (default [] (queues w !! q))
     /\ (Forall (fun id => id <> "") (default [] (queues w !! q)) ->
         default [] (queues w' !! q) = []))
  /\ (forall q, q ∉ ["reindex:ta_video"; "reindex:ta_channel"; "reindex:ta_playlist"] ->
        queues w' !! q = queues w !! q)
  /\ messages (store w') !! "last_reindex" = Some (JInt now, JNone).
Proof.
  intros Hguard Hrun. unfold Reindex.reindex_all in Hrun.
  rewrite (bind_ok _ _ _ _ _ (lift_ok _ _ _ _ Hguard)) in Hrun.
  unfold bind at 1 in Hrun.
  destruct (Reindex.reindex_queues self ReindexBase.values (set_store w s0))
    as [[self1|] w1|e w1] eqn:Eq; [|discriminate|discriminate].
  unfold bind, lift, RedisArchivist.set_message, modify, ret in Hrun.
  injection Hrun as <-.
  apply reindex_queues_ok in Eq as [Hin Hout].
  2:{ cbn. repeat constructor; intros Hx;
        repeat (apply elem_of_cons in Hx as [Hx|Hx]; [discriminate|]);
        by apply elem_of_nil in Hx. }
  cbn [ReindexBase.values ReindexBase.REINDEX_CONFIG map snd queue_name] in Hin, Hout.
  unfold set_store in *. cbn [queues store messages set_messages] in *.
  split; [|split].
  - intros q Hq. specialize (Hin q Hq). split; [done|].
    intros Hall. rewrite Hin. by apply after_blank_none.
  - exact Hout.
  - by rewrite lookup_insert_eq.
Qed.

End Drain.

(** ** What a refresh never touches *)

(** The indices a refresh writes to. *)
Definition refresh_indices : list string :=
  ["ta_video"; "ta_channel"; "ta_playlist"; "ta_comment"].

(** The media files, the messages and the documents of every other
    index are those of [s0]. *)
Definition untouched (s0 s : Store) : Prop :=
  fs s = fs s0
  /\ messages s = messages s0
  /\ forall key, key.1 ∉ refresh_indices -> es s !! key = es s0 !! key.

Lemma inv_untouched_step {A} s0 (m : M Store A) :
  (forall s, untouched s (final (m s))) -> inv (untouched s0) m.
Proof.
  intros Hm s (Hfs & Hmsg & Hes). destruct (Hm s) as (Hfs' & Hmsg' & Hes').
  split; [congruence|]. split; [congruence|].
  intros key Hkey. by rewrite Hes', Hes.
Qed.

Lemma inv_untouched_upstream {A} s0 (ask : nat -> A) : inv (untouched s0) (upstream ask).
Proof. apply inv_untouched_step. intros s. by repeat split. Qed.

Lemma inv_untouched_emit s0 e : inv (untouched s0) (emit e).
Proof. apply inv_untouched_step. intros s. by repeat split. Qed.

Lemma inv_untouched_print s0 msg : inv (untouched s0) (print msg).
Proof. apply inv_untouched_emit. Qed.

Lemma inv_untouched_get s0 index id : inv (untouched s0) (ElasticWrap.get index id).
Proof. apply inv_gets. Qed.

Lemma inv_untouched_search s0 index q f asc n :
  inv (untouched s0) (ElasticWrap.search index q f asc n).
Proof. apply inv_gets. Qed.

Lemma inv_untouched_put s0 index id d :
  index ∈ refresh_indices -> inv (untouched s0) (ElasticWrap.put index id d).
Proof.
  intros Hidx. apply inv_untouched_step. intros s. split; [done|]. split; [done|].
  intros key Hkey. cbn. rewrite lookup_insert_ne; [done|]. intros <-. by apply Hkey.
Qed.

Lemma inv_untouched_update s0 index id fields :
  index ∈ refresh_indices -> inv (untouched s0) (ElasticWrap.update index id fields).
Proof.
  intros Hidx. apply inv_untouched_step. intros s. split; [done|]. split; [done|].
  intros key Hkey. cbn. rewrite lookup_alter_ne; [done|]. intros <-. by apply Hkey.
Qed.

Lemma inv_untouched_delete s0 index id :
  index ∈ refresh_indices -> inv (untouched s0) (ElasticWrap.delete index id).
Proof.
  intros Hidx. apply inv_untouched_step. intros s. split; [done|]. split; [done|].
  intros key Hkey. cbn. rewrite lookup_delete_ne; [done|]. intros <-. by apply Hkey.
Qed.

Lemma inv_untouched_update_by_query s0 index q script :
  index ∈ refresh_indices ->
  inv (untouched s0) (ElasticWrap.update_by_query index q script).
Proof.
  intros Hidx. apply inv_untouched_step. intros s. split; [done|]. split; [done|].
  intros key Hkey. cbn. rewrite map_lookup_imap.
  destruct (es s !! key) as [d|]; [|done]. cbn.
  destruct (String.eqb_spec key.1 index) as [E|_]; [|done].
  exfalso. apply Hkey. by rewrite E.
Qed.

Lemma refresh_index_video : "ta_video" ∈ refresh_indices.
Proof. repeat constructor. Qed.
Lemma refresh_index_channel : "ta_channel" ∈ refresh_indices.
Proof. repeat constructor. Qed.
Lemma refresh_index_playlist : "ta_playlist" ∈ refresh_indices.
Proof. repeat constructor. Qed.
Lemma refresh_index_comment : "ta_comment" ∈ refresh_indices.
Proof. repeat constructor. Qed.

Ltac refresh_index :=
  first [ exact refresh_index_video | exact refresh_index_channel
        | exact refresh_index_playlist | exact refresh_index_comment ].

Ltac inv_untouched :=
  repeat first
    [ apply inv_ret | apply inv_raise | apply inv_gets | apply inv_lift_exn
    | apply inv_untouched_upstream | apply inv_untouched_emit | apply inv_untouched_print
    | apply inv_untouched_get | apply inv_untouched_search
    | apply inv_untouched_put; refresh_index
    | apply inv_untouched_update; refresh_index
    | apply inv_untouched_delete; refresh_index
    | apply inv_untouched_update_by_query; refresh_index
    | apply inv_for_each; intros ?
    | apply inv_bind; [|intros ?]
    | match goal with
      | |- inv _ (match ?x with _ => _ end) => destruct x
      | |- inv _ (let '_ := ?x in _) => destruct x
      | |- inv _ (if ?x then _ else _) => destruct x
      end ].

Section Untouched.
Context `{Env}.

Lemma reindex_comments_untouched s0 (self : Comments.t) :
  inv (untouched s0) (Comments.reindex_comments self).
Proof.
  unfold Comments.reindex_comments, Comments.build_json, Comments._send_notification,
    Comments.get_yt_comments, Comments.format_comments, Comments.get_es_comments,
    Comments.delete_comments, Comments.upload_comments, Comments.es_index.
  inv_untouched.
Qed.

Lemma get_all_videos_untouched s0 (self : Reindex.t) :
  inv (untouched s0) (Reindex._get_all_videos self).
Proof.
  unfold Reindex._get_all_videos.
  destruct (Reindex.all_indexed_ids self) as [[|]|].
  2: apply inv_ret.
  all: apply inv_bind; [|intros [? handler]; inv_untouched].
  all: apply inv_with_self.
  all: unfold PendingIndex.get_download, PendingIndex.get_indexed,
         PendingIndex.paginate_all, PendingIndex.append_to.
  all: repeat first
         [ apply inv_ret | apply inv_raise | apply inv_self_get | apply inv_lift_exn
         | apply inv_self_set_store
         | apply (inv_on_store (untouched s0)); inv_untouched
         | apply inv_for_each; intros ?
         | apply inv_bind; [|intros ?]
         | match goal with
           | |- inv _ (match ?x with _ => _ end) => destruct x
           | |- inv _ (if ?x then _ else _) => destruct x
           end ].
Qed.

Lemma reindex_single_video_untouched s0 (id : string) :
  inv (untouched s0) (Reindex._reindex_single_video id).
Proof.
  assert (Hcall : inv (untouched s0) (Reindex._reindex_single_video_call id)).
  { unfold Reindex._reindex_single_video_call, YoutubeVideo.get_from_es,
      YoutubeVideo.build_json, YoutubeVideo.deactivate, YoutubeVideo.delete_subtitles,
      YoutubeVideo.check_subtitles, YoutubeVideo.upload_to_es, YoutubeVideo.index_name.
    inv_untouched. all: apply reindex_comments_untouched. }
  by apply inv_try_except.
Qed.

Lemma reindex_single_channel_untouched s0 (id : string) :
  inv (untouched s0) (Reindex._reindex_single_channel id).
Proof.
  unfold Reindex._reindex_single_channel, YoutubeChannel.get_from_es,
    YoutubeChannel.get_from_youtube, YoutubeChannel.deactivate,
    YoutubeChannel.upload_to_es, YoutubeChannel.sync_to_videos, YoutubeChannel.index_name.
  inv_untouched.
Qed.

Lemma reindex_single_playlist_untouched s0 (self : Reindex.t) (id : string) :
  inv (untouched s0) (Reindex._reindex_single_playlist self id).
Proof.
  unfold Reindex._reindex_single_playlist.
  apply inv_bind; [apply get_all_videos_untouched|]. intros self'.
  unfold YoutubePlaylist.get_from_es, YoutubePlaylist.build_json,
    YoutubePlaylist.deactivate, YoutubePlaylist.upload_to_es, YoutubePlaylist.index_name.
  inv_untouched.
Qed.

End Untouched.

Section CycleFrame.
Context `{Env}.

Lemma inv_lift_store {A} (I : Store -> Prop) (m : M Store A) :
  inv I m -> inv (fun w => I (store w)) (lift m).
Proof.
  intros Hm w Hw. unfold lift. specialize (Hm (store w) Hw).
  by destruct (m (store w)).
Qed.

Lemma inv_store_get_next (I : Store -> Prop) q :
  inv (fun w => I (store w)) (RedisQueue.get_next q).
Proof.
  intros w Hw. unfold RedisQueue.get_next.
  by destruct (default [] (queues w !! q)).
Qed.

Lemma reindex_index_untouched s0 self index_config :
  inv (fun w => untouched s0 (store w)) (Reindex.reindex_index self index_config).
Proof.
  unfold Reindex.reindex_index.
  apply inv_bind; [apply inv_store_get_next|]. intros [id|]; [|apply inv_ret].
  destruct (negb (String.eqb id "")); [|apply inv_ret].
  unfold Reindex.get_reindex_map.
  destruct (String.eqb (index_name index_config) "ta_video").
  { apply inv_bind; [|intros ?; apply inv_bind;
                       [apply inv_lift_store, inv_untouched_emit|intros ?; apply inv_ret]].
    apply inv_lift_store. apply inv_bind; [apply reindex_single_video_untouched|].
    intros ?. apply inv_ret. }
  destruct (String.eqb (index_name index_config) "ta_channel").
  { apply inv_bind; [|intros ?; apply inv_bind;
                       [apply inv_lift_store, inv_untouched_emit|intros ?; apply inv_ret]].
    apply inv_lift_store. apply inv_bind; [apply reindex_single_channel_untouched|].
    intros ?. apply inv_ret. }
  destruct (String.eqb (index_name index_config) "ta_playlist"); [|apply inv_raise].
  apply inv_bind; [|intros ?; apply inv_bind;
                     [apply inv_lift_store, inv_untouched_emit|intros ?; apply inv_ret]].
  apply inv_lift_store. apply reindex_single_playlist_untouched.
Qed.

Lemma reindex_while_untouched s0 index_config (fuel : nat) :
  forall self,
    inv (fun w => untouched s0 (store w)) (Reindex.reindex_while fuel self index_config).
Proof.
  induction fuel as [|fuel IH]; intros self; cbn [Reindex.reindex_while];
    [apply inv_ret|].
  apply inv_bind; [apply reindex_index_untouched|]. intros [self' [|]];
    [apply IH|apply inv_ret].
Qed.

Lemma reindex_queues_untouched s0 (configs : list reindex_config) :
  forall self,
    inv (fun w => untouched s0 (store w)) (Reindex.reindex_queues self configs).
Proof.
  induction configs as [|index_config rest IH]; intros self;
    cbn [Reindex.reindex_queues]; [apply inv_ret|].
  apply inv_bind; [apply inv_gets|]. intros has_item.
  destruct (negb has_item); [apply IH|].
  apply inv_bind; [apply inv_gets|]. intros queued.
  apply inv_bind; [apply reindex_while_untouched|]. intros [self'|];
    [apply IH|apply inv_ret].
Qed.

(** X18.  A refresh cycle, however it ends, touches no media file and no
    document outside the video, channel, playlist and comment indices
    (the download queue is left alone); and it leaves the messages as
    they were unless it returns after draining the queues, when its only
    message is the time of the cycle. *)
Theorem refresh_cycle_side_effects (self : Reindex.t) (w : World) :
  let r := Reindex.reindex_all self w in
  fs (store (final r)) = fs (store w)
  /\ (forall key, key.1 ∉ refresh_indices ->
        es (store (final r)) !! key = es (store w) !! key)
  /\ (messages (store (final r)) = messages (store w)
      \/ (is_ok r = true
          /\ messages (store (final r))
             = <["last_reindex" := (JInt now, JNone)]> (messages (store w)))).
Proof.
  intros r.
  assert (Hguard : inv (fun w' => untouched (store w) (store w'))
                     (lift Reindex.cookie_invalid)).
  { apply inv_lift_store. unfold Reindex.cookie_invalid. inv_untouched. }
  specialize (Hguard w ltac:(by repeat split)).
  assert (Hprint : inv (fun w' => untouched (store w) (store w'))
                     (lift (print "[reindex] cookie invalid, exiting...") ;;;
                      ret (Some tt))).
  { apply inv_bind; [apply inv_lift_store, inv_untouched_print|]. intros ?.
    apply inv_ret. }
  assert (Hr : untouched (store w) (store (final r))
               \/ (is_ok r = true
                   /\ fs (store (final r)) = fs (store w)
                   /\ (forall key, key.1 ∉ refresh_indices ->
                         es (store (final r)) !! key = es (store w) !! key)
                   /\ messages (store (final r))
                      = <["last_reindex" := (JInt now, JNone)]> (messages (store w)))).
  { unfold r, Reindex.reindex_all.
    destruct (lift Reindex.cookie_invalid w) as [[|] w0|e w0] eqn:Eg;
      cbn [final] in Hguard.
    - rewrite (bind_ok _ _ _ _ _ Eg). left. by apply Hprint.
    - rewrite (bind_ok _ _ _ _ _ Eg).
      pose proof (reindex_queues_untouched (store w) ReindexBase.values self w0 Hguard)
        as Hq.
      destruct (Reindex.reindex_queues self ReindexBase.values w0)
        as [[self'|] w1|e w1] eqn:Eq; cbn [final] in Hq.
      + rewrite (bind_ok _ _ _ _ _ Eq). right. destruct Hq as (Hfs & Hmsg & Hes).
        unfold bind, lift, RedisArchivist.set_message, modify, ret.
        cbn [final is_ok store set_store set_messages fs es messages].
        split; [done|]. split; [done|]. split; [done|]. by rewrite Hmsg.
      + rewrite (bind_ok _ _ _ _ _ Eq). by left.
      + rewrite (bind_raise _ _ _ _ _ Eq). by left.
    - rewrite (bind_raise _ _ _ _ _ Eg). by left. }
  destruct Hr as [(Hfs & Hmsg & Hes)|(Hok & Hfs & Hes & Hmsg)].
  - split; [done|]. split; [done|]. by left.
  - split; [done|]. split; [done|]. by right.
Qed.

End CycleFrame.

(** ** More on the comment refresh *)

Section CommentsMore.
Context `{Env}.

(** The comment document [build_json] builds. *)
Definition comment_doc (youtube_id : string) (channel_id : option json)
    (comments : list json) : doc :=
  <["comment_comments" := JList comments]> (
  <["comment_channel_id" := default JNone channel_id]> (
  <["comment_last_refresh" := JInt now]> (
  <["youtube_id" := JStr youtube_id]> ∅))).

(** X7.  With comments switched on, a refresh that pulls a non-empty list of
    well-formed comments returns: it has sent one request upstream,
    replaced the comment document of the video by the fresh one (created
    it when there was none) and set the comment count on the video
    document; what the stored comment document held is not read.  The
    messages and the media files are as before. *)
Theorem refresh_replaces_comments (youtube_id : string) (s : Store) (max_comments : string)
    (info : doc) (raw cleaned : list json) :
  downloads_comment_max config = JStr max_comments ->
  max_comments <> "" ->
  yt_extract (clock s)
    (ObsComments (map strip (split_on ","%char max_comments)) (downloads_comment_sort config))
    youtube_id = Some info ->
  info !! "comments" = Some (JList raw) ->
  raw <> [] ->
  Comments.clean_all raw = inr cleaned ->
  exists s',
    Comments.reindex_comments (Comments.init youtube_id) s = Ok tt s'
    /\ es s' = alter (fun old => {["comment_count" := JInt (Z.of_nat (length cleaned))]} ∪ old)
                 ("ta_video", youtube_id)
                 (<[("ta_comment", youtube_id) :=
                      comment_doc youtube_id (info !! "channel_id") cleaned]> (es s))
    /\ clock s' = S (clock s)
    /\ messages s' = messages s
    /\ fs s' = fs s.
Proof.
  intros Hmax Hne Hinfo Hraw Hnil Hclean.
  unfold Comments.reindex_comments, Comments.build_json, Comments.get_yt_comments,
    Comments.build_yt_obs, Comments.get_es_comments, Comments.delete_comments,
    Comments.upload_comments, Comments.format_comments.
  cbn [Comments.check_config Comments.is_activated Comments.init Comments.youtube_id
       Comments.json_data Comments.comments_format].
  rewrite Hmax. cbn [truthy]. apply String.eqb_neq in Hne. rewrite Hne. cbn [negb].
  unfold bind, print, emit, modify, upstream, ElasticWrap.get, ElasticWrap.put,
    ElasticWrap.delete, ElasticWrap.update, gets, ret.
  cbn [Comments._send_notification lift_exn ret clock add_event bump_clock].
  rewrite Hinfo, Hraw. destruct raw as [|c raw]; [done|]. cbn [truthy].
  rewrite Hclean.
  cbn [lift_exn ret Comments.youtube_id Comments.comments_format Comments.is_activated
       Comments.json_data Comments.no_comments default negb].
  assert (Hcleaned : exists c' cs', cleaned = c' :: cs').
  { apply clean_all_length in Hclean. destruct cleaned; [discriminate|eauto]. }
  destruct Hcleaned as (c' & cs' & ->).
  unfold Comments.es_index.
  destruct (es _ !! ("ta_comment", youtube_id));
    (eexists; split; [reflexivity|]);
    cbn [es set_es add_event bump_clock clock messages fs];
    rewrite insert_delete_eq; repeat split.
Qed.

(** X8.  A comment refresh touches the comment document of its video and the
    comment count on the video document, nothing else; when it raises,
    it has not touched any document. *)
Theorem comment_refresh_frame (youtube_id : string) (s : Store) :
  let r := Comments.reindex_comments (Comments.init youtube_id) s in
  (forall key, key <> ("ta_comment", youtube_id) -> key <> ("ta_video", youtube_id) ->
     es (final r) !! key = es s !! key)
  /\ (forall k, k <> "comment_count" ->
        (es (final r) !! ("ta_video", youtube_id)) ≫= (fun d => d !! k)
        = (es s !! ("ta_video", youtube_id)) ≫= (fun d => d !! k))
  /\ (is_Some (es (final r) !! ("ta_video", youtube_id))
      <-> is_Some (es s !! ("ta_video", youtube_id)))
  /\ (is_ok r = false -> es (final r) = es s).
Proof.
  intros r.
  destruct (reindex_comments_outcome youtube_id s)
    as [Hsame|(data & c & cs & _ & Hok & Hes)]; fold r in Hsame || fold r in Hes, Hok.
  { rewrite Hsame. by repeat split. }
  rewrite Hes, Hok. split; [|split; [|split]].
  - intros key Hc Hv. rewrite lookup_alter_ne by done.
    rewrite lookup_insert_ne by done. by rewrite lookup_delete_ne.
  - intros k Hk. rewrite lookup_alter_eq, lookup_insert_ne by discriminate.
    rewrite lookup_delete_ne by discriminate.
    destruct (es s !! ("ta_video", youtube_id)) as [old|]; [|done]. cbn.
    rewrite lookup_union_r; [done|]. by rewrite lookup_singleton_ne.
  - rewrite lookup_alter_eq, lookup_insert_ne by discriminate.
    rewrite lookup_delete_ne by discriminate.
    by rewrite fmap_is_Some.
  - discriminate.
Qed.

(** X10.  With comments switched off, a refresh of a video that upstream
    still knows sends two requests upstream (metadata, subtitles), none
    for comments, and replaces the video document by the merged record;
    no other document changes. *)
Theorem video_refresh_without_comments (id : string) (s : Store) (old fresh : doc)
    (player date_downloaded channel : json) :
  truthy (downloads_comment_max config) = false ->
  es s !! ("ta_video", id) = Some old ->
  old !! "player" = Some player ->
  old !! "date_downloaded" = Some date_downloaded ->
  old !! "channel" = Some channel ->
  video_build_json (clock s) id = BuildFresh fresh ->
  is_Some (fresh !! "vid_thumb_url") ->
  exists s',
    Reindex._reindex_single_video id s = Ok tt s'
    /\ es s' = <[("ta_video", id) :=
                   video_merged fresh (video_check_subtitles (S (clock s)) id)
                     player date_downloaded channel (old !! "playlist")]> (es s)
    /\ clock s' = S (S (clock s))
    /\ messages s' = messages s.
Proof.
  intros Hoff Hold Hp Hd Hc Hbuild [url Hurl].
  unfold Reindex._reindex_single_video, try_except.
  assert (Hcall : exists s',
    Reindex._reindex_single_video_call id s = Ok tt s'
    /\ es s' = <[("ta_video", id) :=
                   video_merged fresh (video_check_subtitles (S (clock s)) id)
                     player date_downloaded channel (old !! "playlist")]> (es s)
    /\ clock s' = S (S (clock s))
    /\ messages s' = messages s).
  2:{ destruct Hcall as (s' & -> & Hs'). eauto. }
  destruct (video_merged_sticky fresh (video_check_subtitles (S (clock s)) id)
              player date_downloaded channel (old !! "playlist")) as (_ & _ & _ & Mk).
  specialize (Mk "vid_thumb_url"). rewrite Hurl in Mk.
  assert (Hm : video_merged fresh (video_check_subtitles (S (clock s)) id)
                 player date_downloaded channel (old !! "playlist") !! "vid_thumb_url"
               = Some url).
  { apply Mk. intros Hin.
    repeat (apply elem_of_cons in Hin as [Hin|Hin]; [discriminate|]). inversion Hin. }
  clear Mk. revert Hm.
  unfold Reindex._reindex_single_video_call, YoutubeVideo.get_from_es, ElasticWrap.get,
    YoutubeVideo.build_json, YoutubeVideo.delete_subtitles, YoutubeVideo.check_subtitles,
    YoutubeVideo.upload_to_es, ElasticWrap.put, upstream, emit, Comments.reindex_comments.
  cbn [Comments.check_config Comments.is_activated]. rewrite Hoff. cbn [negb].
  unfold bind, gets, ret, modify. unfold YoutubeVideo.index_name, YoutubeVideo.init.
  cbn [YoutubeVideo.youtube_id YoutubeVideo.json_data YoutubeVideo.youtube_meta].
  rewrite Hold. rewrite (subscript_ok _ _ _ Hp), (subscript_ok _ _ _ Hd),
    (subscript_ok _ _ _ Hc). cbn [lift_exn ret].
  rewrite Hbuild. cbn [negb YoutubeVideo.youtube_meta YoutubeVideo.json_data
                       YoutubeVideo.youtube_id].
  cbn [clock add_event bump_clock].
  unfold video_merged.
  destruct (video_check_subtitles (S (clock s)) id) as [subs|];
    cbn [lift_exn YoutubeVideo.set_item YoutubeVideo.json_data YoutubeVideo.youtube_id
         YoutubeVideo.youtube_meta ret];
    (destruct (old !! "playlist") as [pl|]; [destruct (truthy pl)|]);
    cbn [lift_exn YoutubeVideo.set_item YoutubeVideo.json_data YoutubeVideo.youtube_id
         YoutubeVideo.youtube_meta ret];
    intros Hm; rewrite (subscript_ok _ _ _ Hm); cbn [lift_exn ret];
    (eexists; split; [reflexivity|]); repeat split.
Qed.




End CommentsMore.

(** ** The details of a video to queue *)

Section Details.
Context `{Env}.

(** X5.  Details are returned only for the video asked for, and not while it
    is live or upcoming: the extractor's record carries the requested
    id, and so do the details; the channel, the title and the thumbnail
    are the extractor's, the timestamp is now; and [channel_indexed] is
    set, to whether the channel is among the indexed ones, only when
    the list of indexed channels is not empty. *)
Theorem get_youtube_details_sound (youtube_id : string) (so so' : Store * PendingIndex.t)
    (details : doc) :
  PendingList.get_youtube_details youtube_id so = Ok (Some details) so' ->
  exists vid live_status channel_id,
    yt_extract (clock so.1) ObsPending youtube_id = Some vid
    /\ vid !! "id" = Some (JStr youtube_id)
    /\ vid !! "live_status" = Some live_status
    /\ live_status <> JStr "is_upcoming" /\ live_status <> JStr "is_live"
    /\ vid !! "channel_id" = Some channel_id
    /\ details !! "youtube_id" = Some (JStr youtube_id)
    /\ details !! "channel_id" = Some channel_id
    /\ details !! "channel_name" = vid !! "channel"
    /\ details !! "title" = vid !! "title"
    /\ details !! "vid_thumb_url" = vid !! "thumbnail"
    /\ details !! "timestamp" = Some (JInt now)
    /\ details !! "status" = None
    /\ details !! "channel_indexed"
       = match all_channels so.2 with
         | Some (c :: cs) =>
             Some (JBool (match channel_id with
                          | JStr x => str_in x (c :: cs)
                          | _ => false
                          end))
         | _ => None
         end
    /\ es so'.1 = es so.1 /\ so'.2 = so.2.
Proof.
  destruct so as [s o]. cbn [fst snd].
  unfold PendingList.get_youtube_details.
  unfold bind at 1. unfold on_store at 1, upstream. cbn [fst snd].
  destruct (yt_extract (clock s) ObsPending youtube_id) as [vid|]; [|discriminate].
  destruct (map_size_eqb_zero vid); [discriminate|].
  destruct (vid !! "id") as [v|] eqn:Evid; cbn [negb].
  2:{ unfold bind, on_store. cbn. discriminate. }
  destruct (json_eqb v (JStr youtube_id)) eqn:Eid; cbn [negb].
  2:{ unfold bind, on_store. cbn. discriminate. }
  apply json_eqb_str_r in Eid. subst v.
  unfold bind at 1. unfold item at 1.
  destruct (vid !! "live_status") as [live_status|] eqn:Elive; [|discriminate].
  cbn [lift_exn ret].
  destruct (py_in live_status [JStr "is_upcoming"; JStr "is_live"]) eqn:Elive';
    [discriminate|].
  assert (Hlive : live_status <> JStr "is_upcoming" /\ live_status <> JStr "is_live").
  { split; intros ->; cbn in Elive'; discriminate. }
  unfold bind at 1. unfold PendingList._parse_youtube_details.
  unfold bind at 1. unfold item at 1.
  destruct (vid !! "duration") as [duration|] eqn:Eduration; [|discriminate].
  cbn [lift_exn ret]. unfold bind at 1.
  match goal with
  | |- match match ?m ?x with _ => _ end with _ => _ end = _ -> _ =>
      assert (Hprint : exists s1, m x = Ok tt (s1, o) /\ es s1 = es s);
        [|destruct Hprint as (s1 & -> & Hs1)]
  end.
  { destruct (String.eqb _ "NA"); eexists; split; reflexivity. }
  unfold bind at 1. unfold item at 1.
  destruct (vid !! "upload_date") as [upload_date|]; [|discriminate].
  cbn [lift_exn ret]. unfold bind at 1.
  destruct (upload_date_iso upload_date) as [e|published]; [discriminate|].
  cbn [lift_exn ret]. unfold bind at 1. unfold item at 1.
  destruct (vid !! "channel") as [channel|] eqn:Echannel; [|discriminate].
  cbn [lift_exn ret]. unfold bind at 1. unfold item at 1.
  destruct (vid !! "thumbnail") as [thumbnail|] eqn:Ethumb; [|discriminate].
  cbn [lift_exn ret]. unfold bind at 1. unfold item at 1.
  destruct (vid !! "title") as [title|] eqn:Etitle; [|discriminate].
  cbn [lift_exn ret]. unfold bind at 1. unfold item at 1.
  destruct (vid !! "channel_id") as [channel_id|] eqn:Echannel_id; [|discriminate].
  cbn [lift_exn ret]. unfold bind at 1. unfold self_get, gets. cbn [snd default].
  intros Hrun. exists vid, live_status, channel_id.
  split; [done|]. split; [done|]. split; [done|].
  split; [apply Hlive|]. split; [apply Hlive|]. split; [done|].
  destruct (all_channels o) as [[|c cs]|].
  - cbn [ret] in Hrun. injection Hrun as <- <-. cbn [fst snd].
    repeat split; try done.
    all: repeat (first [rewrite lookup_insert_eq | rewrite lookup_insert_ne by done]).
    all: rewrite ?Evid; done.
  - unfold bind at 1 in Hrun. unfold item in Hrun. rewrite Echannel_id in Hrun.
    cbn [lift_exn ret] in Hrun. injection Hrun as <- <-. cbn [fst snd].
    repeat split; try done.
    all: repeat (first [rewrite lookup_insert_eq | rewrite lookup_insert_ne by done]).
    all: rewrite ?Evid; done.
  - cbn [ret] in Hrun. injection Hrun as <- <-. cbn [fst snd].
    repeat split; try done.
    all: repeat (first [rewrite lookup_insert_eq | rewrite lookup_insert_ne by done]).
    all: rewrite ?Evid; done.
Qed.

End Details.

(** ** The entries a pass creates *)

Lemma bulk_create_docs (actions : list (string * string * doc)) (s : Store) :
  exists s', ElasticWrap.bulk_create actions s = Ok tt s'
        /\ forall key, es s' !! key = es s !! key
                       \/ (es s !! key = None
                           /\ exists d, (key, d) ∈ actions /\ es s' !! key = Some d).
Proof.
  unfold ElasticWrap.bulk_create. revert s.
  induction actions as [|[[index id] d] actions IH]; intros s; cbn [for_each].
  { exists s. split; [done|]. auto. }
  unfold bind at 1. unfold modify at 1.
  destruct (IH (set_es (fun m => match m !! (index, id) with
                                  | Some _ => m
                                  | None => <[(index, id) := d]> m
                                  end) s)) as (s' & Hs' & Hkeys).
  exists s'. split; [exact Hs'|]. intros key.
  destruct (Hkeys key) as [Hk|[Hk (d' & Hd' & Hkd')]]; cbn [set_es es] in Hk.
  - destruct (es s !! (index, id)) eqn:E; [by left|].
    destruct (decide (key = (index, id))) as [->|Hne].
    + right. split; [done|]. exists d. split; [by left|].
      by rewrite Hk, lookup_insert_eq.
    + left. by rewrite Hk, lookup_insert_ne.
  - destruct (es s !! (index, id)) eqn:E.
    + right. split; [done|]. exists d'. split; [by right|done].
    + destruct (decide (key = (index, id))) as [->|Hne].
      * by rewrite lookup_insert_eq in Hk.
      * rewrite lookup_insert_ne in Hk by done. right. split; [done|].
        exists d'. split; [by right|done].
Qed.

Section Entries.
Context `{Env}.

(** A create action for the download queue, as [add_to_pending] builds
    it. *)
Definition queue_entry (status : json) (a : string * string * doc) : Prop :=
  exists id d,
    a = ("ta_download", id, d)
    /\ d !! "status" = Some status
    /\ d !! "youtube_id" = Some (JStr id)
    /\ d !! "timestamp" = Some (JInt now).

Lemma add_loop_entries status (ids : list string) :
  forall idx bulk_list so bl so',
    Forall (queue_entry status) bulk_list ->
    PendingList.add_loop status idx ids bulk_list so = Ok bl so' ->
    Forall (queue_entry status) bl.
Proof.
  induction ids as [|id ids IH]; intros idx bulk_list so bl so' Hbulk;
    cbn [PendingList.add_loop].
  { unfold ret. by intros [= <- <-]. }
  unfold bind at 1. unfold on_store at 1, print, emit, modify.
  unfold bind at 1.
  destruct (PendingList.get_youtube_details id _) as [[details|] so1|e so1] eqn:Ed;
    [| |discriminate].
  2:{ apply IH. exact Hbulk. }
  apply get_youtube_details_sound in Ed
    as (vid & live & ch & _ & _ & _ & _ & _ & _ & Hid & _ & _ & _ & _ & Hts & _).
  unfold bind at 1.
  destruct (lift_exn (item (<["status" := status]> details) "vid_thumb_url") so1)
    as [url so2|e so2]; [|discriminate].
  unfold bind at 1. unfold on_store at 1. cbn beta iota.
  unfold bind at 1.
  destruct (PendingList._notify_add idx _) as [[] so4|e so4]; [|discriminate].
  apply IH. apply Forall_app. split; [exact Hbulk|].
  apply Forall_singleton. exists id, (<["status" := status]> details).
  split; [done|]. split; [by rewrite lookup_insert_eq|].
  by rewrite !lookup_insert_ne by done.
Qed.

(** X6.  Whatever [add_to_pending] ends in, a document it has created in the
    download queue carries the status it was called with, its own
    document id as [youtube_id] and the time of the call. *)
Theorem add_to_pending_entries (status : json) (so : Store * PendingIndex.t)
    (id : string) (d : doc) :
  es so.1 !! ("ta_download", id) = None ->
  es (final (PendingList.add_to_pending status so)).1 !! ("ta_download", id) = Some d ->
  d !! "status" = Some status
  /\ d !! "youtube_id" = Some (JStr id)
  /\ d !! "timestamp" = Some (JInt now).
Proof.
  intros Hnone. unfold PendingList.add_to_pending.
  pose proof (get_channels_committing (es so.1) (missing_videos so.2) so
                (conj eq_refl eq_refl)) as Hgc.
  unfold bind at 1.
  destruct (get_channels so) as [[] so1|e so1]; cbn [final] in Hgc;
    destruct Hgc as [Hes1 Hmv1]; cbn [fst snd] in Hes1, Hmv1.
  2:{ cbn [final]. rewrite Hes1, Hnone. discriminate. }
  unfold bind at 1, self_get, gets.
  destruct (missing_videos so1.2) as [missing|] eqn:Em.
  2:{ cbn [final raise]. rewrite Hes1, Hnone. discriminate. }
  unfold bind at 1.
  pose proof (add_loop_committing (es so.1) (missing_videos so.2) status missing 0 []
                so1 (conj Hes1 (eq_trans Em Hmv1))) as Hloop.
  destruct (PendingList.add_loop status 0 missing [] so1) as [bl so2|e so2] eqn:El.
  2:{ destruct Hloop as [Hes2 _]. cbn [final fst] in *. rewrite Hes2, Hnone. discriminate. }
  destruct Hloop as [[Hes2 _] _]. cbn [fst] in Hes2.
  apply add_loop_entries in El; [|constructor].
  destruct bl as [|a bl].
  { cbn [ret final]. rewrite Hes2, Hnone. discriminate. }
  unfold on_store.
  destruct (bulk_create_docs (a :: bl) so2.1) as (s' & -> & Hkeys). cbn [final fst].
  destruct (Hkeys ("ta_download", id)) as [Hsame|(_ & d' & Hd' & Hcreated)].
  { rewrite Hsame, Hes2, Hnone. discriminate. }
  rewrite Hcreated. intros [= <-].
  rewrite Forall_forall in El. destruct (El _ Hd') as (id' & d'' & [= <- <-] & Hfields).
  exact Hfields.
Qed.

End Entries.

(** ** The snapshot of the download queue *)

(** The documents of the download queue, oldest first. *)
Definition download_queue (s : Store) : list doc :=
  map snd (merge_sort (ElasticWrap.hit_le "timestamp" true)
             (filter (fun h => ElasticWrap.match_all (snd h) = true)
                (ElasticWrap.docs_of "ta_download" (es s)))).

(** [result["status"] == st] *)
Definition has_status (st : string) (d : doc) : bool :=
  match d !! "status" with
  | Some v => json_eqb v (JStr st)
  | None => false
  end.

Lemma elem_of_download_queue (s : Store) (d : doc) :
  d ∈ download_queue s <-> exists id, es s !! ("ta_download", id) = Some d.
Proof.
  unfold download_queue. rewrite list_elem_of_fmap. split.
  - intros ([id d'] & -> & Hin). rewrite merge_sort_Permutation in Hin.
    apply list_elem_of_filter in Hin as [_ Hin]. apply elem_of_docs_of in Hin. eauto.
  - intros [id Hd]. exists (id, d). split; [done|]. rewrite merge_sort_Permutation.
    apply list_elem_of_filter. split; [done|]. by apply elem_of_docs_of.
Qed.

(** The loop of [get_download] over the documents [results]. *)
Definition get_download_loop (results : list doc) : M (Store * PendingIndex.t) unit :=
  for_each results (fun result =>
    youtube_id <- lift_exn (item result "youtube_id") ;;
    append_to to_skip set_to_skip youtube_id ;;;
    status <- lift_exn (item result "status") ;;
    if json_eqb status (JStr "pending")
    then append_to all_pending set_all_pending result
    else
      status' <- lift_exn (item result "status") ;;
      if json_eqb status' (JStr "ignore")
      then append_to all_ignored set_all_ignored result
      else ret tt).

Lemma get_download_loop_ok (results : list doc) :
  forall (s : Store) (o : PendingIndex.t) (so' : Store * PendingIndex.t)
         (pending ignored : list doc) (skip : list json),
    all_pending o = Some pending -> all_ignored o = Some ignored ->
    to_skip o = Some skip ->
    get_download_loop results (s, o) = Ok tt so' ->
    Forall (fun d => is_Some (d !! "youtube_id") /\ is_Some (d !! "status")) results
    /\ so' = (s, PendingIndex.mk
                   (Some (pending ++ filter (fun d => has_status "pending" d = true) results))
                   (Some (ignored ++ filter (fun d => has_status "pending" d = false
                                                     /\ has_status "ignore" d = true) results))
                   (all_videos o) (all_channels o) (channel_overwrites o)
                   (video_overwrites o)
                   (Some (skip ++ omap (fun d => d !! "youtube_id") results))
                   (youtube_ids o) (missing_videos o)).
Proof.
  induction results as [|d results IH]; intros s o so' pending ignored skip Hp Hi Hk.
  { cbn. intros [= <-]. split; [constructor|]. rewrite !app_nil_r.
    destruct o; cbn in *. by subst. }
  unfold get_download_loop. cbn [for_each]. fold (get_download_loop results).
  unfold bind at 1. unfold bind at 1. unfold item at 1.
  destruct (d !! "youtube_id") as [yid|] eqn:Eyid; [|discriminate].
  cbn [lift_exn ret]. unfold bind at 1. unfold append_to at 1.
  unfold bind at 1, self_get, gets. cbn [snd]. rewrite Hk.
  unfold self_set, modify. cbn [fst snd]. unfold bind at 1. unfold item at 1.
  destruct (d !! "status") as [status|] eqn:Estatus; [|discriminate].
  cbn [lift_exn ret].
  assert (Hstat_p : has_status "pending" d = json_eqb status (JStr "pending")).
  { unfold has_status. by rewrite Estatus. }
  assert (Hstat_i : has_status "ignore" d = json_eqb status (JStr "ignore")).
  { unfold has_status. by rewrite Estatus. }
  assert (Hkeys : is_Some (d !! "youtube_id") /\ is_Some (d !! "status")).
  { split; [by exists yid|by exists status]. }
  destruct (json_eqb status (JStr "pending")) eqn:Epending.
  - unfold append_to, bind at 1, self_get, gets. cbn [snd set_to_skip all_pending].
    rewrite Hp. unfold self_set, modify. cbn [fst snd]. intros Hrest.
    apply IH with (pending := pending ++ [d]) (ignored := ignored) (skip := skip ++ [yid])
      in Hrest as [Hall ->]; [|done|by cbn; rewrite Hi|done].
    split; [by constructor|]. f_equal. cbn [set_all_pending set_to_skip all_videos
      all_channels channel_overwrites video_overwrites youtube_ids missing_videos].
    rewrite filter_cons_True by done.
    rewrite filter_cons_False by (rewrite Hstat_p; intros [? _]; discriminate).
    cbn [omap list_omap]. rewrite Eyid. fold (@omap list _ _ _ (fun d : doc => d !! "youtube_id") results). by rewrite <- !app_assoc.
  - unfold bind at 1. unfold item at 1. rewrite Estatus. cbn [lift_exn ret].
    destruct (json_eqb status (JStr "ignore")) eqn:Eignore.
    + unfold append_to, bind at 1, self_get, gets. cbn [snd set_to_skip all_ignored].
      rewrite Hi. unfold self_set, modify. cbn [fst snd]. intros Hrest.
      apply IH with (pending := pending) (ignored := ignored ++ [d]) (skip := skip ++ [yid])
        in Hrest as [Hall ->]; [|by cbn; rewrite Hp|done|done].
      split; [by constructor|]. f_equal. cbn [set_all_ignored set_to_skip all_videos
        all_channels channel_overwrites video_overwrites youtube_ids missing_videos].
      rewrite filter_cons_False by (rewrite Hstat_p; discriminate).
      rewrite filter_cons_True by done.
      cbn [omap list_omap]. rewrite Eyid. fold (@omap list _ _ _ (fun d : doc => d !! "youtube_id") results). by rewrite <- !app_assoc.
    + cbn [ret]. intros Hrest.
      apply IH with (pending := pending) (ignored := ignored) (skip := skip ++ [yid])
        in Hrest as [Hall ->]; [|by cbn; rewrite Hp|by cbn; rewrite Hi|done].
      split; [by constructor|]. f_equal. cbn [set_to_skip all_videos
        all_channels channel_overwrites video_overwrites youtube_ids missing_videos].
      rewrite filter_cons_False by (rewrite Hstat_p; discriminate).
      rewrite filter_cons_False by (rewrite Hstat_i; intros [_ ?]; discriminate).
      cbn [omap list_omap]. rewrite Eyid. fold (@omap list _ _ _ (fun d : doc => d !! "youtube_id") results). by rewrite <- !app_assoc.
Qed.

Lemma get_download_loop_returns (results : list doc) :
  forall (s : Store) (o : PendingIndex.t),
    is_Some (all_pending o) -> is_Some (all_ignored o) -> is_Some (to_skip o) ->
    Forall (fun d => is_Some (d !! "youtube_id") /\ is_Some (d !! "status")) results ->
    exists so', get_download_loop results (s, o) = Ok tt so'.
Proof.
  induction results as [|d results IH]; intros s o [pending Hp] [ignored Hi] [skip Hk] Hall.
  { eexists. reflexivity. }
  apply Forall_cons in Hall as [[[yid Eyid] [status Estatus]] Hall].
  unfold get_download_loop. cbn [for_each]. fold (get_download_loop results).
  unfold bind at 1. unfold bind at 1. unfold item at 1. rewrite Eyid.
  cbn [lift_exn ret]. unfold bind at 1. unfold append_to at 1.
  unfold bind at 1, self_get, gets. cbn [snd]. rewrite Hk.
  unfold self_set, modify. cbn [fst snd]. unfold bind at 1. unfold item at 1.
  rewrite Estatus. cbn [lift_exn ret].
  destruct (json_eqb status (JStr "pending")).
  - unfold append_to, bind at 1, self_get, gets. cbn [snd set_to_skip all_pending].
    rewrite Hp. unfold self_set, modify. cbn [fst snd].
    apply IH; cbn; rewrite ?Hp, ?Hi; eauto.
  - unfold bind at 1. unfold item at 1. rewrite Estatus. cbn [lift_exn ret].
    destruct (json_eqb status (JStr "ignore")).
    + unfold append_to, bind at 1, self_get, gets. cbn [snd set_to_skip all_ignored].
      rewrite Hi. unfold self_set, modify. cbn [fst snd].
      apply IH; cbn; rewrite ?Hp, ?Hi; eauto.
    + cbn [ret]. apply IH; cbn; rewrite ?Hp, ?Hi; eauto.
Qed.

Lemma get_download_unfold (s : Store) (o : PendingIndex.t) :
  get_download (s, o)
  = get_download_loop (download_queue s)
      (s, set_to_skip (Some []) (set_all_ignored (Some []) (set_all_pending (Some []) o))).
Proof. reflexivity. Qed.

(** X1.  [get_download] returns exactly when every document of the download
    queue has a [youtube_id] and a [status].  It then holds the documents
    oldest first: [to_skip] is the [youtube_id] of each, [all_pending]
    those whose status is "pending", [all_ignored] those whose status is
    "ignore"; a document of any other status is in [to_skip] only.  The
    store and the other attributes are as before. *)
Theorem get_download_partitions (s : Store) (o : PendingIndex.t) :
  let results := download_queue s in
  (forall d, d ∈ results <-> exists id, es s !! ("ta_download", id) = Some d)
  /\ (is_ok (get_download (s, o)) = true
      <-> Forall (fun d => is_Some (d !! "youtube_id") /\ is_Some (d !! "status")) results)
  /\ forall so',
       get_download (s, o) = Ok tt so' ->
       so'
       = (s, PendingIndex.mk
               (Some (filter (fun d => has_status "pending" d = true) results))
               (Some (filter (fun d => has_status "ignore" d = true) results))
               (all_videos o) (all_channels o) (channel_overwrites o)
               (video_overwrites o)
               (Some (omap (fun d => d !! "youtube_id") results))
               (youtube_ids o) (missing_videos o)).
Proof.
  intros results. split; [apply elem_of_download_queue|].
  assert (Hok : forall so',
    get_download (s, o) = Ok tt so' ->
    Forall (fun d => is_Some (d !! "youtube_id") /\ is_Some (d !! "status")) results
    /\ so'
       = (s, PendingIndex.mk
               (Some (filter (fun d => has_status "pending" d = true) results))
               (Some (filter (fun d => has_status "ignore" d = true) results))
               (all_videos o) (all_channels o) (channel_overwrites o)
               (video_overwrites o)
               (Some (omap (fun d => d !! "youtube_id") results))
               (youtube_ids o) (missing_videos o))).
  { intros so' Hrun. rewrite get_download_unfold in Hrun.
    apply get_download_loop_ok with (pending := []) (ignored := []) (skip := [])
      in Hrun as [Hall ->]; [|done..].
    split; [done|]. cbn [app]. f_equal. f_equal. f_equal.
    apply list_filter_iff. intros d. split; [by intros [_ ?]|].
    intros Hi. split; [|done]. unfold has_status in *.
    destruct (d !! "status") as [[| | |st| |]|]; try done.
    cbn in Hi. apply String.eqb_eq in Hi as ->. reflexivity. }
  split; [|intros so' Hrun; by apply Hok].
  split.
  - destruct (get_download (s, o)) as [[] so'|e so'] eqn:Hrun; [|discriminate].
    intros _. by destruct (Hok so' eq_refl) as [Hall _].
  - intros Hall. rewrite get_download_unfold. fold results.
    destruct (get_download_loop_returns results s
                (set_to_skip (Some []) (set_all_ignored (Some [])
                   (set_all_pending (Some []) o)))) as [so' ->]; cbn; eauto.
Qed.

(** ** Interacting with the download queue *)





(** ** Channel overwrites of the pending videos *)

(** The loop of [_map_overwrites] over the pending videos. *)
Definition map_overwrites_loop (pending : list doc) : M (Store * PendingIndex.t) unit :=
  for_each pending (fun video =>
    video_id <- lift_exn (item video "youtube_id") ;;
    video_id <- lift_exn (as_str video_id) ;;
    channel_id <- lift_exn (item video "channel_id") ;;
    channel_id <- lift_exn (as_str channel_id) ;;
    co <- self_get channel_overwrites ;;
    match default ∅ co !! channel_id with
    | Some overwrites =>
        if truthy overwrites
        then self_set (fun o =>
               set_video_overwrites
                 (Some (<[video_id := overwrites]> (default ∅ (video_overwrites o)))) o)
        else ret tt
    | None => ret tt
    end).

(** A pending video of a channel with overwrites. *)
Definition overwritten (pending : list doc) (co : gmap string json)
    (video_id : string) (overwrites : json) : Prop :=
  exists video channel_id,
    video ∈ pending
    /\ video !! "youtube_id" = Some (JStr video_id)
    /\ video !! "channel_id" = Some (JStr channel_id)
    /\ co !! channel_id = Some overwrites
    /\ truthy overwrites = true.

Lemma map_overwrites_loop_ok (pending : list doc) :
  forall (s : Store) (o : PendingIndex.t) (so' : Store * PendingIndex.t)
         (vo : gmap string json),
    video_overwrites o = Some vo ->
    map_overwrites_loop pending (s, o) = Ok tt so' ->
    exists vo',
      so' = (s, set_video_overwrites (Some vo') o)
      /\ (forall video_id overwrites,
            vo' !! video_id = Some overwrites ->
            vo !! video_id = Some overwrites
            \/ overwritten pending (default ∅ (channel_overwrites o)) video_id overwrites)
      /\ (forall video_id,
            is_Some (vo !! video_id)
            \/ (exists overwrites,
                  overwritten pending (default ∅ (channel_overwrites o)) video_id overwrites) ->
            is_Some (vo' !! video_id)).
Proof.
  induction pending as [|video pending IH]; intros s o so' vo Hvo.
  { cbn. intros [= <-]. exists vo. split; [|split].
    - destruct o; cbn in *; by subst.
    - auto.
    - intros video_id [?|(ow & v & c & Hin & _)]; [done|]. by apply elem_of_nil in Hin. }
  unfold map_overwrites_loop. cbn [for_each]. fold (map_overwrites_loop pending).
  unfold bind at 1. unfold bind at 1. unfold item at 1.
  destruct (video !! "youtube_id") as [[| | |video_id| |]|] eqn:Evid; try discriminate.
  cbn [lift_exn ret as_str]. unfold bind at 1. cbn [lift_exn ret].
  unfold bind at 1. unfold item at 1.
  destruct (video !! "channel_id") as [[| | |channel_id| |]|] eqn:Ecid; try discriminate.
  cbn [lift_exn ret as_str]. unfold bind at 1. cbn [lift_exn ret].
  unfold bind at 1, self_get, gets. cbn [snd].
  set (co := default ∅ (channel_overwrites o)).
  destruct (co !! channel_id) as [overwrites|] eqn:Eco.
  2:{ cbn [ret]. intros Hrest. destruct (IH _ _ _ _ Hvo Hrest) as (vo' & -> & Hsound & Hall).
      fold co in Hsound, Hall. exists vo'. split; [done|]. split.
      - intros v ow Hv. destruct (Hsound v ow Hv) as [?|(x & c & Hin & ?)]; [by left|].
        right. exists x, c. split; [by right|done].
      - intros v [Hv|(ow & x & c & Hin & Hx & Hc & Hco & Ht)]; [apply Hall; by left|].
        apply elem_of_cons in Hin as [->|Hin].
        + rewrite Ecid in Hc. injection Hc as <-. congruence.
        + apply Hall. right. exists ow, x, c. by repeat split. }
  destruct (truthy overwrites) eqn:Etruthy.
  2:{ cbn [ret]. intros Hrest. destruct (IH _ _ _ _ Hvo Hrest) as (vo' & -> & Hsound & Hall).
      fold co in Hsound, Hall. exists vo'. split; [done|]. split.
      - intros v ow Hv. destruct (Hsound v ow Hv) as [?|(x & c & Hin & ?)]; [by left|].
        right. exists x, c. split; [by right|done].
      - intros v [Hv|(ow & x & c & Hin & Hx & Hc & Hco & Ht)]; [apply Hall; by left|].
        apply elem_of_cons in Hin as [->|Hin].
        + rewrite Ecid in Hc. injection Hc as <-. congruence.
        + apply Hall. right. exists ow, x, c. by repeat split. }
  unfold self_set, modify. cbn [fst snd]. rewrite Hvo. cbn [default]. unfold Datatypes.id.
  intros Hrest.
  apply IH with (vo := <[video_id := overwrites]> vo) in Hrest
    as (vo' & -> & Hsound & Hall); [|done].
  cbn [channel_overwrites set_video_overwrites] in Hsound, Hall. fold co in Hsound, Hall.
  exists vo'. split; [by destruct o|]. split.
  - intros v ow Hv. destruct (Hsound v ow Hv) as [Hins|(x & c & Hin & ?)].
    + destruct (decide (video_id = v)) as [<-|Hne].
      * rewrite lookup_insert_eq in Hins. injection Hins as <-.
        right. exists video, channel_id. split; [by left|done].
      * rewrite lookup_insert_ne in Hins by done. by left.
    + right. exists x, c. split; [by right|done].
  - intros v Hv. apply Hall.
    destruct (decide (video_id = v)) as [<-|Hne]; [left; by rewrite lookup_insert_eq|].
    destruct Hv as [Hv|(ow & x & c & Hin & Hx & Hc & Hco & Ht)].
    + left. by rewrite lookup_insert_ne.
    + apply elem_of_cons in Hin as [->|Hin]; [congruence|].
      right. exists ow, x, c. by repeat split.
Qed.

(** X2.  The overwrites [_map_overwrites] assigns are those of the channels
    of the pending videos: a video has an entry exactly when it is a
    pending video whose channel has overwrites, and the entry is the
    (truthy) overwrites of the channel of a pending video with that
    id.  Nothing else is changed. *)
Theorem map_overwrites_sound (s : Store) (o : PendingIndex.t)
    (so' : Store * PendingIndex.t) (pending : list doc) :
  all_pending o = Some pending ->
  _map_overwrites (s, o) = Ok tt so' ->
  exists vo',
    so' = (s, set_video_overwrites (Some vo') o)
    /\ forall video_id,
         (forall overwrites,
            vo' !! video_id = Some overwrites ->
            overwritten pending (default ∅ (channel_overwrites o)) video_id overwrites)
         /\ (is_Some (vo' !! video_id)
             <-> exists overwrites,
                   overwritten pending (default ∅ (channel_overwrites o))
                     video_id overwrites).
Proof.
  intros Hp. unfold _map_overwrites.
  unfold bind at 1. unfold self_set at 1, modify. unfold bind at 1, self_get, gets.
  cbn [fst snd set_video_overwrites all_pending]. rewrite Hp.
  fold (map_overwrites_loop pending). intros Hrun.
  apply map_overwrites_loop_ok with (vo := ∅) in Hrun as (vo' & -> & Hsound & Hall);
    [|done].
  cbn [channel_overwrites set_video_overwrites] in Hsound, Hall.
  exists vo'. split; [by destruct o|]. intros video_id.
  assert (Hs : forall overwrites,
            vo' !! video_id = Some overwrites ->
            overwritten pending (default ∅ (channel_overwrites o)) video_id overwrites).
  { intros ow Hv. destruct (Hsound _ _ Hv) as [Hempty|?]; [|done].
    by rewrite lookup_empty in Hempty. }
  split; [exact Hs|]. split.
  - intros [ow Hv]. exists ow. by apply Hs.
  - intros Hex. apply Hall. by right.
Qed.

(** ** Instances *)

(** X7, an instance: upstream has one comment for v1. *)
Lemma refresh_replaces_comments_witness :
  exists s',
    @Comments.reindex_comments env_one_comment (Comments.init "v1") store_one_comment
    = Ok tt s'
    /\ es s' !! ("ta_comment", "v1")
       = Some (@comment_doc env_one_comment "v1" (Some (JStr "UC1")) [cleaned_comment])
    /\ (es s' !! ("ta_video", "v1")) ≫= (fun d => d !! "comment_count") = Some (JInt 1).
Proof.
  assert (Hne : "20, 0, 0, 0" <> "") by discriminate.
  assert (Hraw : [raw_comment] <> []) by discriminate.
  destruct (@refresh_replaces_comments env_one_comment "v1" store_one_comment
              "20, 0, 0, 0" info_one_comment [raw_comment] [cleaned_comment]
              eq_refl Hne eq_refl eq_refl Hraw eq_refl)
    as (s' & Hrun & Hes & _).
  exists s'. split; [exact Hrun|]. rewrite Hes. split; vm_compute; reflexivity.
Defined.

(** X10, an instance: v1 is refreshed with comments switched off. *)
Lemma video_refresh_without_comments_witness :
  exists s',
    @Reindex._reindex_single_video env_fresh "v1" store_channel_and_video = Ok tt s'
    /\ clock s' = 2%nat.
Proof.
  assert (Hthumb : is_Some (fresh_video "v1" !! "vid_thumb_url"))
    by (eexists; vm_compute; reflexivity).
  destruct (@video_refresh_without_comments env_fresh "v1" store_channel_and_video
              video_v1 (fresh_video "v1") (JDict [("watched", JBool true)])
              (JInt 1600000000) (JDict [("channel_id", JStr "UC1")])
              eq_refl eq_refl eq_refl eq_refl eq_refl eq_refl Hthumb)
    as (s' & Hrun & _ & Hclock & _).
  exists s'. split; [exact Hrun|exact Hclock].
Defined.


(** X14, an instance: a re-check interval of 0 days. *)
Lemma add_outdated_interval_zero_witness :
  @ReindexOutdated.add_outdated (quiet_env (config_days 0)) world_one_queued
  = Raise ZeroDivisionError world_one_queued.
Proof.
  exact (@add_outdated_interval_zero (quiet_env (config_days 0)) world_one_queued eq_refl).
Defined.

(** X15, an instance: a request with the key "comment" between valid keys. *)
Lemma extract_data_unknown_key_witness :
  ReindexManual.extract_data false
    (manual_request ++ ("comment", ["c1"]) :: [("playlist", ["PL1"])])
    (mkWorld store_playlist ∅)
  = match ReindexManual.extract_data false manual_request
            (mkWorld store_playlist ∅) with
    | Ok _ w1 =>
        Raise ValueError
          (set_store w1
             (add_event (EvPrint ("reindex type " +:+ "comment" +:+ " not valid"))
                (store w1)))
    | Raise e w1 => Raise e w1
    end.
Proof.
  apply extract_data_unknown_key; discriminate.
Defined.

(** X16, an instance: two videos and a channel are requested. *)
Lemma extract_data_queues_ids_witness :
  exists w',
    ReindexManual.extract_data false manual_request
      (mkWorld store_playlist ∅) = Ok tt w'
    /\ queued_request manual_request (mkWorld store_playlist ∅) w'.
Proof.
  apply extract_data_queues_ids.
  repeat constructor; cbn; eauto.
Defined.

(** X19, an instance: v1 is queued and asked for under the type video. *)
Lemma progress_of_type_witness :
  exists progress,
    ReindexProgress.get_progress (ReindexProgress.mk (Some "video") (Some "v1"))
      world_one_queued = Ok progress world_one_queued
    /\ progress !! "total_queued" = Some (JInt 1)
    /\ progress !! "state" = Some (JBool true).
Proof.
  assert (Hne : "video" <> "") by discriminate.
  pose proof (progress_of_type world_one_queued "video" (Some "v1") Hne) as Hp.
  cbv zeta in Hp. rewrite get_config_spec in Hp. cbn [String.eqb Ascii.eqb Bool.eqb] in Hp.
  destruct Hp as (_ & progress & Hrun & _ & Htotal & Hstate).
  exists progress. split; [exact Hrun|]. split; [exact Htotal|].
  cbn in Hstate. exact (proj2 Hstate).
Defined.

(** X20, an instance: two videos are queued. *)
Lemma progress_overall_witness :
  exists progress,
    ReindexProgress.get_progress (ReindexProgress.mk None None) world_two_queued
    = Ok progress world_two_queued
    /\ progress !! "total_queued" = Some (JInt 2)
    /\ progress !! "state" = Some (JStr "running").
Proof.
  destruct (progress_overall world_two_queued None None eq_refl eq_refl)
    as (progress & Hrun & _ & Htotal & _ & Hstate).
  exists progress. split; [exact Hrun|]. split; [exact Htotal|exact Hstate].
Defined.

(** X21, an instance: the media file of v1 is not on disk. *)
Lemma fixer_run_without_move_witness :
  @ChannelUrlFixer.run (quiet_env (config_days 90)) (ChannelUrlFixer.init "v1") store_media
  = Raise ValueError
      (add_event (EvPrint "giving up reindex, video in video")
         (add_event (EvPrint ("v1" +:+ ": failed to build channel path, try to fix."))
            store_media)).
Proof.
  apply (proj1 (@fixer_run_without_move (quiet_env (config_days 90)) "v1" store_media
                  (<["media_url" := JStr "UC1/v1.mp4"]> video_v1) "UC1/v1.mp4"
                  eq_refl eq_refl)).
  apply not_elem_of_empty.
Defined.

(** X12, an instance: the subscribed playlist PL1 is refreshed. *)
Lemma playlist_refresh_keeps_subscription_witness :
  @Reindex._reindex_single_playlist env_playlist Reindex.init "PL1" store_playlist
  = Ok (Reindex.mk (Some [JStr "v1"]))
      (set_es (insert ("ta_playlist", "PL1")
                 (<["playlist_subscribed" := JBool true]> fresh_playlist))
         (bump_clock store_playlist)).
Proof.
  apply (@playlist_refresh_keeps_subscription env_playlist Reindex.init
           (Reindex.mk (Some [JStr "v1"])) "PL1" store_playlist playlist_PL1
           fresh_playlist (JBool true));
    vm_compute; reflexivity.
Defined.

(** X17, an instance: the cycle over the queue that holds v1. *)
Lemma cycle_drains_queues_witness :
  default [] (queues (final (cycle_cookie false)) !! "reindex:ta_video") = []
  /\ messages (store (final (cycle_cookie false))) !! "last_reindex"
     = Some (JInt 1700000000, JNone).
Proof.
  assert (Hrun : @Reindex.reindex_all (env_cookie false) Reindex.init world_one_queued
                 = Ok (Some tt) (final (cycle_cookie false)))
    by (vm_compute; reflexivity).
  destruct (@cycle_drains_queues (env_cookie false) Reindex.init world_one_queued
              (final (cycle_cookie false)) (bump_clock (store world_one_queued))
              eq_refl Hrun) as (Hq & _ & Hmsg).
  split; [|exact Hmsg].
  apply (Hq "reindex:ta_video"); [repeat constructor|].
  repeat constructor. discriminate.
Defined.

(** X5, an instance: the extractor knows v2, which is not live. *)
Lemma get_youtube_details_sound_witness :
  match @PendingList.get_youtube_details env_intake "v2" pass_v2_missing with
  | Ok (Some details) _ => details !! "youtube_id" = Some (JStr "v2")
  | _ => False
  end.
Proof.
  assert (Hsome : match @PendingList.get_youtube_details env_intake "v2" pass_v2_missing with
                  | Ok (Some _) _ => true
                  | _ => false
                  end = true) by (vm_compute; reflexivity).
  destruct (@PendingList.get_youtube_details env_intake "v2" pass_v2_missing)
    as [[details|] so'|e so'] eqn:E; [|discriminate Hsome|discriminate Hsome].
  destruct (@get_youtube_details_sound env_intake "v2" pass_v2_missing so' details E)
    as (vid & live & ch & _ & _ & _ & _ & _ & _ & Hid & _).
  exact Hid.
Defined.

(** X6, an instance: v2 is missing and is queued as pending. *)
Lemma add_to_pending_entries_witness :
  match es (final (@PendingList.add_to_pending env_intake (JStr "pending")
                     pass_v2_missing)).1 !! ("ta_download", "v2") with
  | Some d => d !! "status" = Some (JStr "pending")
  | None => False
  end.
Proof.
  assert (Hsome : match es (final (@PendingList.add_to_pending env_intake (JStr "pending")
                                     pass_v2_missing)).1 !! ("ta_download", "v2") with
                  | Some _ => true
                  | None => false
                  end = true) by (vm_compute; reflexivity).
  destruct (es (final (@PendingList.add_to_pending env_intake (JStr "pending")
                         pass_v2_missing)).1 !! ("ta_download", "v2")) as [d|] eqn:E;
    [|discriminate Hsome].
  assert (Hnone : es pass_v2_missing.1 !! ("ta_download", "v2") = None)
    by (vm_compute; reflexivity).
  exact (proj1 (@add_to_pending_entries env_intake (JStr "pending") pass_v2_missing
                  "v2" d Hnone E)).
Defined.


(** X2, an instance: a snapshot with one pending video of a channel that has overwrites. *)
Lemma map_overwrites_sound_witness :
  exists vo',
    _map_overwrites (store_a_indexed_b_pending, snapshot_with_overwrites)
    = Ok tt (store_a_indexed_b_pending,
             set_video_overwrites (Some vo') snapshot_with_overwrites)
    /\ is_Some (vo' !! "b").
Proof.
  assert (Hok : is_ok (_map_overwrites (store_a_indexed_b_pending,
                                        snapshot_with_overwrites)) = true)
    by (vm_compute; reflexivity).
  destruct (_map_overwrites (store_a_indexed_b_pending, snapshot_with_overwrites))
    as [[] so'|e so'] eqn:E; [|discriminate Hok].
  destruct (map_overwrites_sound store_a_indexed_b_pending snapshot_with_overwrites so'
              [pending_b] eq_refl E) as (vo' & -> & Hvo).
  exists vo'. split; [reflexivity|]. apply (Hvo "b").
  exists (JDict [("download_format", JStr "best")]), pending_b, "UC1".
  split; [by left|]. split; [vm_compute; reflexivity|]. split; [vm_compute; reflexivity|].
  split; [vm_compute; reflexivity|reflexivity].
Defined.

(** X11, an instance: the stored record of a has no player field. *)
Lemma video_refresh_needs_sticky_fields_witness :
  @Reindex._reindex_single_video (quiet_env (config_days 90)) "a" store_a_indexed_b_pending
  = Raise (KeyError "player") store_a_indexed_b_pending.
Proof.
  apply (@video_refresh_needs_sticky_fields (quiet_env (config_days 90)) "a"
           store_a_indexed_b_pending {["youtube_id" := JStr "a"]} "player");
    vm_compute; reflexivity.
Defined.

Example get_download_snapshot :
  get_download (store_a_indexed_b_pending, PendingIndex.init)
  = Ok tt (store_a_indexed_b_pending,
           PendingIndex.mk
             (Some [<["status" := JStr "pending"]> {["youtube_id" := JStr "b"]}])
             (Some []) None None None None (Some [JStr "b"]) None None).
Proof. vm_compute. reflexivity. Qed.

Example delete_pending_empties_snapshot :
  get_download
    (final (PendingInteract.delete_by_status (PendingInteract.mk None (Some "pending"))
              store_a_indexed_b_pending), PendingIndex.init)
  = Ok tt
      (mkStore {[("ta_video", "a") := {["youtube_id" := JStr "a"]}]} ∅ [] 0 ∅,
       PendingIndex.mk (Some []) (Some []) None None None None (Some []) None None).
Proof. vm_compute. reflexivity. Qed.

